(** * ACENEXA CBT: access-token lifecycle and device binding

    A shallow embedding of the token logic of the repository:
    - the client module [services/auth.ts] (local token cache,
      [verifyLocalToken], [loginWithToken], [resetTokenDevice],
      [getAllTokens], [generateSecureToken]) and its older sibling;
    - the Express handlers of [server.js] and of its sibling versions
      ([/api/auth/login-with-token], [/api/admin/reset-token-device]).

    Conventions of the embedding.
    - A JavaScript string is a [string]; case conversion and trimming are
      the ASCII ones.  They are the methods of the language on strings of
      ASCII characters ([JS.ascii_only]); what is stated of the normal form
      of a string is stated of such strings.
    - A timestamp (an ISO date string as stored, or a [Date]) is its number
      of milliseconds since the epoch, a [Z]; the arithmetic of [Date] is
      that of [JSDate].
    - [null] and [undefined] are [None]; JavaScript truthiness of a nullable
      string is [truthy]: [null], [undefined] and the empty string are falsy.
    - [localStorage] and the [access_tokens] table are threaded explicitly;
      a write to [localStorage] always succeeds, a write to the table
      succeeds or reports an error ([WriteOutcome]).
    - Every reading of the clock is an argument of the function that reads
      it.
    - A thrown [Error(msg)] is [Throw msg]. *)

From Stdlib Require Import String Ascii List ZArith Lia Bool.
From Stdlib Require Import Permutation Sorted DecimalString.
Import ListNotations.
Local Open Scope string_scope.

(* ================================================================== *)
(** ** JavaScript primitives used by the code *)

Module JS.

(** [!!s] for [s : string | null | undefined]. *)
Definition truthy (o : option string) : bool :=
  match o with
  | Some s => negb (s =? EmptyString)
  | None => false
  end.

(** [a !== b] for a nullable string [a] and a string [b]. *)
Definition strict_neq (a : option string) (b : string) : bool :=
  match a with
  | Some s => negb (s =? b)
  | None => true
  end.

(** [a || d] on nullable strings. *)
Definition or_else (a : option string) (d : string) : string :=
  match a with
  | Some s => if s =? EmptyString then d else s
  | None => d
  end.

Definition upper_ascii (c : ascii) : ascii :=
  let n := nat_of_ascii c in
  if (97 <=? n)%nat && (n <=? 122)%nat then ascii_of_nat (n - 32) else c.

(** [s.toUpperCase()], for a string of ASCII characters. *)
Fixpoint toUpperCase (s : string) : string :=
  match s with
  | EmptyString => EmptyString
  | String c r => String (upper_ascii c) (toUpperCase r)
  end.

Definition is_space (c : ascii) : bool :=
  let n := nat_of_ascii c in
  (n =? 32)%nat || ((9 <=? n)%nat && (n <=? 13)%nat).

Fixpoint trimStart (s : string) : string :=
  match s with
  | EmptyString => EmptyString
  | String c r => if is_space c then trimStart r else s
  end.

Fixpoint trimEnd (s : string) : string :=
  match s with
  | EmptyString => EmptyString
  | String c r =>
      match trimEnd r with
      | EmptyString => if is_space c then EmptyString else String c EmptyString
      | r' => String c r'
      end
  end.

(** [s.trim()], for a string of ASCII characters: the white space of
    ASCII is the blank and the characters 9 to 13. *)
Definition trim (s : string) : string := trimEnd (trimStart s).

(** [s.charAt(k)]: the empty string when [k] is out of range. *)
Definition charAt (s : string) (k : Z) : string :=
  if (k <? 0)%Z then EmptyString
  else match String.get (Z.to_nat k) s with
       | Some c => String c EmptyString
       | None => EmptyString
       end.

(** [s[k]] appended to a string: ["undefined"] when [k] is out of range. *)
Definition index (s : string) (k : Z) : string :=
  if (k <? 0)%Z then "undefined"
  else match String.get (Z.to_nat k) s with
       | Some c => String c EmptyString
       | None => "undefined"
       end.

(** [s.substring(a, b)] and [s.slice(a, b)] for [0 <= a <= b]. *)
Definition substring (s : string) (a b : nat) : string :=
  String.substring a (b - a) s.

(** [Math.ceil(a / b)] for an integer [a] and a positive integer [b]:
    the quotient of the integers, rounded up.  The division of the code is
    one of doubles; it gives this integer as long as [a] is an integer of
    at most [MAX_SAFE_INTEGER] in absolute value and [b] is the number of
    milliseconds of a day. *)
Definition ceil_div (a b : Z) : Z := (- ((- a) / b))%Z.

(** [Number.MAX_SAFE_INTEGER], [2 ^ 53 - 1]. *)
Definition MAX_SAFE_INTEGER : Z := 9007199254740991%Z.

(** The strings on which [toUpperCase], [toLowerCase] and [trim] of this
    development are the methods of the language: those of ASCII
    characters.  Beyond ASCII the methods also convert other letters
    (sometimes to ASCII ones) and strip other white space (U+00A0, U+2028,
    U+FEFF, ...). *)
Definition is_ascii (c : ascii) : bool := (nat_of_ascii c <? 128)%nat.

Fixpoint ascii_only (s : string) : bool :=
  match s with
  | EmptyString => true
  | String c r => is_ascii c && ascii_only r
  end.

(** The characters that a URL path segment carries unchanged from the
    template string of the client to [req.params] of the route: letters,
    digits and the hyphen. *)
Definition is_plain (c : ascii) : bool :=
  let n := nat_of_ascii c in
  ((48 <=? n)%nat && (n <=? 57)%nat) || ((65 <=? n)%nat && (n <=? 90)%nat)
  || ((97 <=? n)%nat && (n <=? 122)%nat) || (n =? 45)%nat.

Fixpoint all_plain (s : string) : bool :=
  match s with
  | EmptyString => true
  | String c r => is_plain c && all_plain r
  end.

(** A non-empty string of such characters. *)
Definition path_segment (s : string) : bool :=
  negb (s =? EmptyString) && all_plain s.

End JS.

(* ================================================================== *)
(** ** Data model *)

Definition Time := Z.

Inductive Role := student | admin.

(** [interface User] of [auth.ts].  The client casts the JSON it receives
    to [User] without a check ([res as User]), so every field may be
    missing at run time. *)
Record User := mkUser {
  username : option string;
  role : option Role;
  fullName : option string;
  regNumber : option string;
  isTokenLogin : option bool;
  allowedExamType : option string
}.

Record Metadata := mkMetadata {
  payment_ref : option string;
  amount_paid : option Z;
  exam_type : option string;
  full_name : option string;
  phone_number : option string;
  email : option string;
  generated_by : option string
}.

(** The [id] of a record: a row key of the table, [`cached-${Date.now()}`]
    or [Date.now().toString()]. *)
Inductive TokenId :=
| RowId (k : string)
| CachedId (t : Time)
| StampId (t : Time).

(** [interface TokenInfo]; also the shape of a row of [access_tokens]. *)
Record TokenInfo := mkToken {
  token_id : TokenId;
  token_code : string;
  is_active : bool;
  created_at : Time;
  device_fingerprint : option string;
  bound_at : option Time;
  expires_at : option Time;
  metadata : Metadata
}.

(** [Partial<TokenInfo>] as used by the updates of the code: each field is
    either left alone ([None]) or overwritten. *)
Record Patch := mkPatch {
  set_is_active : option bool;
  set_device_fingerprint : option (option string);
  set_bound_at : option (option Time);
  set_expires_at : option (option Time)
}.

Definition override {A} (o : option A) (old : A) : A :=
  match o with Some v => v | None => old end.

(** [{ ...t, ...updates }]. *)
Definition apply_patch (u : Patch) (t : TokenInfo) : TokenInfo :=
  mkToken (token_id t) (token_code t)
          (override (set_is_active u) (is_active t))
          (created_at t)
          (override (set_device_fingerprint u) (device_fingerprint t))
          (override (set_bound_at u) (bound_at t))
          (override (set_expires_at u) (expires_at t))
          (metadata t).

Definition token_id_eqb (a b : TokenId) : bool :=
  match a, b with
  | RowId x, RowId y => x =? y
  | CachedId x, CachedId y => (x =? y)%Z
  | StampId x, StampId y => (x =? y)%Z
  | _, _ => false
  end.

(** Outcome of code that may throw. *)
Inductive Result (A : Type) :=
| Ok (a : A)
| Throw (msg : string).
Arguments Ok {A} a.
Arguments Throw {A} msg.

(* ================================================================== *)
(** ** The arithmetic of [Date]

    The abstract operations of the language on time values (milliseconds
    since the epoch), for a time zone of fixed offset [tz] from UTC, as UTC
    itself is: [LocalTime t = t + tz].  The time values of [Date] lie
    within [maxTime] of the epoch; what leaves this range is an invalid
    date. *)

Module JSDate.

Definition msPerDay : Z := 86400000%Z.

Definition maxTime : Z := 8640000000000000%Z.

Definition valid_time (t : Time) : Prop := (- maxTime <= t <= maxTime)%Z.

Definition Day (t : Time) : Z := (t / msPerDay)%Z.

Definition TimeWithinDay (t : Time) : Z := (t mod msPerDay)%Z.

Definition DaysInYear (y : Z) : Z :=
  if negb (y mod 4 =? 0)%Z then 365%Z
  else if negb (y mod 100 =? 0)%Z then 366%Z
  else if negb (y mod 400 =? 0)%Z then 365%Z
  else 366%Z.

(** The day number of the first day of year [y]. *)
Definition DayFromYear (y : Z) : Z :=
  (365 * (y - 1970) + (y - 1969) / 4 - (y - 1901) / 100 + (y - 1601) / 400)%Z.

(** The largest [y] with [DayFromYear y <= Day t] ([YearFromTime_spec]),
    counted from 1601 in cycles of 400, 100, 4 and 1 years. *)
Definition YearFromTime (t : Time) : Z :=
  let d := (Day t + 134774)%Z in
  let n400 := (d / 146097)%Z in
  let r400 := (d mod 146097)%Z in
  let n100 := Z.min (r400 / 36524) 3 in
  let r100 := (r400 - n100 * 36524)%Z in
  let n4 := (r100 / 1461)%Z in
  let r4 := (r100 mod 1461)%Z in
  let n1 := Z.min (r4 / 365) 3 in
  (1601 + 400 * n400 + 100 * n100 + 4 * n4 + n1)%Z.

(** 1 in a leap year, 0 otherwise. *)
Definition InLeapYear (t : Time) : Z := (DaysInYear (YearFromTime t) - 365)%Z.

Definition DayWithinYear (t : Time) : Z := (Day t - DayFromYear (YearFromTime t))%Z.

(** The month (from 0) of day [d] of a year, [l] being 1 in a leap year. *)
Definition month_of (d l : Z) : Z :=
  if (d <? 31)%Z then 0%Z else if (d <? 59 + l)%Z then 1%Z
  else if (d <? 90 + l)%Z then 2%Z else if (d <? 120 + l)%Z then 3%Z
  else if (d <? 151 + l)%Z then 4%Z else if (d <? 181 + l)%Z then 5%Z
  else if (d <? 212 + l)%Z then 6%Z else if (d <? 243 + l)%Z then 7%Z
  else if (d <? 273 + l)%Z then 8%Z else if (d <? 304 + l)%Z then 9%Z
  else if (d <? 334 + l)%Z then 10%Z else 11%Z.

Definition MonthFromTime (t : Time) : Z :=
  month_of (DayWithinYear t) (InLeapYear t).

(** The day of the year on which month [m] starts. *)
Definition MonthStart (m leap : Z) : Z :=
  if (m =? 0)%Z then 0%Z else if (m =? 1)%Z then 31%Z
  else if (m =? 2)%Z then (59 + leap)%Z else if (m =? 3)%Z then (90 + leap)%Z
  else if (m =? 4)%Z then (120 + leap)%Z else if (m =? 5)%Z then (151 + leap)%Z
  else if (m =? 6)%Z then (181 + leap)%Z else if (m =? 7)%Z then (212 + leap)%Z
  else if (m =? 8)%Z then (243 + leap)%Z else if (m =? 9)%Z then (273 + leap)%Z
  else if (m =? 10)%Z then (304 + leap)%Z else (334 + leap)%Z.

(** The day of the month, from 1. *)
Definition DateFromTime (t : Time) : Z :=
  (DayWithinYear t - MonthStart (MonthFromTime t) (InLeapYear t) + 1)%Z.

(** The day number of the given date; a date past the end of its month
    runs into the next one. *)
Definition MakeDay (year month date : Z) : Z :=
  let ym := (year + month / 12)%Z in
  let mn := (month mod 12)%Z in
  (DayFromYear ym + MonthStart mn (DaysInYear ym - 365) + date - 1)%Z.

Definition MakeDate (day time : Z) : Time := (day * msPerDay + time)%Z.

(** [d.getFullYear()]. *)
Definition getFullYear (tz : Z) (t : Time) : Z := YearFromTime (t + tz)%Z.

(** The time value of [d] after [d.setFullYear(year)]. *)
Definition setFullYear (tz : Z) (year : Z) (t : Time) : Time :=
  let local := (t + tz)%Z in
  (MakeDate (MakeDay year (MonthFromTime local) (DateFromTime local))
            (TimeWithinDay local) - tz)%Z.

(** The time value of [d] after [d.setFullYear(d.getFullYear() + 1)]. *)
Definition plus_one_year (tz : Z) (t : Time) : Time :=
  setFullYear tz (getFullYear tz t + 1)%Z t.

End JSDate.

(* ================================================================== *)
(** ** Local token cache ([localStorage], key [jamb_cbt_local_tokens]) *)

Module LocalCache.

(** What [getLocalTokens] returns: the parsed array, or [[]] when the
    entry is missing or corrupt. *)
Definition Tokens := list TokenInfo.

Definition saveLocalToken (token : TokenInfo) (tokens : Tokens) : Tokens :=
  token :: filter (fun t => negb (token_code t =? token_code token)) tokens.

Definition updateLocalToken (tokenCode : string) (updates : Patch)
           (tokens : Tokens) : Tokens :=
  map (fun t => if token_code t =? tokenCode then apply_patch updates t else t)
      tokens.

Definition deleteLocalToken (tokenCode : string) (tokens : Tokens) : Tokens :=
  filter (fun t => negb (token_code t =? tokenCode)) tokens.

(** [localTokens.find(t => t.token_code.toUpperCase() === token.trim().toUpperCase())] *)
Definition lookup (token : string) (tokens : Tokens) : option TokenInfo :=
  find (fun t => JS.toUpperCase (token_code t) =? JS.toUpperCase (JS.trim token))
       tokens.

End LocalCache.

(* ================================================================== *)
(** ** Messages *)

Definition BINDING_REQUIRED := "BINDING_REQUIRED".
Definition msg_local_invalid :=
  "Offline: Invalid Access Code or not cached on this device.".
Definition msg_local_deactivated := "This token has been deactivated by Admin.".
Definition msg_local_locked :=
  "⛔ ACCESS DENIED: This Access Code is locked to another device.".

(* ================================================================== *)
(** ** [verifyLocalToken] ([auth.ts]) *)

Definition local_user (found : TokenInfo) : User :=
  mkUser (Some (token_code found)) (Some student)
         (Some (JS.or_else (full_name (metadata found)) "Candidate (Offline)"))
         (Some (token_code found))
         (Some true)
         (Some (JS.or_else (exam_type (metadata found)) "BOTH")).

Definition verifyLocalToken (token currentFingerprint : string)
           (confirmBinding : bool) (tokens : LocalCache.Tokens)
  : Result User * LocalCache.Tokens :=
  match LocalCache.lookup token tokens with
  | None => (Throw msg_local_invalid, tokens)
  | Some found =>
      if negb (is_active found) then (Throw msg_local_deactivated, tokens)
      else if negb (JS.truthy (device_fingerprint found)) then
        if negb confirmBinding then (Throw BINDING_REQUIRED, tokens)
        else
          (Ok (local_user found),
           LocalCache.updateLocalToken (token_code found)
             (mkPatch None (Some (Some currentFingerprint)) None None) tokens)
      else if JS.strict_neq (device_fingerprint found) currentFingerprint then
        (Throw msg_local_locked, tokens)
      else (Ok (local_user found), tokens)
  end.

(** [verifyLocalToken] of the older client module: the same steps, two
    other messages. *)
Definition msg_old_invalid := "Offline: Invalid Access Code or not cached".
Definition msg_old_locked := "⛔ ACCESS DENIED: Token locked to another device.".

Definition verifyLocalToken_old (token currentFingerprint : string)
           (confirmBinding : bool) (tokens : LocalCache.Tokens)
  : Result User * LocalCache.Tokens :=
  match LocalCache.lookup token tokens with
  | None => (Throw msg_old_invalid, tokens)
  | Some found =>
      if negb (is_active found) then (Throw msg_local_deactivated, tokens)
      else if negb (JS.truthy (device_fingerprint found)) then
        if negb confirmBinding then (Throw BINDING_REQUIRED, tokens)
        else
          (Ok (local_user found),
           LocalCache.updateLocalToken (token_code found)
             (mkPatch None (Some (Some currentFingerprint)) None None) tokens)
      else if JS.strict_neq (device_fingerprint found) currentFingerprint then
        (Throw msg_old_locked, tokens)
      else (Ok (local_user found), tokens)
  end.

(* ================================================================== *)
(** ** The remote authority: table [access_tokens] and HTTP payloads *)

Module Remote.

Definition DB := list TokenInfo.

(** [.select('*').eq(...).single()]: the row when exactly one row
    matches, an error otherwise. *)
Definition select_single (p : TokenInfo -> bool) (db : DB) : option TokenInfo :=
  match filter p db with
  | [r] => Some r
  | _ => None
  end.

(** [.update(patch).eq(...)]. *)
Definition update_where (p : TokenInfo -> bool) (u : Patch) (db : DB) : DB :=
  map (fun r => if p r then apply_patch u r else r) db.

Definition by_code (code : string) (r : TokenInfo) : bool :=
  token_code r =? code.

Definition by_id (i : TokenId) (r : TokenInfo) : bool :=
  token_id_eqb (token_id r) i.

(** The human-readable expiry note of a payload. *)
Inductive Note :=
| NoNote
| Lifetime
| Expired
| Deactivated
| DaysRemaining (d : Z)
| DaysRemainingUntil (d : Z) (until : Time)
| BoundUntil (until : option Time).

(** Body of [{ success, token_code, is_active, bound, ... }]. *)
Record Summary := mkSummary {
  sum_token_code : string;
  sum_is_active : bool;
  sum_bound : bool;
  sum_bound_at : option Time;
  sum_expires_at : option Time;
  sum_remaining_days : option Z;
  sum_exam_type : string;
  sum_status_message : Note
}.

Inductive Body :=
| ErrorBody (error : string)
| RequiresBinding
| IdentityBody (u : User) (remainingDays : option Z)
               (expiresAt : option Time) (note : Note)
| SummaryBody (s : Summary)
| AckBody.

Record Response := mkResponse { status : Z; body : Body }.

Record LoginRequest := mkLoginRequest {
  req_token : string;
  req_deviceFingerprint : string;
  req_confirm_binding : bool
}.

(** [getRemainingDays]: [null] without an expiry, else the number of
    days left rounded up.  The code computes on doubles; the result is
    this integer for valid dates at most [JS.MAX_SAFE_INTEGER]
    milliseconds apart. *)
Definition getRemainingDays (now : Time) (expiresAt : option Time) : option Z :=
  match expiresAt with
  | None => None
  | Some e => Some (JS.ceil_div (e - now) (1000 * 60 * 60 * 24))
  end.

(** A number used as a condition: [null] and [0] are falsy. *)
Definition truthy_num (d : option Z) : bool :=
  match d with
  | Some n => negb (n =? 0)%Z
  | None => false
  end.

Definition identity_user (tokenData : TokenInfo) : User :=
  mkUser (Some (token_code tokenData)) (Some student)
         (Some (JS.or_else (full_name (metadata tokenData)) "Student"))
         (Some (token_code tokenData))
         (Some true)
         (Some (JS.or_else (exam_type (metadata tokenData)) "BOTH")).

(** Outcome of a write to the table: [None] when the store accepted it,
    [Some msg] when it reported an error with that message. *)
Definition WriteOutcome := option string.

(* ---------------------------------------------------------------- *)
(** *** [server.js]: [POST /api/auth/login-with-token] *)
Module ServerJs.

Definition identity (now : Time) (tokenData : TokenInfo) : Body :=
  let remainingDays := getRemainingDays now (expires_at tokenData) in
  IdentityBody (identity_user tokenData) remainingDays (expires_at tokenData)
    (match remainingDays with
     | Some d => if truthy_num remainingDays then DaysRemaining d else Lifetime
     | None => Lifetime
     end).

Definition login_with_token (write : WriteOutcome) (now : Time)
           (req : LoginRequest) (db : DB) : Response * DB :=
  match select_single (by_code (req_token req)) db with
  | None => (mkResponse 401 (ErrorBody "Invalid Access Token."), db)
  | Some tokenData =>
      if negb (is_active tokenData) then
        (mkResponse 403 (ErrorBody "This token is deactivated."), db)
      else if negb (JS.truthy (device_fingerprint tokenData)) then
        if negb (req_confirm_binding req) then
          (mkResponse 200 RequiresBinding, db)
        else
          match write with
          | Some bindError => (mkResponse 500 (ErrorBody bindError), db)
          | None =>
              (mkResponse 200 (identity now tokenData),
               update_where (by_id (token_id tokenData))
                 (mkPatch None (Some (Some (req_deviceFingerprint req))) None None)
                 db)
          end
      else if JS.strict_neq (device_fingerprint tokenData)
                            (req_deviceFingerprint req) then
        (mkResponse 403 (ErrorBody "Access code locked to another device."), db)
      else (mkResponse 200 (identity now tokenData), db)
  end.

End ServerJs.

(* ---------------------------------------------------------------- *)
(** *** The sibling server with the expiry check
    (third script of [vite.config.ts]) *)
Module ServerExpiry.

Definition identity (now : Time) (tokenData : TokenInfo) : Body :=
  IdentityBody (identity_user tokenData)
               (getRemainingDays now (expires_at tokenData))
               (expires_at tokenData) NoNote.

Definition login_with_token (write : WriteOutcome) (now : nat -> Time)
           (req : LoginRequest) (db : DB) : Response * DB :=
  match select_single (by_code (req_token req)) db with
  | None => (mkResponse 401 (ErrorBody "Invalid Access Token."), db)
  | Some tokenData =>
      if negb (is_active tokenData) then
        (mkResponse 403 (ErrorBody "Token deactivated."), db)
      else if match expires_at tokenData with
              | Some expiresAt => (expiresAt <? now 0%nat)%Z
              | None => false
              end then
        (mkResponse 403 (ErrorBody "Access Code Expired."), db)
      else if negb (JS.truthy (device_fingerprint tokenData)) then
        if negb (req_confirm_binding req) then
          (mkResponse 200 RequiresBinding, db)
        else
          match write with
          | Some updateError => (mkResponse 500 (ErrorBody updateError), db)
          | None =>
              let db' :=
                update_where (by_id (token_id tokenData))
                  (mkPatch None (Some (Some (req_deviceFingerprint req))) None None)
                  db in
              match select_single (by_id (token_id tokenData)) db' with
              | None =>
                  (mkResponse 500
                     (ErrorBody "Cannot read properties of null (reading 'expires_at')"),
                   db')
              | Some updatedToken =>
                  (mkResponse 200
                     (IdentityBody (identity_user tokenData) None
                        (expires_at updatedToken)
                        (BoundUntil (expires_at updatedToken))),
                   db')
              end
          end
      else if JS.strict_neq (device_fingerprint tokenData)
                            (req_deviceFingerprint req) then
        (mkResponse 403 (ErrorBody "ACCESS DENIED: Code locked to another device."),
         db)
      else (mkResponse 200 (identity (now 1%nat) tokenData), db)
  end.

End ServerExpiry.

(* ---------------------------------------------------------------- *)
(** *** The sibling server that stamps the binding
    ([/api/auth/login-with-token], [/api/admin/reset-token-device] and
    [/api/admin/token-status] of the admin-dashboard server) *)
Module ServerStamp.

Definition summary (now : Time) (tokenData : TokenInfo) : Body :=
  let remainingDays := getRemainingDays now (expires_at tokenData) in
  let expiryMessage :=
    match expires_at tokenData, remainingDays with
    | Some e, Some d =>
        if truthy_num remainingDays then DaysRemainingUntil d e else Expired
    | Some _, None => Expired
    | None, _ => Lifetime
    end in
  SummaryBody
    (mkSummary (token_code tokenData) (is_active tokenData)
       (JS.truthy (device_fingerprint tokenData))
       (bound_at tokenData) (expires_at tokenData) remainingDays
       (JS.or_else (exam_type (metadata tokenData)) "BOTH")
       (if is_active tokenData then expiryMessage else Deactivated)).

(** [plus_one_year d] is [d] after [d.setFullYear(d.getFullYear() + 1)],
    that is [JSDate.plus_one_year tz d] in the time zone of the server;
    [now k] is the [k]-th reading of the clock during the request. *)
Definition login_with_token (plus_one_year : Time -> Time)
           (write : WriteOutcome) (now : nat -> Time)
           (req : LoginRequest) (db : DB) : Response * DB :=
  match select_single (by_code (req_token req)) db with
  | None => (mkResponse 401 (ErrorBody "Invalid Access Code."), db)
  | Some tokenData =>
      if negb (is_active tokenData) then
        (mkResponse 403 (ErrorBody "This token has been deactivated."), db)
      else if negb (JS.truthy (device_fingerprint tokenData)) then
        if negb (req_confirm_binding req) then
          (mkResponse 200 RequiresBinding, db)
        else
          let expiresAt := plus_one_year (now 0%nat) in
          match write with
          | Some updateError => (mkResponse 500 (ErrorBody updateError), db)
          | None =>
              let db' :=
                update_where (by_id (token_id tokenData))
                  (mkPatch None
                     (Some (Some (req_deviceFingerprint req)))
                     (Some (Some (now 1%nat)))
                     (Some (Some expiresAt)))
                  db in
              let tokenData' :=
                apply_patch
                  (mkPatch None
                     (Some (Some (req_deviceFingerprint req)))
                     (Some (Some (now 2%nat)))
                     (Some (Some expiresAt)))
                  tokenData in
              (mkResponse 200 (summary (now 3%nat) tokenData'), db')
          end
      else (mkResponse 200 (summary (now 0%nat) tokenData), db)
  end.

(** The handler on a server whose time zone has the fixed offset [tz]
    from UTC, for readings of the clock from which the year after is
    still a valid date. *)
Definition login_with_token_in (tz : Z) :
  WriteOutcome -> (nat -> Time) -> LoginRequest -> DB -> Response * DB :=
  login_with_token (JSDate.plus_one_year tz).

Definition reset_token_device (write : WriteOutcome) (tokenCode : string)
           (db : DB) : Response * DB :=
  match write with
  | Some error => (mkResponse 500 (ErrorBody error), db)
  | None =>
      (mkResponse 200 AckBody,
       update_where (by_code tokenCode) (mkPatch None (Some None) None None) db)
  end.

Definition token_status (write : WriteOutcome) (tokenCode : string)
           (isActive : bool) (db : DB) : Response * DB :=
  match write with
  | Some error => (mkResponse 500 (ErrorBody error), db)
  | None =>
      (mkResponse 200 AckBody,
       update_where (by_code tokenCode) (mkPatch (Some isActive) None None None) db)
  end.

End ServerStamp.

End Remote.

(* ================================================================== *)
(** ** The client ([services/auth.ts]) *)

Module Client.

Import Remote.

(** What happens to one HTTP call. *)
Inductive Net :=
| Offline                      (** [navigator.onLine] is false *)
| Unreachable (msg : string)   (** [fetch] rejects or is aborted; nothing is served *)
| NonJson (msg : string)       (** a reply that is not JSON; nothing is served;
                                   [msg] is [`Non-JSON response (Status ...)`] *)
| ReplyLost (msg : string)     (** the request is served, the reply is lost or late *)
| Delivered.                   (** the request is served and the reply read *)

(** The server table, the local token cache and the session entry
    ([jamb_cbt_current_user]). *)
Record World := mkWorld {
  db : DB;
  tokens : LocalCache.Tokens;
  current_user : option User
}.

Definition is_offline (net : Net) : bool :=
  match net with Offline => true | _ => false end.

(** [res.ok]. *)
Definition ok (r : Response) : bool :=
  (200 <=? status r)%Z && (status r <=? 299)%Z.

(** [data.error]. *)
Definition error_of (b : Body) : option string :=
  match b with ErrorBody e => Some e | _ => None end.

(** [apiRequest], also under the [withTimeout] of its caller: [serve] is
    the handler of the endpoint applied to the request. *)
Definition apiRequest (FORCE_OFFLINE : bool) (net : Net)
           (serve : DB -> Response * DB) (d : DB) : Result Body * DB :=
  if is_offline net && negb FORCE_OFFLINE then (Throw "Network offline", d)
  else if FORCE_OFFLINE then (Throw "Offline Mode Enforced", d)
  else
    match net with
    | Offline => (Throw "Network offline", d)
    | Unreachable msg => (Throw msg, d)
    | NonJson msg => (Throw msg, d)
    | ReplyLost msg => (Throw msg, snd (serve d))
    | Delivered =>
        let (res, d') := serve d in
        if negb (ok res) then
          (Throw (JS.or_else (error_of (body res)) "API Request Failed"), d')
        else (Ok (body res), d')
    end.

(** [res.requires_binding]. *)
Definition requires_binding (b : Body) : bool :=
  match b with RequiresBinding => true | _ => false end.

(** [res as User]. *)
Definition as_user (b : Body) : User :=
  match b with
  | IdentityBody u _ _ _ => u
  | _ => mkUser None None None None None None
  end.

(** The record [loginWithToken] mirrors into the cache; [now 0] is
    [Date.now()] and [now 1] is [new Date()]. *)
Definition cache_entry (now : nat -> Time) (token currentFingerprint : string)
           (user : User) : TokenInfo :=
  mkToken (CachedId (now 0%nat)) token true (now 1%nat)
          (Some currentFingerprint) None None
          (mkMetadata None None (allowedExamType user) (fullName user)
                      None None (Some "ONLINE_CACHE")).

Definition msg_device_identity :=
  "Could not verify device identity. Please refresh and try again.".

(** The tail of [loginWithToken]: verification against the cache. *)
Definition local_login (token currentFingerprint : string)
           (confirmBinding : bool) (w : World) : Result User * World :=
  match verifyLocalToken token currentFingerprint confirmBinding (tokens w) with
  | (Ok user, tokens') => (Ok user, mkWorld (db w) tokens' (Some user))
  | (Throw m, tokens') => (Throw m, mkWorld (db w) tokens' (current_user w))
  end.

(** [loginWithToken] of [auth.ts].  [fingerprint] is what
    [getDeviceFingerprint] yields within its timeout ([None] when it
    fails); [handler] is the server behind [/api/auth/login-with-token]. *)
Definition loginWithToken (FORCE_OFFLINE : bool) (fingerprint : option string)
           (net : Net) (handler : LoginRequest -> DB -> Response * DB)
           (now : nat -> Time) (token : string) (confirmBinding : bool)
           (w : World) : Result User * World :=
  match fingerprint with
  | None => (Throw msg_device_identity, w)
  | Some currentFingerprint =>
      if negb FORCE_OFFLINE then
        let (r, db') :=
          apiRequest FORCE_OFFLINE net
            (handler (mkLoginRequest token currentFingerprint confirmBinding))
            (db w) in
        let w' := mkWorld db' (tokens w) (current_user w) in
        match r with
        | Ok res =>
            if requires_binding res then (Throw BINDING_REQUIRED, w')
            else
              let user := as_user res in
              (Ok user,
               mkWorld db'
                 (LocalCache.saveLocalToken
                    (cache_entry now token currentFingerprint user) (tokens w))
                 (Some user))
        | Throw m =>
            if m =? BINDING_REQUIRED then (Throw m, w')
            else local_login token currentFingerprint confirmBinding w'
        end
      else local_login token currentFingerprint confirmBinding w
  end.

(** The tail of [loginWithToken] of the older client module. *)
Definition local_login_old (token currentFingerprint : string)
           (confirmBinding : bool) (w : World) : Result User * World :=
  match verifyLocalToken_old token currentFingerprint confirmBinding (tokens w) with
  | (Ok user, tokens') => (Ok user, mkWorld (db w) tokens' (Some user))
  | (Throw m, tokens') => (Throw m, mkWorld (db w) tokens' (current_user w))
  end.

(** [loginWithToken] of the older client module: its [catch] has no
    binding and rethrows nothing. *)
Definition loginWithToken_old (FORCE_OFFLINE : bool) (fingerprint : option string)
           (net : Net) (handler : LoginRequest -> DB -> Response * DB)
           (now : nat -> Time) (token : string) (confirmBinding : bool)
           (w : World) : Result User * World :=
  match fingerprint with
  | None => (Throw msg_device_identity, w)
  | Some currentFingerprint =>
      if negb FORCE_OFFLINE then
        let (r, db') :=
          apiRequest FORCE_OFFLINE net
            (handler (mkLoginRequest token currentFingerprint confirmBinding))
            (db w) in
        let w' := mkWorld db' (tokens w) (current_user w) in
        match r with
        | Ok res =>
            if requires_binding res then
              local_login_old token currentFingerprint confirmBinding w'
            else
              let user := as_user res in
              (Ok user,
               mkWorld db'
                 (LocalCache.saveLocalToken
                    (cache_entry now token currentFingerprint user) (tokens w))
                 (Some user))
        | Throw _ => local_login_old token currentFingerprint confirmBinding w'
        end
      else local_login_old token currentFingerprint confirmBinding w
  end.

(** [resetTokenDevice]: the cache first, then the server. *)
Definition resetTokenDevice (FORCE_OFFLINE : bool) (net : Net)
           (handler : string -> DB -> Response * DB)
           (tokenCode : string) (w : World) : Result Body * World :=
  let tokens' :=
    LocalCache.updateLocalToken tokenCode (mkPatch None (Some None) None None)
                                (tokens w) in
  if negb FORCE_OFFLINE then
    let (r, db') := apiRequest FORCE_OFFLINE net (handler tokenCode) (db w) in
    (r, mkWorld db' tokens' (current_user w))
  else (Ok AckBody, mkWorld (db w) tokens' (current_user w)).

(** [toggleTokenStatus]. *)
Definition toggleTokenStatus (FORCE_OFFLINE : bool) (net : Net)
           (handler : string -> bool -> DB -> Response * DB)
           (tokenCode : string) (isActive : bool) (w : World)
  : Result Body * World :=
  let tokens' :=
    LocalCache.updateLocalToken tokenCode (mkPatch (Some isActive) None None None)
                                (tokens w) in
  if negb FORCE_OFFLINE then
    let (r, db') := apiRequest FORCE_OFFLINE net (handler tokenCode isActive) (db w) in
    (r, mkWorld db' tokens' (current_user w))
  else (Ok AckBody, mkWorld (db w) tokens' (current_user w)).

(* ---------------------------------------------------------------- *)
(** *** [getAllTokens] *)

Definition has_code (code : string) (l : list TokenInfo) : bool :=
  existsb (fun c => token_code c =? code) l.

(** [localTokens.forEach(local => { if (!combined.find(...)) combined.push(local) })] *)
Definition merge (onlineTokens localTokens : list TokenInfo) : list TokenInfo :=
  fold_left
    (fun combined local =>
       if has_code (token_code local) combined then combined
       else (combined ++ [local])%list)
    localTokens onlineTokens.

(** The comparator [(a, b) => time(b.created_at) - time(a.created_at)],
    for records that carry a [created_at], as the records of the cache
    do. *)
Definition newest_first (a b : TokenInfo) : Z := (created_at b - created_at a)%Z.

(** [Array.prototype.sort] is a stable sort; with a consistent comparator
    every stable sort gives the same array, here by insertion. *)
Fixpoint insert (cmp : TokenInfo -> TokenInfo -> Z) (x : TokenInfo)
         (l : list TokenInfo) : list TokenInfo :=
  match l with
  | [] => [x]
  | y :: r => if (cmp x y <=? 0)%Z then x :: l else y :: insert cmp x r
  end.

Definition sort (cmp : TokenInfo -> TokenInfo -> Z) (l : list TokenInfo)
  : list TokenInfo :=
  fold_right (insert cmp) [] l.

(** [online] is the outcome of [apiRequest('/api/admin/tokens', 'GET')]. *)
Definition getAllTokens (FORCE_OFFLINE : bool) (online : Result (list TokenInfo))
           (localTokens : LocalCache.Tokens) : list TokenInfo :=
  let onlineTokens :=
    if negb FORCE_OFFLINE then
      match online with Ok l => l | Throw _ => [] end
    else [] in
  sort newest_first (merge onlineTokens localTokens).

(** [getAllTokens] whatever the listed records carry: [sorted] is what
    [combined.sort(...)] makes of the merged array.  The records that
    [GET /api/admin/tokens] returns carry no [created_at]; the comparator
    is then [NaN] on them, and the order that [Array.prototype.sort] gives
    with the cached records among them is left to the implementation: it
    rearranges the array it is given.  [getAllTokens] above is
    [getAllTokensWith (sort newest_first)]. *)
Definition getAllTokensWith (sorted : list TokenInfo -> list TokenInfo)
           (FORCE_OFFLINE : bool) (online : Result (list TokenInfo))
           (localTokens : LocalCache.Tokens) : list TokenInfo :=
  let onlineTokens :=
    if negb FORCE_OFFLINE then
      match online with Ok l => l | Throw _ => [] end
    else [] in
  sorted (merge onlineTokens localTokens).

End Client.

(* ================================================================== *)
(** ** Token code generators *)

Module Generator.

Definition chars := "ABCDEFGHJKLMNPQRSTUVWXYZ23456789".
Definition length := 12%nat.
Definition chars_length : Z := Z.of_nat (String.length chars).

(** [for (let i = 0; i < length; i++) result += pick(i)] *)
Definition loop (pick : nat -> string) : string :=
  fold_left (fun result i => result ++ pick i) (seq 0 length) EmptyString.

(** [`${prefix}-${r.substring(0,4)}-${r.substring(4,8)}-${r.substring(8,12)}`] *)
Definition template (prefix result : string) : string :=
  prefix ++ "-" ++ JS.substring result 0 4 ++ "-" ++ JS.substring result 4 8
         ++ "-" ++ JS.substring result 8 12.

(** The random source of [generateSecureToken].
    - [CryptoValues v]: [crypto.getRandomValues] fills a [Uint32Array];
      slot [i] holds [v i] reduced to 32 bits.
    - [MathRandom m]: the [i]-th call of [Math.random()] returns the
      double [m i * 2^-1074] (every finite double is such a multiple);
      it lies in the interval from 0 included to 1 excluded. *)
Inductive RandomSource :=
| CryptoValues (v : nat -> Z)
| MathRandom (m : nat -> Z).

Definition uint32 (v : Z) : Z := (v mod 2 ^ 32)%Z.

(** [Math.floor(x * n)] for [x = m * 2^-1074] (the product is exact for
    the power of two [n = 32]). *)
Definition floor_times (m n : Z) : Z := ((m * n) / 2 ^ 1074)%Z.

Definition well_formed (src : RandomSource) : Prop :=
  match src with
  | CryptoValues _ => True
  | MathRandom m => forall i, (i < length)%nat -> (0 <= m i < 2 ^ 1074)%Z
  end.

(** [generateSecureToken] ([auth.ts]). *)
Definition generateSecureToken (src : RandomSource) (prefix : string) : string :=
  let result :=
    match src with
    | CryptoValues v =>
        loop (fun i => JS.charAt chars (uint32 (v i) mod chars_length))
    | MathRandom m =>
        loop (fun i => JS.charAt chars (floor_times (m i) chars_length))
    end in
  template prefix result.

(** [generateTokenCode] ([server.js]); [randomBytes i] is byte [i] of
    [crypto.randomBytes(length)]. *)
Definition generateTokenCode (randomBytes : nat -> Z) (prefix : string) : string :=
  template prefix
    (loop (fun i => JS.index chars ((randomBytes i mod 256) mod chars_length))).

(** The format [PREFIX-XXXX-XXXX-XXXX]. *)
Definition in_alphabet (c : ascii) : bool :=
  existsb (Ascii.eqb c) (list_ascii_of_string chars).

Definition is_group (g : string) : bool :=
  (String.length g =? 4)%nat && forallb in_alphabet (list_ascii_of_string g).

Definition well_formatted (prefix code : string) : Prop :=
  exists g1 g2 g3,
    code = prefix ++ "-" ++ g1 ++ "-" ++ g2 ++ "-" ++ g3
    /\ is_group g1 = true /\ is_group g2 = true /\ is_group g3 = true.

End Generator.

(* ================================================================== *)
(** ** The taxonomy of outcomes *)

Inductive Signal :=
| Granted
| BindingRequired
| InvalidCode
| Deactivated
| Expired
| DeviceMismatch
| OtherFailure.

Definition mem_string (s : string) (l : list string) : bool :=
  existsb (String.eqb s) l.

(** The messages with which the code reports each denial. *)
Definition signal_of_message (m : string) : Signal :=
  if m =? BINDING_REQUIRED then BindingRequired
  else if mem_string m
       [msg_local_invalid; "Offline: Invalid Access Code or not cached";
        "Invalid Access Token."; "Invalid Access Code."] then InvalidCode
  else if mem_string m
       [msg_local_deactivated; "This token is deactivated.";
        "Token deactivated."; "This token has been deactivated."] then Deactivated
  else if mem_string m ["Access Code Expired."] then Expired
  else if mem_string m
       [msg_local_locked; "Access code locked to another device.";
        "ACCESS DENIED: Code locked to another device."] then DeviceMismatch
  else OtherFailure.

Definition signal_of_result {A} (r : Result A) : Signal :=
  match r with
  | Ok _ => Granted
  | Throw m => signal_of_message m
  end.

Definition signal_of_response (r : Remote.Response) : Signal :=
  match Remote.body r with
  | Remote.ErrorBody e => signal_of_message e
  | Remote.RequiresBinding => BindingRequired
  | _ => if Client.ok r then Granted else OtherFailure
  end.

(** The patches of the code. *)
Definition bind_patch (fp : string) : Patch :=
  mkPatch None (Some (Some fp)) None None.
Definition stamp_patch (fp : string) (boundAt expiresAt : Time) : Patch :=
  mkPatch None (Some (Some fp)) (Some (Some boundAt)) (Some (Some expiresAt)).
Definition reset_patch : Patch := mkPatch None (Some None) None None.

(* ================================================================== *)
(** ** Vocabulary for listings *)

Definition codes (l : list TokenInfo) : list string := map token_code l.

(** [a] is at least as recent as [b]. *)
Definition not_older (a b : TokenInfo) : Prop := (created_at b <= created_at a)%Z.

(* ================================================================== *)
(** ** Sample records *)

Module Sample.

Definition code1 := "ACE-AAAA-BBBB-CCCC".

Definition meta : Metadata :=
  mkMetadata (Some "PAY-1") (Some 1500%Z) (Some "JAMB") (Some "Ada Obi")
             None None (Some "ADMIN").

Definition record (active : bool) (fp : option string)
           (boundAt expiresAt : option Time) : TokenInfo :=
  mkToken (RowId "row-1") code1 active 1000%Z fp boundAt expiresAt meta.

(** Never bound, no expiry. *)
Definition fresh : TokenInfo := record true None None None.
(** Bound to device [F1] at 5000, valid until 9000. *)
Definition bound_F1 : TokenInfo := record true (Some "F1") (Some 5000%Z) (Some 9000%Z).
(** The same, deactivated by the administrator. *)
Definition inactive_F1 : TokenInfo :=
  record false (Some "F1") (Some 5000%Z) (Some 9000%Z).

Definition clock (k : nat) : Time := (20000 + Z.of_nat k)%Z.
Definition a_year_later (t : Time) : Time := (t + 31536000000)%Z.

Definition world (table : Remote.DB) (cache : LocalCache.Tokens) : Client.World :=
  Client.mkWorld table cache None.

End Sample.

(* ================================================================== *)
(** ** Further operations of the client and of the servers *)

Module Text.

Definition lower_ascii (c : ascii) : ascii :=
  let n := nat_of_ascii c in
  if (65 <=? n)%nat && (n <=? 90)%nat then ascii_of_nat (n + 32) else c.

(** [s.toLowerCase()], for a string of ASCII characters. *)
Fixpoint toLowerCase (s : string) : string :=
  match s with
  | EmptyString => EmptyString
  | String c r => String (lower_ascii c) (toLowerCase r)
  end.

(** [`${n}`] and [n.toString()] for an integer [n]. *)
Definition of_number (n : Z) : string := NilZero.string_of_int (Z.to_int n).

End Text.

(* ------------------------------------------------------------------ *)
(** *** Issuing tokens from the client ([auth.ts]) *)

Module Issuing.

(** [{ success, token }]. *)
Record Issued := mkIssued { issued_success : bool; issued_token : string }.

(** [verifyPaystackPayment]; [online] is the outcome of the call of
    [/api/payments/verify-paystack]; [now 0] is [Date.now()] and [now 1]
    is [new Date()]. *)
Definition verifyPaystackPayment (FORCE_OFFLINE : bool)
           (src : Generator.RandomSource) (now : nat -> Time)
           (online : Result Issued)
           (reference email fullName phoneNumber examType : string) (amount : Z)
           (tokens : LocalCache.Tokens) : Result Issued * LocalCache.Tokens :=
  if FORCE_OFFLINE then
    let token := Generator.generateSecureToken src "OFFLINE" in
    (Ok (mkIssued true token),
     LocalCache.saveLocalToken
       (mkToken (StampId (now 0%nat)) token true (now 1%nat) None None None
          (mkMetadata (Some reference) (Some amount) (Some examType)
             (Some fullName) (Some phoneNumber) (Some email) None))
       tokens)
  else (online, tokens).

(** [generateLocalTokenImmediate]; [now 2] is the [Date.now()] of the
    reference made up when none is given. *)
Definition generateLocalTokenImmediate (FORCE_OFFLINE : bool)
           (src : Generator.RandomSource) (now : nat -> Time)
           (reference : string) (amount : Z)
           (examType fullName phoneNumber : string)
           (tokens : LocalCache.Tokens) : Issued * LocalCache.Tokens :=
  let token :=
    Generator.generateSecureToken src (if FORCE_OFFLINE then "ACE" else "LOCAL") in
  (mkIssued true token,
   LocalCache.saveLocalToken
     (mkToken (StampId (now 0%nat)) token true (now 1%nat) None None None
        (mkMetadata
           (Some (if reference =? EmptyString
                  then "MANUAL-" ++ Text.of_number (now 2%nat)
                  else reference))
           (Some amount) (Some examType) (Some fullName) (Some phoneNumber)
           None (Some "ADMIN")))
     tokens).

(** [generateManualToken]; [online] is the outcome of the call of
    [/api/admin/generate-token]. *)
Definition generateManualToken (FORCE_OFFLINE : bool)
           (src : Generator.RandomSource) (now : nat -> Time)
           (online : Result Issued)
           (reference : string) (amount : Z)
           (examType fullName phoneNumber : string)
           (tokens : LocalCache.Tokens) : Issued * LocalCache.Tokens :=
  if negb FORCE_OFFLINE then
    match online with
    | Ok data => (data, tokens)
    | Throw _ =>
        generateLocalTokenImmediate FORCE_OFFLINE src now reference amount
          examType fullName phoneNumber tokens
    end
  else
    generateLocalTokenImmediate FORCE_OFFLINE src now reference amount
      examType fullName phoneNumber tokens.

End Issuing.

(* ------------------------------------------------------------------ *)
(** *** Deleting a token *)

Module Deleting.

(** [DELETE /api/admin/tokens/:tokenCode], [tokenCode] being what the
    route reads from the path. *)
Definition delete_token (write : Remote.WriteOutcome) (tokenCode : string)
           (db : Remote.DB) : Remote.Response * Remote.DB :=
  match write with
  | Some error => (Remote.mkResponse 500 (Remote.ErrorBody error), db)
  | None =>
      (Remote.mkResponse 200 Remote.AckBody,
       filter (fun r => negb (Remote.by_code tokenCode r)) db)
  end.

(** [deleteToken] ([auth.ts]): the cache first, then the server.  The
    code goes to the server as the last segment of the path and reaches
    the route as it is when it is a [JS.path_segment]; the call of the
    server is described for such codes. *)
Definition deleteToken (FORCE_OFFLINE : bool) (net : Client.Net)
           (handler : string -> Remote.DB -> Remote.Response * Remote.DB)
           (tokenCode : string) (w : Client.World)
  : Result Remote.Body * Client.World :=
  let tokens' := LocalCache.deleteLocalToken tokenCode (Client.tokens w) in
  if negb FORCE_OFFLINE then
    let (r, db') :=
      Client.apiRequest FORCE_OFFLINE net (handler tokenCode) (Client.db w) in
    let w' := Client.mkWorld db' tokens' (Client.current_user w) in
    match r with
    | Ok _ => (Ok Remote.AckBody, w')
    | Throw m => (Throw m, w')
    end
  else (Ok Remote.AckBody,
        Client.mkWorld (Client.db w) tokens' (Client.current_user w)).

End Deleting.

(* ------------------------------------------------------------------ *)
(** *** Accounts kept on the device ([auth.ts]) *)

Module Accounts.

Record Credentials := mkCredentials {
  cred_username : string;
  cred_password : string
}.

(** The entry [jamb_cbt_local_admin] of [localStorage]: missing (or the
    empty string), not parsable, or an object with the two fields. *)
Inductive AdminEntry :=
| NoEntry
| Corrupt
| Stored (c : Credentials).

(** The entries [jamb_cbt_local_users] (parsed; [[]] when missing or
    corrupt), [jamb_cbt_local_admin] and [jamb_cbt_current_user]. *)
Record Store := mkStore {
  students : list User;
  admin_entry : AdminEntry;
  session : option User
}.

Definition default_admin : Credentials := mkCredentials "admin" "admin".

(** [u.username === name]. *)
Definition is_user (name : string) (u : User) : bool :=
  match username u with
  | Some s => s =? name
  | None => false
  end.

Definition admin_user (c : Credentials) : User :=
  mkUser (Some (cred_username c)) (Some admin) (Some "System Administrator")
         (Some "ADMIN-001") None None.

Definition student_user (fullName regNumber : string) : User :=
  mkUser (Some regNumber) (Some student) (Some fullName) (Some regNumber) None None.

Definition msg_admin_invalid := "Invalid Admin credentials (Offline)".
Definition msg_student_missing := "Student not found in local database.".
Definition msg_credentials_incorrect := "Current admin credentials are incorrect.".

(** [loginUser].  [sha256] is the digest of [crypto.subtle], in hexadecimal;
    [online] is the outcome of the call of [/api/auth/login]. *)
Definition loginUser (sha256 : string -> string) (FORCE_OFFLINE : bool)
           (online : Result User) (name password : string) (role : Role)
           (st : Store) : Result User * Store :=
  match role, FORCE_OFFLINE with
  | admin, true =>
      let '(defaultAdmin, entry) :=
        match admin_entry st with
        | Stored c => (c, Stored c)
        | NoEntry =>
            let hashed := sha256 (cred_password default_admin) in
            (mkCredentials (cred_username default_admin) hashed,
             Stored (mkCredentials (cred_username default_admin) hashed))
        | Corrupt => (default_admin, Corrupt)
        end in
      let hashedPassword := sha256 password in
      if (Text.toLowerCase name =? Text.toLowerCase (cred_username defaultAdmin))
         && (hashedPassword =? cred_password defaultAdmin)
      then
        let adminUser := admin_user defaultAdmin in
        (Ok adminUser, mkStore (students st) entry (Some adminUser))
      else (Throw msg_admin_invalid, mkStore (students st) entry (session st))
  | student, true =>
      match find (is_user name) (students st) with
      | Some user => (Ok user, mkStore (students st) (admin_entry st) (Some user))
      | None => (Throw msg_student_missing, st)
      end
  | _, false =>
      match online with
      | Ok user => (Ok user, mkStore (students st) (admin_entry st) (Some user))
      | Throw m => (Throw m, st)
      end
  end.

(** [updateAdminCredentials]; [online] is the outcome of the call of
    [/api/auth/update-credentials]. *)
Definition updateAdminCredentials (sha256 : string -> string)
           (FORCE_OFFLINE : bool) (online : Result unit)
           (currentUsername currentPass newUsername newPass : string)
           (st : Store) : Result unit * Store :=
  if FORCE_OFFLINE then
    let adminCreds :=
      match admin_entry st with
      | Stored c => c
      | _ => default_admin
      end in
    let hashedCurrent := sha256 currentPass in
    if negb (Text.toLowerCase currentUsername
             =? Text.toLowerCase (cred_username adminCreds))
       || negb (hashedCurrent =? cred_password adminCreds)
    then (Throw msg_credentials_incorrect, st)
    else (Ok tt,
          mkStore (students st)
                  (Stored (mkCredentials newUsername (sha256 newPass)))
                  (session st))
  else (online, st).

(** [registerStudent]: [saveLocalStudent] pushes at the end. *)
Definition registerStudent (FORCE_OFFLINE : bool) (online : Result unit)
           (fullName regNumber : string) (st : Store) : Result unit * Store :=
  if FORCE_OFFLINE then
    (Ok tt,
     mkStore (students st ++ [student_user fullName regNumber])
             (admin_entry st) (session st))
  else (online, st).

(** [getAllStudents]. *)
Definition getAllStudents (FORCE_OFFLINE : bool) (online : Result (list User))
           (st : Store) : Result (list User) :=
  if FORCE_OFFLINE then Ok (students st) else online.

(** [deleteStudent]. *)
Definition deleteStudent (FORCE_OFFLINE : bool) (online : Result unit)
           (name : string) (st : Store) : Result unit * Store :=
  if FORCE_OFFLINE then
    (Ok tt,
     mkStore (filter (fun u => negb (is_user name u)) (students st))
             (admin_entry st) (session st))
  else (online, st).

Definition logoutUser (st : Store) : Store :=
  mkStore (students st) (admin_entry st) None.

Definition getCurrentUser (st : Store) : option User := session st.

End Accounts.

(* ------------------------------------------------------------------ *)
(** *** Vocabulary for the further properties *)

(** What identifies and describes a token, apart from its binding and
    its dates. *)
Definition identity_part (r : TokenInfo)
  : TokenId * string * bool * Time * Metadata :=
  (token_id r, token_code r, is_active r, created_at r, metadata r).

Definition dates_part (r : TokenInfo) : option Time * option Time :=
  (bound_at r, expires_at r).

(** The milliseconds of a day, [1000 * 60 * 60 * 24]. *)
Definition DAY : Z := (1000 * 60 * 60 * 24)%Z.

(** The note of a payload. *)
Definition note_of (b : Remote.Body) : Remote.Note :=
  match b with
  | Remote.IdentityBody _ _ _ n => n
  | Remote.SummaryBody s => Remote.sum_status_message s
  | _ => Remote.NoNote
  end.

(** A code that its own trimming and upper-casing leave as it is, as the
    generated codes are. *)
Definition normal_code (s : string) : Prop := JS.toUpperCase (JS.trim s) = s.

(** The three versions of [POST /api/auth/login-with-token], with the
    readings of the clock drawn from [now]. *)
Inductive Server := ServerJs | ServerExpiry | ServerStamp.

Definition serve (v : Server) (plus_one_year : Time -> Time)
           (write : Remote.WriteOutcome) (now : nat -> Time)
           (req : Remote.LoginRequest) (table : Remote.DB)
  : Remote.Response * Remote.DB :=
  match v with
  | ServerJs => Remote.ServerJs.login_with_token write (now 0%nat) req table
  | ServerExpiry => Remote.ServerExpiry.login_with_token write now req table
  | ServerStamp =>
      Remote.ServerStamp.login_with_token plus_one_year write now req table
  end.

(* ------------------------------------------------------------------ *)
(** *** More sample data *)

Module Sample2.

(** A stand-in for the digest, used on sample data only. *)
Definition digest (s : string) : string := "sha:" ++ s.

Definition source : Generator.RandomSource :=
  Generator.CryptoValues (fun i => Z.of_nat i).

Definition store : Accounts.Store := Accounts.mkStore [] Accounts.NoEntry None.

End Sample2.

(* ================================================================== *)
(** ** Basic facts about the stores *)

Section StoreFacts.

Lemma token_id_eqb_refl (i : TokenId) : token_id_eqb i i = true.
Proof.
  destruct i; simpl; [apply String.eqb_refl | apply Z.eqb_refl | apply Z.eqb_refl].
Qed.

Lemma token_code_apply_patch (u : Patch) (t : TokenInfo) :
  token_code (apply_patch u t) = token_code t.
Proof. reflexivity. Qed.

Lemma truthy_nonempty (s : string) : s <> EmptyString -> JS.truthy (Some s) = true.
Proof.
  intros H. simpl. apply negb_true_iff. apply String.eqb_neq. exact H.
Qed.

Lemma strict_neq_same (s : string) : JS.strict_neq (Some s) s = false.
Proof. simpl. now rewrite String.eqb_refl. Qed.

Lemma strict_neq_other (s g : string) : g <> s -> JS.strict_neq (Some s) g = true.
Proof.
  intros H. simpl. apply negb_true_iff. apply String.eqb_neq. congruence.
Qed.

(** A [find] whose test only reads the code commutes with a map that
    keeps the codes. *)
Lemma find_map_same_key (p : TokenInfo -> bool) (f : TokenInfo -> TokenInfo)
      (l : list TokenInfo) :
  (forall t, p (f t) = p t) ->
  find p (map f l) = option_map f (find p l).
Proof.
  intros Hp. induction l as [|t l IH]; simpl; [reflexivity|].
  rewrite Hp. destruct (p t); [reflexivity | exact IH].
Qed.

Lemma filter_map_same_key (p : TokenInfo -> bool) (f : TokenInfo -> TokenInfo)
      (l : list TokenInfo) :
  (forall t, p (f t) = p t) ->
  filter p (map f l) = map f (filter p l).
Proof.
  intros Hp. induction l as [|t l IH]; simpl; [reflexivity|].
  rewrite Hp. destruct (p t); simpl; now rewrite IH.
Qed.

Lemma lookup_updateLocalToken (token code : string) (u : Patch)
      (tokens : LocalCache.Tokens) :
  LocalCache.lookup token (LocalCache.updateLocalToken code u tokens)
  = option_map (fun t => if token_code t =? code then apply_patch u t else t)
               (LocalCache.lookup token tokens).
Proof.
  unfold LocalCache.lookup, LocalCache.updateLocalToken.
  apply find_map_same_key. intros t.
  destruct (token_code t =? code); reflexivity.
Qed.

Lemma select_single_update_where (p q : TokenInfo -> bool) (u : Patch)
      (db : Remote.DB) (r : TokenInfo) :
  (forall t, p (apply_patch u t) = p t) ->
  Remote.select_single p db = Some r ->
  Remote.select_single p (Remote.update_where q u db)
  = Some (if q r then apply_patch u r else r).
Proof.
  intros Hp. unfold Remote.select_single, Remote.update_where.
  rewrite filter_map_same_key.
  - destruct (filter p db) as [|x [|y l]]; try discriminate.
    intros H. injection H as ->. reflexivity.
  - intros t. destruct (q t); [apply Hp | reflexivity].
Qed.

Lemma by_code_apply_patch (code : string) (u : Patch) (t : TokenInfo) :
  Remote.by_code code (apply_patch u t) = Remote.by_code code t.
Proof. reflexivity. Qed.

Lemma by_id_apply_patch (i : TokenId) (u : Patch) (t : TokenInfo) :
  Remote.by_id i (apply_patch u t) = Remote.by_id i t.
Proof. reflexivity. Qed.

Lemma by_id_self (t : TokenInfo) : Remote.by_id (token_id t) t = true.
Proof. apply token_id_eqb_refl. Qed.

Lemma select_single_by_code (code : string) (db : Remote.DB) (r : TokenInfo) :
  Remote.select_single (Remote.by_code code) db = Some r -> token_code r = code.
Proof.
  unfold Remote.select_single.
  destruct (filter (Remote.by_code code) db) as [|x [|y l]] eqn:E; try discriminate.
  intros H. injection H as ->.
  assert (In r (filter (Remote.by_code code) db)) as Hin by (rewrite E; now left).
  apply filter_In in Hin. destruct Hin as [_ Hc].
  now apply String.eqb_eq.
Qed.

Lemma lookup_code (token : string) (tokens : LocalCache.Tokens) (t : TokenInfo) :
  LocalCache.lookup token tokens = Some t ->
  JS.toUpperCase (token_code t) = JS.toUpperCase (JS.trim token).
Proof.
  unfold LocalCache.lookup. intros H. apply find_some in H.
  destruct H as [_ H]. now apply String.eqb_eq.
Qed.

End StoreFacts.

(* ================================================================== *)
(** ** Verification and binding: [verifyLocalToken] and [server.js] *)

Section VerifyAndBind.

Import Remote.

Variables (token : string) (confirmBinding : bool).
Variables (tokens : LocalCache.Tokens) (found : TokenInfo).
Variables (table : DB) (row : TokenInfo).
Variables (write : WriteOutcome) (now : Time).

Hypothesis cached : LocalCache.lookup token tokens = Some found.
Hypothesis stored : select_single (by_code token) table = Some row.

(** Deactivation is tested first, on both sides. *)
Lemma verifyLocalToken_inactive (fp : string) :
  is_active found = false ->
  verifyLocalToken token fp confirmBinding tokens
  = (Throw msg_local_deactivated, tokens).
Proof.
  intros Hi. unfold verifyLocalToken. rewrite cached, Hi. reflexivity.
Qed.

Lemma server_js_inactive (fp : string) :
  is_active row = false ->
  ServerJs.login_with_token write now (mkLoginRequest token fp confirmBinding) table
  = (mkResponse 403 (ErrorBody "This token is deactivated."), table).
Proof.
  intros Hi. unfold ServerJs.login_with_token. simpl.
  rewrite stored, Hi. reflexivity.
Qed.

(** A bound, active token seen from another device. *)
Lemma verifyLocalToken_mismatch (F G : string) :
  is_active found = true -> device_fingerprint found = Some F ->
  F <> EmptyString -> G <> F ->
  verifyLocalToken token G confirmBinding tokens = (Throw msg_local_locked, tokens).
Proof.
  intros Ha Hf HF HG. unfold verifyLocalToken.
  rewrite cached, Ha, Hf, (truthy_nonempty F HF), (strict_neq_other F G HG).
  reflexivity.
Qed.

Lemma server_js_mismatch (F G : string) :
  is_active row = true -> device_fingerprint row = Some F ->
  F <> EmptyString -> G <> F ->
  ServerJs.login_with_token write now (mkLoginRequest token G confirmBinding) table
  = (mkResponse 403 (ErrorBody "Access code locked to another device."), table).
Proof.
  intros Ha Hf HF HG. unfold ServerJs.login_with_token. simpl.
  rewrite stored, Ha, Hf, (truthy_nonempty F HF), (strict_neq_other F G HG).
  reflexivity.
Qed.

(** A bound, active token seen from its own device: no write. *)
Lemma verifyLocalToken_same_device (F : string) :
  is_active found = true -> device_fingerprint found = Some F ->
  F <> EmptyString ->
  verifyLocalToken token F confirmBinding tokens = (Ok (local_user found), tokens).
Proof.
  intros Ha Hf HF. unfold verifyLocalToken.
  rewrite cached, Ha, Hf, (truthy_nonempty F HF), strict_neq_same.
  reflexivity.
Qed.

Lemma server_js_same_device (F : string) :
  is_active row = true -> device_fingerprint row = Some F ->
  F <> EmptyString ->
  ServerJs.login_with_token write now (mkLoginRequest token F confirmBinding) table
  = (mkResponse 200 (ServerJs.identity now row), table).
Proof.
  intros Ha Hf HF. unfold ServerJs.login_with_token. simpl.
  rewrite stored, Ha, Hf, (truthy_nonempty F HF), strict_neq_same.
  reflexivity.
Qed.

(** An unbound, active token. *)
Lemma verifyLocalToken_unbound (fp : string) :
  is_active found = true -> device_fingerprint found = None ->
  verifyLocalToken token fp confirmBinding tokens
  = if confirmBinding
    then (Ok (local_user found),
          LocalCache.updateLocalToken (token_code found) (bind_patch fp) tokens)
    else (Throw BINDING_REQUIRED, tokens).
Proof.
  intros Ha Hf. unfold verifyLocalToken.
  rewrite cached, Ha, Hf. destruct confirmBinding; reflexivity.
Qed.

Lemma server_js_unbound (fp : string) :
  is_active row = true -> device_fingerprint row = None ->
  ServerJs.login_with_token write now (mkLoginRequest token fp confirmBinding) table
  = if confirmBinding
    then match write with
         | Some bindError => (mkResponse 500 (ErrorBody bindError), table)
         | None => (mkResponse 200 (ServerJs.identity now row),
                    update_where (by_id (token_id row)) (bind_patch fp) table)
         end
    else (mkResponse 200 RequiresBinding, table).
Proof.
  intros Ha Hf. unfold ServerJs.login_with_token. simpl.
  rewrite stored, Ha, Hf. destruct confirmBinding; reflexivity.
Qed.

(** The looked-up record after a bind. *)
Lemma lookup_after_local_bind (fp : string) :
  LocalCache.lookup token
    (LocalCache.updateLocalToken (token_code found) (bind_patch fp) tokens)
  = Some (apply_patch (bind_patch fp) found).
Proof.
  rewrite lookup_updateLocalToken, cached. simpl.
  now rewrite String.eqb_refl.
Qed.

Lemma select_after_patch_by_id (u : Patch) :
  select_single (by_code token) (update_where (by_id (token_id row)) u table)
  = Some (apply_patch u row).
Proof.
  rewrite (select_single_update_where _ _ u table row).
  - now rewrite by_id_self.
  - intros t. apply by_code_apply_patch.
  - exact stored.
Qed.

End VerifyAndBind.

(* ================================================================== *)
(** ** Deactivation dominates *)

(** C4: when the record found for the code has [is_active = false], both
    [verifyLocalToken] and the [server.js] handler deny with the
    deactivation message, whatever the fingerprint, the confirmation flag,
    the binding and the expiry of the record; nothing is written and the
    outcome is never a grant. *)
Theorem inactive_token_is_always_deactivated
        (token fp : string) (confirmBinding : bool) :
  (forall (tokens : LocalCache.Tokens) (found : TokenInfo),
      LocalCache.lookup token tokens = Some found ->
      is_active found = false ->
      let local := verifyLocalToken token fp confirmBinding tokens in
      local = (Throw msg_local_deactivated, tokens)
      /\ signal_of_result (fst local) = Deactivated
      /\ signal_of_result (fst local) <> Granted)
  /\ (forall (table : Remote.DB) (row : TokenInfo)
             (write : Remote.WriteOutcome) (now : Time),
      Remote.select_single (Remote.by_code token) table = Some row ->
      is_active row = false ->
      let remote :=
        Remote.ServerJs.login_with_token write now
          (Remote.mkLoginRequest token fp confirmBinding) table in
      remote = (Remote.mkResponse 403 (Remote.ErrorBody "This token is deactivated."),
                table)
      /\ signal_of_response (fst remote) = Deactivated
      /\ signal_of_response (fst remote) <> Granted).
Proof.
  split.
  - intros tokens found Hc Hi local. subst local.
    rewrite (verifyLocalToken_inactive token confirmBinding tokens found Hc fp Hi).
    repeat split. discriminate.
  - intros table row write now Hs Hi remote. subst remote.
    rewrite (server_js_inactive token confirmBinding table row write now Hs fp Hi).
    repeat split. discriminate.
Qed.

Lemma inactive_token_is_always_deactivated_witness :
  verifyLocalToken Sample.code1 "F1" true [Sample.inactive_F1]
  = (Throw msg_local_deactivated, [Sample.inactive_F1])
  /\ signal_of_response
       (fst (Remote.ServerJs.login_with_token None 6000%Z
               (Remote.mkLoginRequest Sample.code1 "F1" true) [Sample.inactive_F1]))
     = Deactivated.
Proof.
  pose proof (inactive_token_is_always_deactivated Sample.code1 "F1" true) as [Hl Hr].
  split.
  - exact (proj1 (Hl [Sample.inactive_F1] Sample.inactive_F1 eq_refl eq_refl)).
  - exact (proj1 (proj2 (Hr [Sample.inactive_F1] Sample.inactive_F1 None 6000%Z
                            eq_refl eq_refl))).
Defined.

(** The sibling servers test [is_active] at the same place. *)
Lemma sibling_servers_inactive
      (token fp : string) (confirmBinding : bool) (table : Remote.DB)
      (row : TokenInfo) (write : Remote.WriteOutcome) (now : nat -> Time)
      (plus_one_year : Time -> Time) :
  Remote.select_single (Remote.by_code token) table = Some row ->
  is_active row = false ->
  signal_of_response
    (fst (Remote.ServerExpiry.login_with_token write now
            (Remote.mkLoginRequest token fp confirmBinding) table)) = Deactivated
  /\ signal_of_response
       (fst (Remote.ServerStamp.login_with_token plus_one_year write now
               (Remote.mkLoginRequest token fp confirmBinding) table)) = Deactivated.
Proof.
  intros Hs Hi.
  unfold Remote.ServerExpiry.login_with_token, Remote.ServerStamp.login_with_token.
  simpl. rewrite Hs, Hi. split; reflexivity.
Qed.

(* ================================================================== *)
(** ** Device mismatch *)

(** C1 (as stated, refuted): a record bound to [F1] but deactivated,
    queried from [F2], is reported as deactivated, not as locked to another
    device, by [verifyLocalToken] and by the [server.js] handler. *)
Lemma mismatch_on_inactive_token_reports_deactivated :
  device_fingerprint Sample.inactive_F1 = Some "F1"
  /\ "F2" <> "F1"
  /\ signal_of_result
       (fst (verifyLocalToken Sample.code1 "F2" false [Sample.inactive_F1]))
     = Deactivated
  /\ signal_of_result
       (fst (verifyLocalToken Sample.code1 "F2" false [Sample.inactive_F1]))
     <> DeviceMismatch
  /\ signal_of_response
       (fst (Remote.ServerJs.login_with_token None 6000%Z
               (Remote.mkLoginRequest Sample.code1 "F2" false) [Sample.inactive_F1]))
     = Deactivated
  /\ signal_of_response
       (fst (Remote.ServerJs.login_with_token None 6000%Z
               (Remote.mkLoginRequest Sample.code1 "F2" false) [Sample.inactive_F1]))
     <> DeviceMismatch.
Proof.
  repeat split; try reflexivity; vm_compute; discriminate.
Qed.

(** C1 (amended): for an active record bound to a non-empty fingerprint
    [F], a request from any other fingerprint [G] is denied as locked to
    another device by [verifyLocalToken] and by the [server.js] handler,
    for either value of the confirmation flag, and the cache and the table
    are left as they were. *)
Theorem mismatch_is_denied_without_write
        (token F G : string) (confirmBinding : bool) :
  F <> EmptyString -> G <> F ->
  (forall (tokens : LocalCache.Tokens) (found : TokenInfo),
      LocalCache.lookup token tokens = Some found ->
      is_active found = true -> device_fingerprint found = Some F ->
      let local := verifyLocalToken token G confirmBinding tokens in
      fst local = Throw msg_local_locked
      /\ signal_of_result (fst local) = DeviceMismatch
      /\ snd local = tokens)
  /\ (forall (table : Remote.DB) (row : TokenInfo)
             (write : Remote.WriteOutcome) (now : Time),
      Remote.select_single (Remote.by_code token) table = Some row ->
      is_active row = true -> device_fingerprint row = Some F ->
      let remote :=
        Remote.ServerJs.login_with_token write now
          (Remote.mkLoginRequest token G confirmBinding) table in
      fst remote
      = Remote.mkResponse 403 (Remote.ErrorBody "Access code locked to another device.")
      /\ signal_of_response (fst remote) = DeviceMismatch
      /\ snd remote = table).
Proof.
  intros HF HG. split.
  - intros tokens found Hc Ha Hf local. subst local.
    rewrite (verifyLocalToken_mismatch token confirmBinding tokens found Hc F G
               Ha Hf HF HG).
    repeat split.
  - intros table row write now Hs Ha Hf remote. subst remote.
    rewrite (server_js_mismatch token confirmBinding table row write now Hs F G
               Ha Hf HF HG).
    repeat split.
Qed.

Lemma mismatch_is_denied_without_write_witness :
  signal_of_result (fst (verifyLocalToken Sample.code1 "F2" true [Sample.bound_F1]))
  = DeviceMismatch
  /\ snd (Remote.ServerJs.login_with_token None 6000%Z
            (Remote.mkLoginRequest Sample.code1 "F2" true) [Sample.bound_F1])
     = [Sample.bound_F1].
Proof.
  assert ("F1" <> EmptyString) as HF by discriminate.
  assert ("F2" <> "F1") as HG by discriminate.
  pose proof (mismatch_is_denied_without_write Sample.code1 "F1" "F2" true HF HG)
    as [Hl Hr].
  split.
  - exact (proj1 (proj2 (Hl [Sample.bound_F1] Sample.bound_F1
                            eq_refl eq_refl eq_refl))).
  - exact (proj2 (proj2 (Hr [Sample.bound_F1] Sample.bound_F1 None 6000%Z
                            eq_refl eq_refl eq_refl))).
Defined.

(** The server that stamps bindings has no such branch: it answers a
    request from another device with the summary of the token. *)
Lemma stamp_server_has_no_mismatch_branch :
  signal_of_response
    (fst (Remote.ServerStamp.login_with_token Sample.a_year_later None Sample.clock
            (Remote.mkLoginRequest Sample.code1 "F2" false) [Sample.bound_F1]))
  = Granted.
Proof. reflexivity. Qed.

(* ================================================================== *)
(** ** The binding protocol *)

(** C2 (as stated, refuted): with the empty string as fingerprint the bind
    is accepted, but the record then still counts as unbound: the next
    call with the same fingerprint is asked to confirm again, by
    [verifyLocalToken] and by the [server.js] handler. *)
Lemma empty_fingerprint_never_binds :
  let bind := verifyLocalToken Sample.code1 EmptyString true [Sample.fresh] in
  let rbind :=
    Remote.ServerJs.login_with_token None 6000%Z
      (Remote.mkLoginRequest Sample.code1 EmptyString true) [Sample.fresh] in
  signal_of_result (fst bind) = Granted
  /\ option_map device_fingerprint (LocalCache.lookup Sample.code1 (snd bind))
     = Some (Some EmptyString)
  /\ signal_of_result
       (fst (verifyLocalToken Sample.code1 EmptyString false (snd bind)))
     = BindingRequired
  /\ signal_of_response (fst rbind) = Granted
  /\ signal_of_response
       (fst (Remote.ServerJs.login_with_token None 6001%Z
               (Remote.mkLoginRequest Sample.code1 EmptyString false) (snd rbind)))
     = BindingRequired.
Proof.
  repeat split.
Qed.

(** C2 (amended): for an active record that is unbound
    ([device_fingerprint] null) and a non-empty fingerprint [F], on
    [verifyLocalToken] and on the [server.js] handler: a call without
    confirmation answers with the binding-required signal and writes
    nothing; a call with confirmation succeeds and sets
    [device_fingerprint] to [F], nothing else; after it every call with
    [F] succeeds, with either flag, and writes nothing. *)
Theorem binding_protocol (token F : string) :
  F <> EmptyString ->
  (forall (tokens : LocalCache.Tokens) (found : TokenInfo),
      LocalCache.lookup token tokens = Some found ->
      is_active found = true -> device_fingerprint found = None ->
      let bind := verifyLocalToken token F true tokens in
      verifyLocalToken token F false tokens = (Throw BINDING_REQUIRED, tokens)
      /\ fst bind = Ok (local_user found)
      /\ snd bind
         = LocalCache.updateLocalToken (token_code found) (bind_patch F) tokens
      /\ LocalCache.lookup token (snd bind) = Some (apply_patch (bind_patch F) found)
      /\ (forall c, verifyLocalToken token F c (snd bind)
                    = (Ok (local_user found), snd bind)))
  /\ (forall (table : Remote.DB) (row : TokenInfo)
             (write : Remote.WriteOutcome) (now : Time),
      Remote.select_single (Remote.by_code token) table = Some row ->
      is_active row = true -> device_fingerprint row = None ->
      let rbind :=
        Remote.ServerJs.login_with_token None now
          (Remote.mkLoginRequest token F true) table in
      Remote.ServerJs.login_with_token write now
        (Remote.mkLoginRequest token F false) table
      = (Remote.mkResponse 200 Remote.RequiresBinding, table)
      /\ fst rbind = Remote.mkResponse 200 (Remote.ServerJs.identity now row)
      /\ snd rbind
         = Remote.update_where (Remote.by_id (token_id row)) (bind_patch F) table
      /\ Remote.select_single (Remote.by_code token) (snd rbind)
         = Some (apply_patch (bind_patch F) row)
      /\ (forall c w t, Remote.ServerJs.login_with_token w t
                          (Remote.mkLoginRequest token F c) (snd rbind)
                        = (Remote.mkResponse 200 (Remote.ServerJs.identity t row),
                           snd rbind))).
Proof.
  intros HF. split.
  - intros tokens found Hc Ha Hf bind. subst bind.
    rewrite (verifyLocalToken_unbound token true tokens found Hc F Ha Hf).
    rewrite (verifyLocalToken_unbound token false tokens found Hc F Ha Hf).
    cbn [fst snd].
    pose proof (lookup_after_local_bind token tokens found Hc F) as Hl.
    repeat split; try assumption.
    intros c. apply (verifyLocalToken_same_device token c _ _ Hl F); auto.
  - intros table row write now Hs Ha Hf rbind. subst rbind.
    rewrite (server_js_unbound token true table row None now Hs F Ha Hf).
    rewrite (server_js_unbound token false table row write now Hs F Ha Hf).
    cbn [fst snd].
    pose proof (select_after_patch_by_id token table row Hs (bind_patch F)) as Hr.
    repeat split; try assumption.
    intros c w t. apply (server_js_same_device token c _ _ w t Hr F); auto.
Qed.

Lemma binding_protocol_witness :
  verifyLocalToken Sample.code1 "F1" false [Sample.fresh]
  = (Throw BINDING_REQUIRED, [Sample.fresh])
  /\ Remote.select_single (Remote.by_code Sample.code1)
       (snd (Remote.ServerJs.login_with_token None 6000%Z
               (Remote.mkLoginRequest Sample.code1 "F1" true) [Sample.fresh]))
     = Some (apply_patch (bind_patch "F1") Sample.fresh).
Proof.
  assert ("F1" <> EmptyString) as HF by discriminate.
  pose proof (binding_protocol Sample.code1 "F1" HF) as [Hl Hr].
  split.
  - exact (proj1 (Hl [Sample.fresh] Sample.fresh eq_refl eq_refl eq_refl)).
  - exact (proj1 (proj2 (proj2 (proj2
             (Hr [Sample.fresh] Sample.fresh None 6000%Z eq_refl eq_refl eq_refl))))).
Defined.

(* ================================================================== *)
(** ** Expiry *)

(** The sibling server refuses an active record whose expiry is strictly
    in the past, before it looks at the binding. *)
Lemma server_expiry_checks_expiry
      (token fp : string) (confirmBinding : bool) (table : Remote.DB)
      (row : TokenInfo) (write : Remote.WriteOutcome) (now : nat -> Time)
      (expiresAt : Time) :
  Remote.select_single (Remote.by_code token) table = Some row ->
  is_active row = true ->
  expires_at row = Some expiresAt -> (expiresAt < now 0%nat)%Z ->
  Remote.ServerExpiry.login_with_token write now
    (Remote.mkLoginRequest token fp confirmBinding) table
  = (Remote.mkResponse 403 (Remote.ErrorBody "Access Code Expired."), table).
Proof.
  intros Hs Ha He Hlt. unfold Remote.ServerExpiry.login_with_token. simpl.
  rewrite Hs, Ha, He. apply Z.ltb_lt in Hlt. rewrite Hlt. reflexivity.
Qed.

(** Neither [verifyLocalToken] nor the [server.js] handler reads
    [expires_at] to decide: a record bound to the caller is granted
    whatever its expiry. *)
Lemma expiry_is_not_consulted
      (token F : string) (confirmBinding : bool)
      (tokens : LocalCache.Tokens) (found : TokenInfo)
      (table : Remote.DB) (row : TokenInfo)
      (write : Remote.WriteOutcome) (now : Time) :
  LocalCache.lookup token tokens = Some found ->
  is_active found = true -> device_fingerprint found = Some F ->
  Remote.select_single (Remote.by_code token) table = Some row ->
  is_active row = true -> device_fingerprint row = Some F ->
  F <> EmptyString ->
  signal_of_result (fst (verifyLocalToken token F confirmBinding tokens)) = Granted
  /\ signal_of_response
       (fst (Remote.ServerJs.login_with_token write now
               (Remote.mkLoginRequest token F confirmBinding) table)) = Granted.
Proof.
  intros Hc Ha Hf Hs Hra Hrf HF.
  rewrite (verifyLocalToken_same_device token confirmBinding tokens found Hc F Ha Hf HF).
  rewrite (server_js_same_device token confirmBinding table row write now Hs F Hra Hrf HF).
  split; reflexivity.
Qed.

(** C3 (the code departs from it): the record [Sample.bound_F1] is active,
    bound to [F1] and expired at 9000; at time 10000, from device [F1],
    the [server.js] handler answers 200 with an identity and
    [verifyLocalToken] returns a user, where the claim asks for the expiry
    denial; the sibling server with the expiry check denies the same
    request as expired. *)
Theorem expired_token_is_granted_by_server_js :
  let request := Remote.mkLoginRequest Sample.code1 "F1" false in
  let remote :=
    Remote.ServerJs.login_with_token None 10000%Z request [Sample.bound_F1] in
  let local := verifyLocalToken Sample.code1 "F1" false [Sample.bound_F1] in
  let sibling :=
    Remote.ServerExpiry.login_with_token None (fun _ => 10000%Z) request
      [Sample.bound_F1] in
  is_active Sample.bound_F1 = true
  /\ device_fingerprint Sample.bound_F1 = Some "F1"
  /\ expires_at Sample.bound_F1 = Some 9000%Z
  /\ Remote.status (fst remote) = 200%Z
  /\ signal_of_response (fst remote) = Granted
  /\ signal_of_result (fst local) = Granted
  /\ signal_of_response (fst sibling) = Expired.
Proof.
  repeat split.
Qed.

(* ================================================================== *)
(** ** The server that stamps bindings *)

Lemma bind_stamp_step
      (token fp : string) (table : Remote.DB) (row : TokenInfo)
      (plus_one_year : Time -> Time) (now : nat -> Time) :
  Remote.select_single (Remote.by_code token) table = Some row ->
  is_active row = true -> device_fingerprint row = None ->
  let stamped :=
    Remote.ServerStamp.login_with_token plus_one_year None now
      (Remote.mkLoginRequest token fp true) table in
  signal_of_response (fst stamped) = Granted
  /\ Remote.select_single (Remote.by_code token) (snd stamped)
     = Some (apply_patch
               (stamp_patch fp (now 1%nat) (plus_one_year (now 0%nat))) row).
Proof.
  intros Hs Ha Hf stamped. subst stamped.
  unfold Remote.ServerStamp.login_with_token. simpl.
  rewrite Hs, Ha, Hf. simpl. split; [reflexivity|].
  apply (select_after_patch_by_id token table row Hs).
Qed.

(* ================================================================== *)
(** ** The arithmetic of dates *)

Section Dates.

Import JSDate.
Local Open Scope Z_scope.

Lemma div_succ (n x : Z) : 0 < n ->
  (x + 1) / n = x / n + (if (x + 1) mod n =? 0 then 1 else 0).
Proof.
  intros Hn.
  destruct ((x + 1) mod n =? 0) eqn:E.
  - apply Z.eqb_eq in E.
    pose proof (Z.div_mod (x + 1) n ltac:(lia)) as H1.
    pose proof (Z.div_mod x n ltac:(lia)) as H2.
    pose proof (Z.mod_pos_bound x n Hn) as B2.
    rewrite E in H1.
    assert (n * ((x + 1) / n - x / n - 1) = x mod n + 1 - n) as H3 by lia.
    assert ((x + 1) / n - x / n - 1 = 0) by nia. lia.
  - apply Z.eqb_neq in E.
    pose proof (Z.div_mod (x + 1) n ltac:(lia)) as H1.
    pose proof (Z.div_mod x n ltac:(lia)) as H2.
    pose proof (Z.mod_pos_bound x n Hn) as B2.
    pose proof (Z.mod_pos_bound (x + 1) n Hn) as B1.
    assert (n * ((x + 1) / n - x / n) = x mod n + 1 - (x + 1) mod n) as H3 by lia.
    assert ((x + 1) / n - x / n = 0) by nia. lia.
Qed.

Lemma mod_shift (x k n : Z) : 0 < n -> k mod n = 0 -> (x + k) mod n = x mod n.
Proof.
  intros Hn Hk. rewrite Z.add_mod by lia. rewrite Hk, Z.add_0_r.
  apply Z.mod_mod. lia.
Qed.

Lemma mod_of_multiple (y a b : Z) : 0 < a -> 0 < b -> y mod (a * b) = 0 -> y mod a = 0.
Proof.
  intros Ha Hb H.
  apply Z.mod_divide in H; [|lia]. apply Z.mod_divide; [lia|].
  destruct H as [q Hq]. exists (q * b). lia.
Qed.

(** The first days of two successive years are a year apart. *)
Lemma DayFromYear_succ y : DayFromYear (y + 1) - DayFromYear y = DaysInYear y.
Proof.
  unfold DayFromYear, DaysInYear.
  replace (y + 1 - 1969) with (y - 1969 + 1) by lia.
  replace (y + 1 - 1901) with (y - 1901 + 1) by lia.
  replace (y + 1 - 1601) with (y - 1601 + 1) by lia.
  rewrite (div_succ 4), (div_succ 100), (div_succ 400) by lia.
  replace (y - 1969 + 1) with (y + (-1968)) by lia.
  replace (y - 1901 + 1) with (y + (-1900)) by lia.
  replace (y - 1601 + 1) with (y + (-1600)) by lia.
  rewrite (mod_shift y (-1968) 4), (mod_shift y (-1900) 100), (mod_shift y (-1600) 400)
    by (reflexivity || lia).
  assert (y mod 400 = 0 -> y mod 100 = 0) as H400
    by (intros; apply (mod_of_multiple y 100 4); [lia|lia|assumption]).
  assert (y mod 100 = 0 -> y mod 4 = 0) as H100
    by (intros; apply (mod_of_multiple y 4 25); [lia|lia|assumption]).
  destruct (y mod 4 =? 0) eqn:E4; destruct (y mod 100 =? 0) eqn:E100;
  destruct (y mod 400 =? 0) eqn:E400; cbn [negb];
  repeat match goal with
  | H : (_ =? _) = true |- _ => apply Z.eqb_eq in H
  | H : (_ =? _) = false |- _ => apply Z.eqb_neq in H
  end; lia.
Qed.

Lemma DaysInYear_cases y : DaysInYear y = 365 \/ DaysInYear y = 366.
Proof.
  unfold DaysInYear.
  destruct (y mod 4 =? 0), (y mod 100 =? 0), (y mod 400 =? 0); simpl; auto.
Qed.

(** [YearFromTime t] is the year in which [t] falls: the largest [y] whose
    first day is not after the day of [t]. *)
Lemma YearFromTime_spec t :
  DayFromYear (YearFromTime t) <= Day t < DayFromYear (YearFromTime t + 1).
Proof.
  pose proof (DayFromYear_succ (YearFromTime t)) as Hs.
  assert (DayFromYear (YearFromTime t) <= Day t
          /\ Day t - DayFromYear (YearFromTime t) < DaysInYear (YearFromTime t)); [|lia].
  clear Hs.
  unfold YearFromTime.
  set (d := Day t + 134774).
  pose proof (Z.div_mod d 146097 ltac:(lia)) as Hd.
  pose proof (Z.mod_pos_bound d 146097 ltac:(lia)) as Bd.
  set (a := d / 146097) in *. set (r := d mod 146097) in *.
  pose proof (Z.div_mod r 36524 ltac:(lia)) as Hr.
  pose proof (Z.mod_pos_bound r 36524 ltac:(lia)) as Br.
  set (b := Z.min (r / 36524) 3).
  assert (0 <= r / 36524 <= 4) as Bq.
  { split; [apply Z.div_pos; lia|]. apply Z.div_le_upper_bound; lia. }
  assert (0 <= b <= 3) as Bb by (unfold b; lia).
  set (r1 := r - b * 36524).
  assert (0 <= r1 <= 36524 /\ (b < 3 -> r1 < 36524)) as Br1.
  { unfold r1, b. destruct (Z.min_spec (r / 36524) 3) as [[? ->]|[? ->]]; lia. }
  pose proof (Z.div_mod r1 1461 ltac:(lia)) as Hr1.
  pose proof (Z.mod_pos_bound r1 1461 ltac:(lia)) as Br1m.
  set (c := r1 / 1461) in *. set (r4 := r1 mod 1461) in *.
  assert (0 <= c <= 24) as Bc by lia.
  pose proof (Z.div_mod r4 365 ltac:(lia)) as Hr4.
  pose proof (Z.mod_pos_bound r4 365 ltac:(lia)) as Br4.
  set (n := Z.min (r4 / 365) 3).
  assert (0 <= r4 / 365 <= 4) as Bq4 by lia.
  assert (0 <= n <= 3) as Bn by (unfold n; lia).
  set (Y := 1601 + 400 * a + 100 * b + 4 * c + n).
  assert ((Y - 1601) / 400 = a) as E400.
  { symmetry. apply (Z.div_unique _ _ _ (100 * b + 4 * c + n)); unfold Y; lia. }
  assert ((Y - 1901) / 100 = 4 * a + b - 3) as E100.
  { symmetry. apply (Z.div_unique _ _ _ (4 * c + n)); unfold Y; lia. }
  assert ((Y - 1969) / 4 = 100 * a + 25 * b + c - 92) as E4.
  { symmetry. apply (Z.div_unique _ _ _ n); unfold Y; lia. }
  assert (DayFromYear Y = 146097 * a + 36524 * b + 1461 * c + 365 * n - 134774) as EY.
  { unfold DayFromYear. rewrite E400, E100, E4. unfold Y. lia. }
  assert (Day t - DayFromYear Y = r4 - 365 * n) as Ediff.
  { rewrite EY. unfold r1 in Hr1. unfold d in Hd. lia. }
  split.
  - unfold n. lia.
  - rewrite Ediff.
    destruct (DaysInYear_cases Y) as [E|E]; rewrite E.
    + (* a common year *)
      destruct (Z.min_spec (r4 / 365) 3) as [[Hlt Hn]|[Hge Hn]]; fold n in Hn.
      * lia.
      * (* n = 3: the year is a multiple of four *)
        assert (Y mod 4 = 0) as M4.
        { symmetry. apply (Z.mod_unique _ _ (401 + 100 * a + 25 * b + c)); unfold Y; lia. }
        unfold DaysInYear in E. rewrite M4 in E. simpl in E.
        destruct (Y mod 100 =? 0) eqn:M100; simpl in E; [|lia].
        apply Z.eqb_eq in M100.
        assert (c = 24) as Ec.
        { assert ((4 * c + 4) mod 100 = 0) as Hm.
          { rewrite <- M100. unfold Y.
            replace (1601 + 400 * a + 100 * b + 4 * c + n) with (4 * c + 4 + (16 + 4 * a + b) * 100) by lia.
            rewrite Z.mod_add by lia. reflexivity. }
          pose proof (Z.div_mod (4 * c + 4) 100 ltac:(lia)) as Hx. rewrite Hm in Hx.
          assert (0 <= (4 * c + 4) / 100 <= 1) by (split; [apply Z.div_pos; lia| apply Z.div_le_upper_bound; lia]).
          lia. }
        destruct (Y mod 400 =? 0) eqn:M400; simpl in E; [lia|].
        apply Z.eqb_neq in M400.
        assert (b < 3) as Hb.
        { destruct (Z.eq_dec b 3) as [Eb|]; [|lia]. exfalso. apply M400.
          symmetry. apply (Z.mod_unique _ _ (5 + a)); unfold Y; lia. }
        destruct Br1 as [_ Hb3]. specialize (Hb3 Hb). lia.
    + destruct (Z.min_spec (r4 / 365) 3) as [[Hlt Hn]|[Hge Hn]]; fold n in Hn; lia.
Qed.

Lemma DayFromYear_add y n : 0 <= n -> DayFromYear y + 365 * n <= DayFromYear (y + n).
Proof.
  intros Hn. pattern n. apply natlike_ind; [|clear n Hn; intros n Hn IH|exact Hn].
  - replace (y + 0) with y by lia. lia.
  - replace (y + Z.succ n) with (y + n + 1) by lia.
    pose proof (DayFromYear_succ (y + n)) as Hs.
    destruct (DaysInYear_cases (y + n)) as [E|E]; rewrite E in Hs; lia.
Qed.

Lemma DayFromYear_mono y1 y2 : y1 <= y2 -> DayFromYear y1 <= DayFromYear y2.
Proof.
  intros H. pose proof (DayFromYear_add y1 (y2 - y1) ltac:(lia)) as Ha.
  replace (y1 + (y2 - y1)) with y2 in Ha by lia. lia.
Qed.

Lemma YearFromTime_unique t y :
  DayFromYear y <= Day t < DayFromYear (y + 1) -> YearFromTime t = y.
Proof.
  intros Hy. pose proof (YearFromTime_spec t) as Hs.
  destruct (Z.lt_trichotomy (YearFromTime t) y) as [Hlt | [Heq | Hgt]]; [|exact Heq|].
  - pose proof (DayFromYear_mono (YearFromTime t + 1) y ltac:(lia)). lia.
  - pose proof (DayFromYear_mono (y + 1) (YearFromTime t) ltac:(lia)). lia.
Qed.

Lemma DayWithinYear_range t : 0 <= DayWithinYear t < DaysInYear (YearFromTime t).
Proof.
  unfold DayWithinYear. pose proof (YearFromTime_spec t) as Hs.
  pose proof (DayFromYear_succ (YearFromTime t)). lia.
Qed.

Lemma Day_MakeDate d r :
  0 <= r < msPerDay -> Day (MakeDate d r) = d /\ TimeWithinDay (MakeDate d r) = r.
Proof.
  intros Hr. unfold Day, TimeWithinDay, MakeDate. split.
  - symmetry. apply (Z.div_unique _ _ _ r); lia.
  - symmetry. apply (Z.mod_unique _ _ d); lia.
Qed.


Lemma month_of_cases d l :
  0 <= d < 365 + l ->
  (month_of d l = 0 /\ d < 31) \/ (month_of d l = 1 /\ 31 <= d < 59 + l)
  \/ (month_of d l = 2 /\ 59 + l <= d < 90 + l)
  \/ (month_of d l = 3 /\ 90 + l <= d < 120 + l)
  \/ (month_of d l = 4 /\ 120 + l <= d < 151 + l)
  \/ (month_of d l = 5 /\ 151 + l <= d < 181 + l)
  \/ (month_of d l = 6 /\ 181 + l <= d < 212 + l)
  \/ (month_of d l = 7 /\ 212 + l <= d < 243 + l)
  \/ (month_of d l = 8 /\ 243 + l <= d < 273 + l)
  \/ (month_of d l = 9 /\ 273 + l <= d < 304 + l)
  \/ (month_of d l = 10 /\ 304 + l <= d < 334 + l)
  \/ (month_of d l = 11 /\ 334 + l <= d < 365 + l).
Proof.
  intros Hd. unfold month_of.
  repeat match goal with
  | |- context [?a <? ?b] => destruct (Z.ltb_spec a b); cbv iota; [lia|]
  end.
  lia.
Qed.

Lemma month_of_range d l : 0 <= month_of d l <= 11.
Proof.
  unfold month_of.
  repeat match goal with
  | |- context [?a <? ?b] => destruct (Z.ltb_spec a b); cbv iota; [lia|]
  end.
  lia.
Qed.

Ltac month_start :=
  repeat match goal with
  | |- context [MonthStart ?k ?l] =>
      let v := eval vm_compute in (MonthStart k l) in
      change (MonthStart k l) with v
  end.

Ltac month_of_by_lia :=
  unfold month_of;
  repeat match goal with
  | |- context [?a <? ?b] =>
      first [ replace (a <? b) with true by (symmetry; apply Z.ltb_lt; lia)
            | replace (a <? b) with false by (symmetry; apply Z.ltb_ge; lia) ];
      cbv iota
  end.

(** The day in the year after: the same month and date, [1 March] after
    [29 February]. *)
Lemma next_year_day d l l' :
  0 <= d < 365 + l -> 0 <= l <= 1 -> 0 <= l' <= 1 -> l + l' <= 1 ->
  let m := month_of d l in
  let date := d - MonthStart m l + 1 in
  let d' := MonthStart m l' + date - 1 in
  0 <= d' < 365 + l'
  /\ (d' = d /\ m <= 1 \/ d' = d + l' - l /\ 2 <= m)
  /\ 1 <= date <= 31
  /\ ((m = 1 /\ date = 29 /\ month_of d' l' = 2 /\ d' - MonthStart 2 l' + 1 = 1)
      \/ (month_of d' l' = m /\ d' - MonthStart m l' + 1 = date)).
Proof.
  intros Hd Hl Hl' Hll m date d'. subst d' date m.
  assert (l = 0 /\ l' = 0 \/ l = 0 /\ l' = 1 \/ l = 1 /\ l' = 0)
    as [[-> ->] | [[-> ->] | [-> ->]]] by lia.
  all: destruct (month_of_cases d _ Hd)
      as [[-> H] | [[-> H] | [[-> H] | [[-> H] | [[-> H] | [[-> H] | [[-> H] | [[-> H] | [[-> H] | [[-> H] | [[-> H] | [-> H]]]]]]]]]]]].
  all: month_start.
  all: split; [lia|]; split; [lia|]; split; [lia|].
  all: try (right; split; [month_of_by_lia; reflexivity | lia]).
  all: destruct (Z.eq_dec d 59) as [-> | Hne];
    [ left; split; [reflexivity|]; split; [lia|]; split; [reflexivity | lia]
    | right; split; [month_of_by_lia; reflexivity | lia] ].
Qed.

Lemma DaysInYear_consecutive y : DaysInYear y - 365 + (DaysInYear (y + 1) - 365) <= 1.
Proof.
  destruct (DaysInYear_cases y) as [E|E]; destruct (DaysInYear_cases (y + 1)) as [E'|E'];
    rewrite E, E'; try lia.
  exfalso. unfold DaysInYear in E, E'.
  destruct (y mod 4 =? 0) eqn:M; cbn [negb] in E; [|lia].
  destruct ((y + 1) mod 4 =? 0) eqn:M'; cbn [negb] in E'; [|lia].
  apply Z.eqb_eq in M, M'.
  pose proof (Z.div_mod y 4 ltac:(lia)). pose proof (Z.div_mod (y + 1) 4 ltac:(lia)).
  lia.
Qed.

(** [d.setFullYear(d.getFullYear() + 1)] moves a date to the same time of
    the same day of the year after -- to 1 March from 29 February --, which
    is 365 or 366 days later. *)
Lemma plus_one_year_spec tz t :
  let e := plus_one_year tz t in
  (e = t + 365 * msPerDay \/ e = t + 366 * msPerDay)
  /\ getFullYear tz e = getFullYear tz t + 1
  /\ TimeWithinDay (e + tz) = TimeWithinDay (t + tz)
  /\ ((MonthFromTime (t + tz) = 1 /\ DateFromTime (t + tz) = 29
       /\ MonthFromTime (e + tz) = 2 /\ DateFromTime (e + tz) = 1)
      \/ (MonthFromTime (e + tz) = MonthFromTime (t + tz)
          /\ DateFromTime (e + tz) = DateFromTime (t + tz))).
Proof.
  intros e. subst e.
  unfold plus_one_year, setFullYear, getFullYear.
  set (lt := t + tz).
  set (Y := YearFromTime lt).
  set (l := DaysInYear Y - 365). set (l' := DaysInYear (Y + 1) - 365).
  pose proof (DayWithinYear_range lt) as Hd. fold Y in Hd.
  assert (0 <= l <= 1) as Hl by (unfold l; destruct (DaysInYear_cases Y); lia).
  assert (0 <= l' <= 1) as Hl' by (unfold l'; destruct (DaysInYear_cases (Y + 1)); lia).
  pose proof (DaysInYear_consecutive Y) as Hll. fold l l' in Hll.
  pose proof (month_of_range (DayWithinYear lt) l) as Hm.
  assert (MonthFromTime lt = month_of (DayWithinYear lt) l) as Em by reflexivity.
  assert (DateFromTime lt = DayWithinYear lt - MonthStart (MonthFromTime lt) l + 1)
    as Edate by reflexivity.
  destruct (next_year_day (DayWithinYear lt) l l' ltac:(unfold l; lia) Hl Hl' Hll)
    as (Hd' & Hshift & Hdate & Hcal).
  rewrite <- Em in Hd', Hshift, Hdate, Hcal. rewrite <- Edate in Hd', Hdate, Hcal.
  set (m := MonthFromTime lt) in *. set (date := DateFromTime lt) in *.
  set (d' := MonthStart m l' + date - 1) in *.
  assert (MakeDay (Y + 1) m date = DayFromYear (Y + 1) + d') as Eday.
  { unfold MakeDay.
    replace (m / 12) with 0 by (symmetry; apply Z.div_small; lia).
    replace (m mod 12) with m by (symmetry; apply Z.mod_small; lia).
    rewrite Z.add_0_r. fold l'. unfold d'. lia. }
  rewrite Eday.
  pose proof (Z.mod_pos_bound lt msPerDay ltac:(reflexivity)) as Hr.
  fold (TimeWithinDay lt) in Hr.
  destruct (Day_MakeDate (DayFromYear (Y + 1) + d') (TimeWithinDay lt) Hr) as [HD HT].
  set (lt' := MakeDate (DayFromYear (Y + 1) + d') (TimeWithinDay lt)) in *.
  replace (lt' - tz + tz) with lt' by lia.
  assert (YearFromTime lt' = Y + 1) as EY.
  { apply YearFromTime_unique. rewrite HD.
    pose proof (DayFromYear_succ (Y + 1)). unfold l' in Hd'. lia. }
  assert (DayWithinYear lt' = d') as Edwy.
  { unfold DayWithinYear. rewrite EY, HD. lia. }
  assert (InLeapYear lt' = l') as El' by (unfold InLeapYear; now rewrite EY).
  assert (MonthFromTime lt' = month_of d' l') as Em'
    by (unfold MonthFromTime; now rewrite Edwy, El').
  assert (forall k, MonthFromTime lt' = k -> DateFromTime lt' = d' - MonthStart k l' + 1)
    as Edate'.
  { intros k Hk. unfold DateFromTime. now rewrite Hk, Edwy, El'. }
  split.
  { assert (lt' - lt = (Day lt' - Day lt) * msPerDay) as Ediff.
    { pose proof (Z.div_mod lt msPerDay ltac:(discriminate)) as H1.
      pose proof (Z.div_mod lt' msPerDay ltac:(discriminate)) as H2.
      fold (TimeWithinDay lt') in H2. fold (TimeWithinDay lt) in H1.
      fold (Day lt) in H1. fold (Day lt') in H2. rewrite HT in H2. lia. }
    assert (Day lt = DayFromYear Y + DayWithinYear lt) as EDay
      by (unfold DayWithinYear; fold Y; lia).
    rewrite HD, EDay in Ediff.
    pose proof (DayFromYear_succ Y) as Hs. fold (l + 365) in Hs.
    replace (DayFromYear (Y + 1)) with (DayFromYear Y + 365 + l) in Ediff
      by (unfold l; lia).
    assert (lt = t + tz) as Elt by reflexivity.
    unfold msPerDay in Ediff |- *.
    assert (d' = DayWithinYear lt /\ m <= 1 \/ d' = DayWithinYear lt + l' - l /\ 2 <= m)
      as [[E1 _] | [E1 _]] by exact Hshift; lia. }
  split; [exact EY|]. split; [exact HT|].
  destruct Hcal as [(H1 & H2 & H3 & H4) | (H3 & H4)].
  - left. split; [exact H1|]. split; [exact H2|].
    rewrite <- Em' in H3. split; [exact H3|]. now rewrite (Edate' 2 H3).
  - right. rewrite <- Em' in H3. split; [exact H3|]. now rewrite (Edate' m H3).
Qed.

End Dates.

(* ================================================================== *)
(** ** What a bind writes *)

(** C5 (as stated, refuted): the [server.js] handler binds by writing
    [device_fingerprint] alone; on [Sample.fresh] the bound record has
    neither [bound_at] nor [expires_at] afterwards. *)
Lemma server_js_bind_leaves_dates_unset :
  let after :=
    snd (Remote.ServerJs.login_with_token None 6000%Z
           (Remote.mkLoginRequest Sample.code1 "F1" true) [Sample.fresh]) in
  option_map device_fingerprint
    (Remote.select_single (Remote.by_code Sample.code1) after) = Some (Some "F1")
  /\ option_map bound_at
       (Remote.select_single (Remote.by_code Sample.code1) after) = Some None
  /\ option_map expires_at
       (Remote.select_single (Remote.by_code Sample.code1) after) = Some None.
Proof.
  repeat split.
Qed.

(** C5 (amended): when the server that stamps bindings binds an active
    unbound record with confirmation, its single update of the table sets
    [device_fingerprint] to the supplied fingerprint, [bound_at] to the
    clock reading taken for the update and [expires_at] to one calendar
    year after the clock reading taken just before: the date that
    [setFullYear(getFullYear() + 1)] gives, in the time zone of the server
    (of fixed offset [tz]) the same time of the same day and month of the
    year after -- 1 March after 29 February --, which is 365 or 366 days
    later; the [server.js] handler binds by setting [device_fingerprint]
    only and keeps [bound_at] and [expires_at] as they were.  The clock is
    a valid date at least 366 days before the last one. *)
Theorem bind_writes
        (token fp : string) (table : Remote.DB) (row : TokenInfo)
        (tz : Z) (now : nat -> Time) (t : Time) :
  Remote.select_single (Remote.by_code token) table = Some row ->
  is_active row = true -> device_fingerprint row = None ->
  (Z.abs tz <= JSDate.msPerDay)%Z ->
  JSDate.valid_time (now 0%nat) -> JSDate.valid_time (now 1%nat) ->
  (now 0%nat + 366 * JSDate.msPerDay <= JSDate.maxTime)%Z ->
  let request := Remote.mkLoginRequest token fp true in
  let stamped :=
    Remote.ServerStamp.login_with_token_in tz None now request table in
  let plain := Remote.ServerJs.login_with_token None t request table in
  let expiry := JSDate.plus_one_year tz (now 0%nat) in
  Remote.status (fst stamped) = 200%Z
  /\ snd stamped
     = Remote.update_where (Remote.by_id (token_id row))
         (stamp_patch fp (now 1%nat) expiry) table
  /\ (exists row',
         Remote.select_single (Remote.by_code token) (snd stamped) = Some row'
         /\ device_fingerprint row' = Some fp
         /\ bound_at row' = Some (now 1%nat)
         /\ expires_at row' = Some expiry
         /\ is_active row' = true)
  /\ (expiry = now 0%nat + 365 * JSDate.msPerDay
      \/ expiry = now 0%nat + 366 * JSDate.msPerDay)%Z
  /\ JSDate.valid_time expiry
  /\ JSDate.getFullYear tz expiry = (JSDate.getFullYear tz (now 0%nat) + 1)%Z
  /\ JSDate.TimeWithinDay (expiry + tz)%Z = JSDate.TimeWithinDay (now 0%nat + tz)%Z
  /\ ((JSDate.MonthFromTime (now 0%nat + tz)%Z = 1%Z
       /\ JSDate.DateFromTime (now 0%nat + tz)%Z = 29%Z
       /\ JSDate.MonthFromTime (expiry + tz)%Z = 2%Z
       /\ JSDate.DateFromTime (expiry + tz)%Z = 1%Z)
      \/ (JSDate.MonthFromTime (expiry + tz)%Z = JSDate.MonthFromTime (now 0%nat + tz)%Z
          /\ JSDate.DateFromTime (expiry + tz)%Z
             = JSDate.DateFromTime (now 0%nat + tz)%Z))
  /\ Remote.status (fst plain) = 200%Z
  /\ (exists row',
         Remote.select_single (Remote.by_code token) (snd plain) = Some row'
         /\ device_fingerprint row' = Some fp
         /\ bound_at row' = bound_at row
         /\ expires_at row' = expires_at row).
Proof.
  intros Hs Ha Hf Htz Hv0 Hv1 Hmax request stamped plain expiry.
  subst request stamped plain.
  rewrite (server_js_unbound token true table row None t Hs fp Ha Hf).
  unfold Remote.ServerStamp.login_with_token_in,
         Remote.ServerStamp.login_with_token. simpl.
  rewrite Hs, Ha, Hf. simpl. fold expiry.
  destruct (plus_one_year_spec tz (now 0%nat)) as (Hdays & Hyear & Htime & Hcal).
  fold expiry in Hdays, Hyear, Htime, Hcal.
  split; [reflexivity|]. split; [reflexivity|]. split.
  { eexists. split.
    - apply (select_after_patch_by_id token table row Hs).
    - simpl. rewrite Ha. repeat split. }
  split; [exact Hdays|]. split.
  { unfold JSDate.valid_time, JSDate.maxTime, JSDate.msPerDay in *. lia. }
  split; [exact Hyear|]. split; [exact Htime|]. split; [exact Hcal|].
  split; [reflexivity|]. eexists. split.
  - apply (select_after_patch_by_id token table row Hs).
  - repeat split.
Qed.

Lemma bind_writes_witness :
  snd (Remote.ServerStamp.login_with_token_in 0 None Sample.clock
         (Remote.mkLoginRequest Sample.code1 "F1" true) [Sample.fresh])
  = [apply_patch (stamp_patch "F1" 20001%Z 31536020000%Z) Sample.fresh]
  /\ JSDate.plus_one_year 0 (Sample.clock 0)
     = (Sample.clock 0 + 365 * JSDate.msPerDay)%Z.
Proof.
  assert (Z.abs 0 <= JSDate.msPerDay)%Z as Htz by (vm_compute; discriminate).
  assert (JSDate.valid_time (Sample.clock 0)) as H0
      by (split; vm_compute; discriminate).
  assert (JSDate.valid_time (Sample.clock 1)) as H1
      by (split; vm_compute; discriminate).
  assert (Sample.clock 0 + 366 * JSDate.msPerDay <= JSDate.maxTime)%Z as Hm
      by (vm_compute; discriminate).
  pose proof (bind_writes Sample.code1 "F1" [Sample.fresh] Sample.fresh
                0%Z Sample.clock 6000%Z
                eq_refl eq_refl eq_refl Htz H0 H1 Hm) as H.
  cbv zeta in H. destruct H as (_ & H2 & _).
  split; [rewrite H2|]; reflexivity.
Defined.

(* ================================================================== *)
(** ** Device reset *)

(** C7 (as stated, refuted): after a reset of [Sample.bound_F1], in the
    cache through [resetTokenDevice] and in the table through the reset
    handler, [bound_at] still holds the time of the former binding. *)
Lemma reset_keeps_bound_at :
  let w := Sample.world [Sample.bound_F1] [Sample.bound_F1] in
  let w' :=
    snd (Client.resetTokenDevice false Client.Delivered
           (Remote.ServerStamp.reset_token_device None) Sample.code1 w) in
  bound_at Sample.bound_F1 = Some 5000%Z
  /\ option_map bound_at (LocalCache.lookup Sample.code1 (Client.tokens w'))
     = Some (Some 5000%Z)
  /\ option_map bound_at
       (Remote.select_single (Remote.by_code Sample.code1) (Client.db w'))
     = Some (Some 5000%Z).
Proof.
  repeat split.
Qed.

Lemma select_after_patch_by_code
      (code : string) (table : Remote.DB) (row : TokenInfo) (u : Patch) :
  Remote.select_single (Remote.by_code code) table = Some row ->
  Remote.select_single (Remote.by_code code)
    (Remote.update_where (Remote.by_code code) u table)
  = Some (apply_patch u row).
Proof.
  intros Hs.
  rewrite (select_single_update_where _ _ u table row).
  - unfold Remote.by_code at 1.
    rewrite (select_single_by_code code table row Hs), String.eqb_refl.
    reflexivity.
  - intros t. apply by_code_apply_patch.
  - exact Hs.
Qed.

Lemma resetTokenDevice_cache
      (fo : bool) (net : Client.Net)
      (handler : string -> Remote.DB -> Remote.Response * Remote.DB)
      (code : string) (w : Client.World) :
  Client.tokens (snd (Client.resetTokenDevice fo net handler code w))
  = LocalCache.updateLocalToken code reset_patch (Client.tokens w).
Proof.
  unfold Client.resetTokenDevice.
  destruct fo; simpl; [reflexivity|].
  destruct (Client.apiRequest false net (handler code) (Client.db w)).
  reflexivity.
Qed.

(** C7 (amended): [resetTokenDevice] sets [device_fingerprint] to null on
    the record of that code -- in the cache in every case, in the table
    when the reset handler is reached -- and keeps [bound_at],
    [expires_at] and [is_active] as they were; afterwards, if the record
    is active, a call with confirmation from any device with a non-empty
    fingerprint [G] succeeds and binds the record to [G]. *)
Theorem reset_clears_fingerprint_only (code G : string) (w : Client.World) :
  G <> EmptyString ->
  (forall (fo : bool) (net : Client.Net)
          (handler : string -> Remote.DB -> Remote.Response * Remote.DB)
          (found : TokenInfo),
      LocalCache.lookup code (Client.tokens w) = Some found ->
      token_code found = code ->
      let done := Client.resetTokenDevice fo net handler code w in
      let found' := apply_patch reset_patch found in
      LocalCache.lookup code (Client.tokens (snd done)) = Some found'
      /\ device_fingerprint found' = None
      /\ bound_at found' = bound_at found
      /\ expires_at found' = expires_at found
      /\ is_active found' = is_active found
      /\ (is_active found = true ->
          let bind := verifyLocalToken code G true (Client.tokens (snd done)) in
          signal_of_result (fst bind) = Granted
          /\ option_map device_fingerprint (LocalCache.lookup code (snd bind))
             = Some (Some G)))
  /\ (forall (row : TokenInfo) (plus_one_year : Time -> Time) (now : nat -> Time),
      Remote.select_single (Remote.by_code code) (Client.db w) = Some row ->
      let done :=
        Client.resetTokenDevice false Client.Delivered
          (Remote.ServerStamp.reset_token_device None) code w in
      let row' := apply_patch reset_patch row in
      fst done = Ok Remote.AckBody
      /\ Remote.select_single (Remote.by_code code) (Client.db (snd done)) = Some row'
      /\ device_fingerprint row' = None
      /\ bound_at row' = bound_at row
      /\ expires_at row' = expires_at row
      /\ is_active row' = is_active row
      /\ (is_active row = true ->
          let bind :=
            Remote.ServerStamp.login_with_token plus_one_year None now
              (Remote.mkLoginRequest code G true) (Client.db (snd done)) in
          signal_of_response (fst bind) = Granted
          /\ option_map device_fingerprint
               (Remote.select_single (Remote.by_code code) (snd bind))
             = Some (Some G))).
Proof.
  intros HG. split.
  - intros fo net handler found Hc Hcode done found'.
    assert (LocalCache.lookup code (Client.tokens (snd done)) = Some found') as Hl.
    { subst done. rewrite resetTokenDevice_cache, lookup_updateLocalToken, Hc.
      simpl. now rewrite Hcode, String.eqb_refl. }
    repeat match goal with |- _ /\ _ => split end;
      try assumption; try reflexivity.
    intros Ha bind. subst bind.
    rewrite (verifyLocalToken_unbound code true _ found' Hl G Ha eq_refl).
    cbn [fst snd]. split; [reflexivity|].
    now rewrite (lookup_after_local_bind code _ found' Hl G).
  - intros row plus_one_year now Hs done row'.
    assert (Client.db (snd done)
            = Remote.update_where (Remote.by_code code) reset_patch (Client.db w))
      as Hdb by reflexivity.
    assert (Remote.select_single (Remote.by_code code) (Client.db (snd done))
            = Some row') as Hr.
    { rewrite Hdb. now apply select_after_patch_by_code. }
    repeat match goal with |- _ /\ _ => split end;
      try assumption; try reflexivity.
    intros Ha bind. subst bind.
    pose proof (bind_stamp_step code G (Client.db (snd done)) row' plus_one_year now
                  Hr Ha eq_refl) as (H1 & H2).
    split; [exact H1|]. now rewrite H2.
Qed.

Lemma reset_clears_fingerprint_only_witness :
  LocalCache.lookup Sample.code1
    (Client.tokens
       (snd (Client.resetTokenDevice false Client.Delivered
               (Remote.ServerStamp.reset_token_device None) Sample.code1
               (Sample.world [Sample.bound_F1] [Sample.bound_F1]))))
  = Some (apply_patch reset_patch Sample.bound_F1)
  /\ Remote.select_single (Remote.by_code Sample.code1)
       (Client.db
          (snd (Client.resetTokenDevice false Client.Delivered
                  (Remote.ServerStamp.reset_token_device None) Sample.code1
                  (Sample.world [Sample.bound_F1] [Sample.bound_F1]))))
     = Some (apply_patch reset_patch Sample.bound_F1).
Proof.
  assert ("F2" <> EmptyString) as HG by discriminate.
  pose proof (reset_clears_fingerprint_only
                Sample.code1 "F2" (Sample.world [Sample.bound_F1] [Sample.bound_F1])
                HG) as [Hl Hr].
  split.
  - exact (proj1 (Hl false Client.Delivered
                     (Remote.ServerStamp.reset_token_device None)
                     Sample.bound_F1 eq_refl eq_refl)).
  - exact (proj1 (proj2 (Hr Sample.bound_F1 Sample.a_year_later Sample.clock eq_refl))).
Defined.

(* ================================================================== *)
(** ** [loginWithToken]: what reaches the caller *)

Lemma denial_message_is_not_the_binding_signal (e : string) :
  In (signal_of_message e) [InvalidCode; Deactivated; Expired; DeviceMismatch] ->
  e <> BINDING_REQUIRED /\ JS.or_else (Some e) "API Request Failed" = e.
Proof.
  intros Hin. split.
  - intros ->. vm_compute in Hin. intuition discriminate.
  - simpl. destruct (e =? EmptyString) eqn:E; [|reflexivity].
    apply String.eqb_eq in E. subst e. vm_compute in Hin. intuition discriminate.
Qed.

(** C6 (as stated, refuted): the server denies the code as deactivated,
    yet [loginWithToken] grants access from the cached copy; and when the
    server denies the code as locked to another device and the cache does
    not hold it, the caller is told that the code is invalid. *)
Lemma remote_denial_is_retried_locally :
  let login table cache :=
    Client.loginWithToken false (Some "F1") Client.Delivered
      (Remote.ServerJs.login_with_token None 6000%Z) Sample.clock
      Sample.code1 false (Sample.world table cache) in
  let reply table :=
    fst (Remote.ServerJs.login_with_token None 6000%Z
           (Remote.mkLoginRequest Sample.code1 "F1" false) table) in
  signal_of_response (reply [Sample.inactive_F1]) = Deactivated
  /\ signal_of_result (fst (login [Sample.inactive_F1] [Sample.bound_F1])) = Granted
  /\ signal_of_response (reply [Sample.record true (Some "F2") None None])
     = DeviceMismatch
  /\ signal_of_result (fst (login [Sample.record true (Some "F2") None None] []))
     = InvalidCode.
Proof.
  repeat split.
Qed.

(** C6 (amended): in [loginWithToken] of [auth.ts], a binding-required
    answer of the server reaches the caller as it is, without a look at
    the cache; every other failure of the remote call -- a denial payload
    (invalid code, deactivated, expired, locked to another device) as well
    as a transient failure -- is followed by the verification against the
    local cache, and the caller receives the outcome of that. *)
Theorem login_propagation
        (fp token : string) (confirmBinding : bool) (net : Client.Net)
        (handler : Remote.LoginRequest -> Remote.DB -> Remote.Response * Remote.DB)
        (now : nat -> Time) (w : Client.World) :
  let served :=
    handler (Remote.mkLoginRequest token fp confirmBinding) (Client.db w) in
  let after := Client.mkWorld (snd served) (Client.tokens w) (Client.current_user w) in
  let login :=
    Client.loginWithToken false (Some fp) net handler now token confirmBinding w in
  (net = Client.Delivered -> Client.ok (fst served) = true ->
   Remote.body (fst served) = Remote.RequiresBinding ->
   login = (Throw BINDING_REQUIRED, after))
  /\ (forall e, net = Client.Delivered -> Client.ok (fst served) = false ->
                Remote.body (fst served) = Remote.ErrorBody e ->
                In (signal_of_message e)
                   [InvalidCode; Deactivated; Expired; DeviceMismatch] ->
                login = Client.local_login token fp confirmBinding after)
  /\ (forall m, net = Client.ReplyLost m -> m <> BINDING_REQUIRED ->
                login = Client.local_login token fp confirmBinding after)
  /\ (forall m, In net [Client.Offline; Client.Unreachable m; Client.NonJson m] ->
                m <> BINDING_REQUIRED ->
                login = Client.local_login token fp confirmBinding w).
Proof.
  intros served after login. subst login after.
  unfold Client.loginWithToken, Client.apiRequest. cbn [negb andb].
  repeat match goal with |- _ /\ _ => split end.
  - intros -> Hok Hb. simpl. fold served.
    destruct served as [res d']. simpl in *. rewrite Hok. simpl. rewrite Hb.
    reflexivity.
  - intros e -> Hok Hb Hs. simpl. fold served.
    destruct served as [res d']. simpl in *. rewrite Hok. simpl. rewrite Hb.
    destruct (denial_message_is_not_the_binding_signal e Hs) as [Hne Hm].
    cbn [Client.error_of]. rewrite Hm.
    apply String.eqb_neq in Hne. rewrite Hne. reflexivity.
  - intros m -> Hne. simpl. fold served.
    apply String.eqb_neq in Hne. rewrite Hne. reflexivity.
  - intros m Hin Hne. apply String.eqb_neq in Hne.
    destruct Hin as [<- | [<- | [<- | []]]]; simpl.
    + destruct w; reflexivity.
    + rewrite Hne. destruct w; reflexivity.
    + rewrite Hne. destruct w; reflexivity.
Qed.

Lemma login_propagation_witness :
  Client.loginWithToken false (Some "F1") Client.Delivered
    (Remote.ServerJs.login_with_token None 6000%Z) Sample.clock Sample.code1 false
    (Sample.world [Sample.inactive_F1] [Sample.bound_F1])
  = Client.local_login Sample.code1 "F1" false
      (Sample.world [Sample.inactive_F1] [Sample.bound_F1])
  /\ Client.loginWithToken false (Some "F1") Client.Delivered
       (Remote.ServerJs.login_with_token None 6000%Z) Sample.clock Sample.code1 false
       (Sample.world [Sample.fresh] [])
     = (Throw BINDING_REQUIRED, Sample.world [Sample.fresh] []).
Proof.
  split.
  - refine (proj1 (proj2 (login_propagation "F1" Sample.code1 false Client.Delivered
                            (Remote.ServerJs.login_with_token None 6000%Z)
                            Sample.clock
                            (Sample.world [Sample.inactive_F1] [Sample.bound_F1])))
                  "This token is deactivated." eq_refl eq_refl eq_refl _).
    vm_compute. right. left. reflexivity.
  - exact (proj1 (login_propagation "F1" Sample.code1 false Client.Delivered
                    (Remote.ServerJs.login_with_token None 6000%Z)
                    Sample.clock (Sample.world [Sample.fresh] []))
                 eq_refl eq_refl eq_refl).
Defined.

(** The older client module catches the binding-required answer as well:
    it then consults the cache, and reports an unknown code when the cache
    does not hold the token. *)
Lemma old_client_swallows_binding_required :
  signal_of_result
    (fst (Client.loginWithToken_old false (Some "F1") Client.Delivered
            (Remote.ServerJs.login_with_token None 6000%Z) Sample.clock
            Sample.code1 false (Sample.world [Sample.fresh] [])))
  = InvalidCode.
Proof. reflexivity. Qed.

(* ================================================================== *)
(** ** [getAllTokens] *)

Section Listing.

Import Client.

Lemma has_code_In (code : string) (l : list TokenInfo) :
  has_code code l = true <-> In code (codes l).
Proof.
  unfold has_code, codes. rewrite existsb_exists, in_map_iff. split.
  - intros (x & Hx & He). apply String.eqb_eq in He. now exists x.
  - intros (x & He & Hx). exists x. split; [exact Hx|]. now apply String.eqb_eq.
Qed.

(** The merge keeps the remote list in front and appends cached records
    whose code is new. *)
Lemma merge_shape (localTokens onlineTokens : list TokenInfo) :
  exists extra,
    merge onlineTokens localTokens = (onlineTokens ++ extra)%list
    /\ incl extra localTokens
    /\ NoDup (codes extra)
    /\ (forall e, In e extra -> ~ In (token_code e) (codes onlineTokens))
    /\ incl (codes localTokens) (codes (onlineTokens ++ extra)).
Proof.
  unfold merge.
  revert onlineTokens.
  induction localTokens as [|t l IH]; intros online; simpl.
  - exists []. rewrite app_nil_r.
    split; [reflexivity|]. split; [apply incl_nil_l|].
    split; [constructor|]. split; [intros e []|apply incl_nil_l].
  - destruct (has_code (token_code t) online) eqn:E.
    + destruct (IH online) as (extra & Hm & Hi & Hn & Hnew & Hc).
      exists extra. rewrite Hm.
      split; [reflexivity|]. split; [now apply incl_tl|].
      split; [exact Hn|]. split; [exact Hnew|].
      apply incl_cons; [|exact Hc].
      unfold codes. rewrite map_app. apply in_or_app. left.
      now apply has_code_In.
    + destruct (IH (online ++ [t])%list) as (extra & Hm & Hi & Hn & Hnew & Hc).
      assert (~ In (token_code t) (codes online)) as Ht.
      { intros H. apply has_code_In in H. congruence. }
      exists (t :: extra). rewrite Hm, <- app_assoc. simpl.
      split; [reflexivity|].
      split; [apply incl_cons; [now left | now apply incl_tl]|].
      split.
      { simpl. constructor; [|exact Hn].
        intros H. apply in_map_iff in H. destruct H as (e & He & Hin).
        apply (Hnew e Hin). unfold codes. rewrite map_app, He.
        apply in_or_app. right. now left. }
      split.
      { intros e [<- | Hin]; [exact Ht|].
        intros H. apply (Hnew e Hin). unfold codes. rewrite map_app.
        apply in_or_app. now left. }
      apply incl_cons.
      * unfold codes. rewrite map_app. apply in_or_app. right. now left.
      * rewrite <- app_assoc in Hc. exact Hc.
Qed.

Lemma insert_perm (x : TokenInfo) (l : list TokenInfo) :
  Permutation (insert newest_first x l) (x :: l).
Proof.
  induction l as [|y r IH]; simpl; [reflexivity|].
  destruct (newest_first x y <=? 0)%Z; [reflexivity|].
  rewrite IH. apply perm_swap.
Qed.

Lemma sort_perm (l : list TokenInfo) : Permutation (sort newest_first l) l.
Proof.
  induction l as [|x l IH]; simpl; [reflexivity|].
  rewrite insert_perm. now constructor.
Qed.

Lemma insert_sorted (x : TokenInfo) (l : list TokenInfo) :
  StronglySorted not_older l -> StronglySorted not_older (insert newest_first x l).
Proof.
  induction 1 as [|y r Hs IH Hy]; simpl.
  - repeat constructor.
  - destruct (newest_first x y <=? 0)%Z eqn:E.
    + apply Z.leb_le in E. unfold newest_first in E.
      constructor; [now constructor|].
      constructor; [unfold not_older; lia|].
      eapply Forall_impl; [|exact Hy]. unfold not_older. intros a Ha. lia.
    + apply Z.leb_gt in E. unfold newest_first in E.
      constructor; [exact IH|].
      eapply Permutation_Forall; [symmetry; apply insert_perm|].
      constructor; [unfold not_older; lia | exact Hy].
Qed.

Lemma sort_sorted (l : list TokenInfo) : StronglySorted not_older (sort newest_first l).
Proof.
  induction l as [|x l IH]; simpl; [constructor | now apply insert_sorted].
Qed.

End Listing.


(** [getAllTokens] with the stable sort by [created_at]. *)
Lemma getAllTokens_with_sort (fo : bool) (online : Result (list TokenInfo))
      (localTokens : LocalCache.Tokens) :
  Client.getAllTokens fo online localTokens
  = Client.getAllTokensWith (Client.sort Client.newest_first) fo online localTokens.
Proof. reflexivity. Qed.

(** A comparator that tells no two records apart, as [NaN] on every pair
    does, leaves the array as it is. *)
Lemma sort_without_dates (l : list TokenInfo) :
  Client.sort (fun _ _ => 0%Z) l = l.
Proof.
  unfold Client.sort.
  induction l as [|x l IH]; simpl; [reflexivity|].
  rewrite IH. destruct l; reflexivity.
Qed.



(** Without a reachable server the listing is the sorted cache, cleared of
    repeated codes. *)
Lemma listing_offline (fo : bool) (m : string) (localTokens : LocalCache.Tokens) :
  Client.getAllTokens true (Ok []) localTokens
  = Client.getAllTokens fo (Throw m) localTokens.
Proof. destruct fo; reflexivity. Qed.

(* ================================================================== *)
(** ** Generated codes *)

Section Codes.

Import Generator.

Lemma chars_length_32 : chars_length = 32%Z.
Proof. reflexivity. Qed.

(** Every position below 32 of the alphabet holds one of its symbols, for
    both ways of reading it. *)
Lemma alphabet_pick (k : Z) :
  (0 <= k < 32)%Z ->
  exists c, JS.charAt chars k = String c EmptyString
            /\ JS.index chars k = String c EmptyString
            /\ in_alphabet c = true.
Proof.
  intros Hk.
  assert (exists n, k = Z.of_nat n /\ (n < 32)%nat) as (n & -> & Hn).
  { exists (Z.to_nat k). split; lia. }
  do 32 (destruct n as [|n];
         [eexists; split; [reflexivity | split; reflexivity]|]).
  lia.
Qed.

Lemma uint32_pick_in_range (v : Z) : (0 <= uint32 v mod chars_length < 32)%Z.
Proof. rewrite chars_length_32. apply Z.mod_pos_bound. lia. Qed.

Lemma byte_pick_in_range (b : Z) : (0 <= (b mod 256) mod chars_length < 32)%Z.
Proof. rewrite chars_length_32. apply Z.mod_pos_bound. lia. Qed.

Lemma floor_pick_in_range (m : Z) :
  (0 <= m < 2 ^ 1074)%Z -> (0 <= floor_times m chars_length < 32)%Z.
Proof.
  rewrite chars_length_32. unfold floor_times.
  assert (0 < 2 ^ 1074)%Z as Hp by (apply Z.pow_pos_nonneg; lia).
  generalize dependent (2 ^ 1074)%Z. intros P Hm HP. split.
  - apply Z.div_pos; lia.
  - apply Z.div_lt_upper_bound; lia.
Qed.

(** Twelve symbols of the alphabet, laid out by the template. *)
Lemma template_of_symbols (pick : nat -> string) (prefix : string) :
  (forall i, (i < length)%nat ->
             exists c, pick i = String c EmptyString /\ in_alphabet c = true) ->
  well_formatted prefix (template prefix (loop pick)).
Proof.
  intros H. unfold length in H.
  destruct (H 0%nat ltac:(lia)) as (c0 & E0 & A0).
  destruct (H 1%nat ltac:(lia)) as (c1 & E1 & A1).
  destruct (H 2%nat ltac:(lia)) as (c2 & E2 & A2).
  destruct (H 3%nat ltac:(lia)) as (c3 & E3 & A3).
  destruct (H 4%nat ltac:(lia)) as (c4 & E4 & A4).
  destruct (H 5%nat ltac:(lia)) as (c5 & E5 & A5).
  destruct (H 6%nat ltac:(lia)) as (c6 & E6 & A6).
  destruct (H 7%nat ltac:(lia)) as (c7 & E7 & A7).
  destruct (H 8%nat ltac:(lia)) as (c8 & E8 & A8).
  destruct (H 9%nat ltac:(lia)) as (c9 & E9 & A9).
  destruct (H 10%nat ltac:(lia)) as (c10 & E10 & A10).
  destruct (H 11%nat ltac:(lia)) as (c11 & E11 & A11).
  unfold loop, length. cbn [seq fold_left].
  rewrite E0, E1, E2, E3, E4, E5, E6, E7, E8, E9, E10, E11.
  unfold template, JS.substring. cbn [append String.substring Nat.sub].
  exists (String c0 (String c1 (String c2 (String c3 EmptyString)))),
         (String c4 (String c5 (String c6 (String c7 EmptyString)))),
         (String c8 (String c9 (String c10 (String c11 EmptyString)))).
  split; [reflexivity|].
  unfold is_group. cbn [String.length Nat.eqb list_ascii_of_string forallb andb].
  rewrite A0, A1, A2, A3, A4, A5, A6, A7, A8, A9, A10, A11.
  repeat split.
Qed.

End Codes.

(** C9: every code produced by [generateSecureToken], from the
    cryptographic source or from [Math.random], and by
    [generateTokenCode] is the prefix followed by three groups of four
    symbols, each group introduced by a hyphen and each symbol taken from
    the alphabet; the alphabet has 32 distinct symbols and holds none of
    [0], [O], [1] and [I]. *)
Theorem generated_codes_are_well_formatted
        (src : Generator.RandomSource) (randomBytes : nat -> Z) (prefix : string) :
  Generator.well_formed src ->
  Generator.well_formatted prefix (Generator.generateSecureToken src prefix)
  /\ Generator.well_formatted prefix (Generator.generateTokenCode randomBytes prefix)
  /\ String.length Generator.chars = 32%nat
  /\ NoDup (list_ascii_of_string Generator.chars)
  /\ forallb (fun c => negb (Generator.in_alphabet c)) ["0"; "O"; "1"; "I"]%char = true.
Proof.
  intros Hwf.
  split; [|split; [|split; [reflexivity | split; [|reflexivity]]]].
  - unfold Generator.generateSecureToken. destruct src as [v | m].
    + apply template_of_symbols. intros i _.
      destruct (alphabet_pick _ (uint32_pick_in_range (v i))) as (c & Hc & _ & Ha).
      now exists c.
    + apply template_of_symbols. intros i Hi.
      destruct (alphabet_pick _ (floor_pick_in_range (m i) (Hwf i Hi)))
        as (c & Hc & _ & Ha).
      now exists c.
  - unfold Generator.generateTokenCode.
    apply template_of_symbols. intros i _.
    destruct (alphabet_pick _ (byte_pick_in_range (randomBytes i))) as (c & _ & Hc & Ha).
    now exists c.
  - simpl. repeat constructor; simpl; intuition discriminate.
Qed.

Lemma generated_codes_are_well_formatted_witness :
  Generator.generateSecureToken
    (Generator.MathRandom (fun i => (Z.of_nat i * 2 ^ 1070)%Z)) "ACE"
  = "ACE-ACEG-JLNQ-SUWY"
  /\ Generator.well_formatted "ACE"
       (Generator.generateSecureToken
          (Generator.MathRandom (fun i => (Z.of_nat i * 2 ^ 1070)%Z)) "ACE").
Proof.
  split; [vm_compute; reflexivity|].
  refine (proj1 (generated_codes_are_well_formatted
                   (Generator.MathRandom (fun i => (Z.of_nat i * 2 ^ 1070)%Z))
                   (fun _ => 0%Z) "ACE" _)).
  intros i Hi. unfold Generator.length in Hi.
  assert (0 <= Z.of_nat i < 12)%Z as Hz by lia.
  change (2 ^ 1074)%Z with (16 * 2 ^ 1070)%Z.
  assert (0 < 2 ^ 1070)%Z as Hp by (apply Z.pow_pos_nonneg; lia).
  generalize dependent (2 ^ 1070)%Z. intros P HP. nia.
Defined.

(* ================================================================== *)
(** ** The cache after an online login *)

(** C10 (as stated, refuted): an online login with the empty string as
    fingerprint succeeds and is mirrored into the cache, yet the next
    offline verification with the same code and fingerprint asks for a
    binding; and an online login with a code that starts with a blank is
    mirrored under that code, which the offline lookup, trimming its
    argument, does not find. *)
Lemma mirrored_login_may_fail_offline :
  let login :=
    Client.loginWithToken false (Some EmptyString) Client.Delivered
      (Remote.ServerJs.login_with_token None 6000%Z) Sample.clock
      Sample.code1 true (Sample.world [Sample.fresh] []) in
  let blank := " ACE-AAAA-BBBB-CCCC" in
  let login' :=
    Client.loginWithToken false (Some "F1") Client.Delivered
      (Remote.ServerJs.login_with_token None 6000%Z) Sample.clock blank true
      (Sample.world
         [mkToken (RowId "row-2") blank true 1000%Z None None None Sample.meta] []) in
  signal_of_result (fst login) = Granted
  /\ option_map device_fingerprint (hd_error (Client.tokens (snd login)))
     = Some (Some EmptyString)
  /\ signal_of_result
       (fst (verifyLocalToken Sample.code1 EmptyString false
               (Client.tokens (snd login)))) = BindingRequired
  /\ signal_of_result (fst login') = Granted
  /\ option_map token_code (hd_error (Client.tokens (snd login'))) = Some blank
  /\ signal_of_result
       (fst (verifyLocalToken blank "F1" false (Client.tokens (snd login'))))
     = InvalidCode.
Proof.
  repeat split.
Qed.

(** C10 (amended): when the remote call of [loginWithToken] succeeds, the
    record put in front of the cache for that code, the only one with that
    code, has [is_active = true], the fingerprint of the device,
    [generated_by = ONLINE_CACHE], no [expires_at] and no [bound_at];
    if the fingerprint is not empty and the code is made of ASCII
    characters with no white space at either end, [verifyLocalToken] with
    that code and fingerprint then succeeds on this cache, with either
    flag and without a write -- whatever has become of the record on the
    server, which it does not read. *)
Theorem online_login_seeds_the_cache
        (fp token : string) (confirmBinding : bool) (net : Client.Net)
        (handler : Remote.LoginRequest -> Remote.DB -> Remote.Response * Remote.DB)
        (now : nat -> Time) (w : Client.World)
        (res : Remote.Body) (table' : Remote.DB) :
  Client.apiRequest false net
    (handler (Remote.mkLoginRequest token fp confirmBinding)) (Client.db w)
  = (Ok res, table') ->
  Client.requires_binding res = false ->
  fp <> EmptyString ->
  JS.ascii_only token = true ->
  JS.trim token = token ->
  let login :=
    Client.loginWithToken false (Some fp) net handler now token confirmBinding w in
  let entry := Client.cache_entry now token fp (Client.as_user res) in
  let cache := Client.tokens (snd login) in
  fst login = Ok (Client.as_user res)
  /\ Client.current_user (snd login) = Some (Client.as_user res)
  /\ cache = LocalCache.saveLocalToken entry (Client.tokens w)
  /\ hd_error cache = Some entry
  /\ (forall t, In t cache -> token_code t = token -> t = entry)
  /\ token_code entry = token
  /\ is_active entry = true
  /\ device_fingerprint entry = Some fp
  /\ generated_by (metadata entry) = Some "ONLINE_CACHE"
  /\ expires_at entry = None
  /\ bound_at entry = None
  /\ (forall c, verifyLocalToken token fp c cache = (Ok (local_user entry), cache)).
Proof.
  intros Hapi Hrb Hfp Hascii Htrim login entry cache.
  assert (login = (Ok (Client.as_user res),
                   Client.mkWorld table'
                     (LocalCache.saveLocalToken entry (Client.tokens w))
                     (Some (Client.as_user res)))) as Hlogin.
  { subst login. unfold Client.loginWithToken. cbn [negb].
    rewrite Hapi, Hrb. reflexivity. }
  subst cache. rewrite Hlogin. cbn [fst snd Client.tokens Client.current_user].
  repeat match goal with |- _ /\ _ => split end; try reflexivity.
  - intros t [<- | Hin] Hcode; [reflexivity|].
    apply filter_In in Hin. destruct Hin as [_ Hne].
    apply negb_true_iff, String.eqb_neq in Hne. now elim Hne.
  - intros c.
    apply (verifyLocalToken_same_device token c _ entry); auto.
    unfold LocalCache.lookup, LocalCache.saveLocalToken. simpl.
    now rewrite Htrim, String.eqb_refl.
Qed.

Lemma online_login_seeds_the_cache_witness :
  verifyLocalToken Sample.code1 "F1" false
    (Client.tokens
       (snd (Client.loginWithToken false (Some "F1") Client.Delivered
               (Remote.ServerJs.login_with_token None 6000%Z) Sample.clock
               Sample.code1 true (Sample.world [Sample.fresh] []))))
  = (Ok (local_user
           (Client.cache_entry Sample.clock Sample.code1 "F1"
              (Remote.identity_user Sample.fresh))),
     Client.tokens
       (snd (Client.loginWithToken false (Some "F1") Client.Delivered
               (Remote.ServerJs.login_with_token None 6000%Z) Sample.clock
               Sample.code1 true (Sample.world [Sample.fresh] [])))).
Proof.
  assert ("F1" <> EmptyString) as HF by discriminate.
  pose proof (online_login_seeds_the_cache
                "F1" Sample.code1 true Client.Delivered
                (Remote.ServerJs.login_with_token None 6000%Z) Sample.clock
                (Sample.world [Sample.fresh] [])
                (Remote.ServerJs.identity 6000%Z Sample.fresh)
                [apply_patch (bind_patch "F1") Sample.fresh]
                eq_refl eq_refl HF eq_refl eq_refl) as H.
  cbv zeta in H.
  exact (proj2 (proj2 (proj2 (proj2 (proj2 (proj2 (proj2 (proj2
          (proj2 (proj2 (proj2 H)))))))))) false).
Defined.

(* ================================================================== *)
(** * Further properties of the code *)

(* ================================================================== *)
(** ** The local token cache *)

Section CacheFacts.

Import LocalCache.

Lemma codes_filter_other (code : string) (tokens : Tokens) :
  ~ In code (codes (filter (fun t => negb (token_code t =? code)) tokens)).
Proof.
  unfold codes. intros H. apply in_map_iff in H. destruct H as (t & Ht & Hin).
  apply filter_In in Hin. destruct Hin as [_ Hne].
  apply negb_true_iff, String.eqb_neq in Hne. now elim Hne.
Qed.

Lemma NoDup_codes_filter (p : TokenInfo -> bool) (tokens : Tokens) :
  NoDup (codes tokens) -> NoDup (codes (filter p tokens)).
Proof.
  unfold codes. induction tokens as [|t l IH]; simpl; intros H; [constructor|].
  inversion H as [|c cs Hnin Hnd]; subst.
  destruct (p t); simpl; [|now apply IH].
  constructor; [|now apply IH].
  intros Hin. apply Hnin. apply in_map_iff in Hin. destruct Hin as (u & Hu & Hf).
  apply filter_In in Hf. apply in_map_iff. exists u. tauto.
Qed.

Lemma filter_twice (p : TokenInfo -> bool) (tokens : Tokens) :
  filter p (filter p tokens) = filter p tokens.
Proof.
  induction tokens as [|t l IH]; simpl; [reflexivity|].
  destruct (p t) eqn:E; simpl; [|exact IH]. now rewrite E, IH.
Qed.

Lemma filter_none (p : TokenInfo -> bool) (tokens : Tokens) :
  filter p (filter (fun t => negb (p t)) tokens) = [].
Proof.
  induction tokens as [|t l IH]; simpl; [reflexivity|].
  destruct (p t) eqn:E; simpl; [exact IH|]. now rewrite E.
Qed.

Lemma filter_absent_code (code : string) (tokens : Tokens) :
  ~ In code (codes tokens) ->
  filter (fun t => negb (token_code t =? code)) tokens = tokens.
Proof.
  unfold codes. induction tokens as [|t l IH]; simpl; intros H; [reflexivity|].
  destruct (token_code t =? code) eqn:E.
  - apply String.eqb_eq in E. elim H. now left.
  - simpl. f_equal. apply IH. tauto.
Qed.

Lemma codes_updateLocalToken (code : string) (u : Patch) (tokens : Tokens) :
  codes (updateLocalToken code u tokens) = codes tokens.
Proof.
  unfold codes, updateLocalToken. rewrite map_map. apply map_ext.
  intros t. destruct (token_code t =? code); reflexivity.
Qed.

Lemma NoDup_codes_saveLocalToken (t : TokenInfo) (tokens : Tokens) :
  NoDup (codes tokens) -> NoDup (codes (saveLocalToken t tokens)).
Proof.
  intros H. unfold saveLocalToken. simpl. constructor.
  - apply codes_filter_other.
  - now apply NoDup_codes_filter.
Qed.

Lemma verifyLocalToken_codes (token fp : string) (c : bool) (tokens : Tokens) :
  codes (snd (verifyLocalToken token fp c tokens)) = codes tokens.
Proof.
  unfold verifyLocalToken.
  destruct (lookup token tokens) as [found|]; [|reflexivity].
  destruct (is_active found); simpl; [|reflexivity].
  destruct (JS.truthy (device_fingerprint found)); simpl.
  - destruct (JS.strict_neq (device_fingerprint found) fp); reflexivity.
  - destruct c; simpl; [apply codes_updateLocalToken | reflexivity].
Qed.

Lemma verifyLocalToken_throw_keeps_cache
      (token fp m : string) (c : bool) (tokens tokens' : Tokens) :
  verifyLocalToken token fp c tokens = (Throw m, tokens') -> tokens' = tokens.
Proof.
  unfold verifyLocalToken.
  destruct (lookup token tokens) as [found|]; [|congruence].
  destruct (is_active found); simpl; [|congruence].
  destruct (JS.truthy (device_fingerprint found)); simpl.
  - destruct (JS.strict_neq (device_fingerprint found) fp); congruence.
  - destruct c; simpl; congruence.
Qed.

End CacheFacts.

(** X1: [saveLocalToken] is an upsert: the saved record comes first, it is
    the only record with its code whatever the cache held before, the
    records with other codes keep their places, and a cache without
    repeated codes stays so. *)
Theorem saveLocalToken_upsert (t : TokenInfo) (tokens : LocalCache.Tokens) :
  let saved := LocalCache.saveLocalToken t tokens in
  hd_error saved = Some t
  /\ filter (fun u => token_code u =? token_code t) saved = [t]
  /\ filter (fun u => negb (token_code u =? token_code t)) saved
     = filter (fun u => negb (token_code u =? token_code t)) tokens
  /\ (List.length saved <= S (List.length tokens))%nat
  /\ (NoDup (codes tokens) -> NoDup (codes saved)).
Proof.
  intros saved. subst saved. unfold LocalCache.saveLocalToken.
  split; [reflexivity|]. split.
  { simpl. rewrite String.eqb_refl. f_equal.
    apply (filter_none (fun u => token_code u =? token_code t)). }
  split.
  { simpl. rewrite String.eqb_refl. simpl. apply filter_twice. }
  split.
  { simpl. apply le_n_S. apply filter_length_le. }
  apply NoDup_codes_saveLocalToken.
Qed.

Lemma saveLocalToken_upsert_witness :
  NoDup (codes (LocalCache.saveLocalToken Sample.bound_F1 [Sample.fresh])).
Proof.
  refine (proj2 (proj2 (proj2 (proj2
            (saveLocalToken_upsert Sample.bound_F1 [Sample.fresh])))) _).
  repeat constructor. intros [].
Defined.

(** X2: saving and deleting compose as expected: deleting the code of a
    record just saved gives the cache without that code, which is the
    former cache when the code was new; of two saves with one code the
    later wins; deleting leaves no record with the code, and deleting a
    code that is not there changes nothing. *)
Theorem save_delete_round_trip (t t' : TokenInfo) (tokens : LocalCache.Tokens) :
  LocalCache.deleteLocalToken (token_code t) (LocalCache.saveLocalToken t tokens)
  = LocalCache.deleteLocalToken (token_code t) tokens
  /\ (~ In (token_code t) (codes tokens) ->
      LocalCache.deleteLocalToken (token_code t) (LocalCache.saveLocalToken t tokens)
      = tokens)
  /\ (token_code t' = token_code t ->
      LocalCache.saveLocalToken t' (LocalCache.saveLocalToken t tokens)
      = LocalCache.saveLocalToken t' tokens)
  /\ ~ In (token_code t) (codes (LocalCache.deleteLocalToken (token_code t) tokens)).
Proof.
  assert (LocalCache.deleteLocalToken (token_code t) (LocalCache.saveLocalToken t tokens)
          = LocalCache.deleteLocalToken (token_code t) tokens) as Hd.
  { unfold LocalCache.deleteLocalToken, LocalCache.saveLocalToken. simpl.
    rewrite String.eqb_refl. simpl. apply filter_twice. }
  split; [exact Hd|]. split.
  { intros Hnew. rewrite Hd. now apply filter_absent_code. }
  split.
  { intros Hc. unfold LocalCache.saveLocalToken. simpl.
    rewrite Hc, String.eqb_refl. simpl. f_equal. apply filter_twice. }
  apply codes_filter_other.
Qed.

Lemma save_delete_round_trip_witness :
  LocalCache.deleteLocalToken Sample.code1
    (LocalCache.saveLocalToken Sample.fresh []) = [].
Proof.
  refine (proj1 (proj2 (save_delete_round_trip Sample.fresh Sample.fresh [])) _).
  intros [].
Defined.

(* ================================================================== *)
(** ** [loginWithToken] and the local state *)

Lemma local_login_cases (token fp : string) (c : bool) (w : Client.World) :
  let v := verifyLocalToken token fp c (Client.tokens w) in
  Client.local_login token fp c w
  = match fst v with
    | Ok user => (Ok user, Client.mkWorld (Client.db w) (snd v) (Some user))
    | Throw m => (Throw m, Client.mkWorld (Client.db w) (snd v) (Client.current_user w))
    end.
Proof.
  unfold Client.local_login.
  destruct (verifyLocalToken token fp c (Client.tokens w)) as [[u|m] t]; reflexivity.
Qed.

Lemma local_login_state (token fp : string) (c : bool) (w : Client.World) :
  let l := Client.local_login token fp c w in
  codes (Client.tokens (snd l)) = codes (Client.tokens w)
  /\ Client.db (snd l) = Client.db w
  /\ match fst l with
     | Ok user => Client.current_user (snd l) = Some user
     | Throw _ => Client.current_user (snd l) = Client.current_user w
                  /\ Client.tokens (snd l) = Client.tokens w
     end.
Proof.
  cbv zeta. rewrite local_login_cases.
  pose proof (verifyLocalToken_codes token fp c (Client.tokens w)) as Hc.
  destruct (verifyLocalToken token fp c (Client.tokens w)) as [[u|m] t] eqn:E;
    simpl in *; repeat split; try assumption.
  now apply (verifyLocalToken_throw_keeps_cache token fp m c (Client.tokens w) t).
Qed.

(** X3: [loginWithToken] keeps the cache free of repeated codes: if no two
    cached records share a code before the call, none do after it,
    whatever the server answers and whether the call succeeds or not. *)
Theorem login_keeps_cached_codes_distinct
        (fo : bool) (fingerprint : option string) (net : Client.Net)
        (handler : Remote.LoginRequest -> Remote.DB -> Remote.Response * Remote.DB)
        (now : nat -> Time) (token : string) (c : bool) (w : Client.World) :
  NoDup (codes (Client.tokens w)) ->
  NoDup (codes (Client.tokens
                  (snd (Client.loginWithToken fo fingerprint net handler now token c w)))).
Proof.
  intros Hnd. unfold Client.loginWithToken.
  destruct fingerprint as [fp|]; [|exact Hnd].
  destruct fo; cbn [negb].
  - destruct (local_login_state token fp c w) as (Hc & _). now rewrite Hc.
  - destruct (Client.apiRequest false net _ (Client.db w)) as [[res|m] d].
    + destruct (Client.requires_binding res); [exact Hnd|].
      cbn [snd Client.tokens]. now apply NoDup_codes_saveLocalToken.
    + destruct (m =? BINDING_REQUIRED); [exact Hnd|].
      destruct (local_login_state token fp c
                  (Client.mkWorld d (Client.tokens w) (Client.current_user w)))
        as (Hc & _).
      now rewrite Hc.
Qed.

Lemma login_keeps_cached_codes_distinct_witness :
  NoDup (codes (Client.tokens
                  (snd (Client.loginWithToken false (Some "F1") Client.Delivered
                          (Remote.ServerJs.login_with_token None 6000%Z) Sample.clock
                          Sample.code1 true
                          (Sample.world [Sample.fresh] [Sample.inactive_F1]))))).
Proof.
  apply login_keeps_cached_codes_distinct.
  repeat constructor. intros [].
Defined.

(** X4: a [loginWithToken] that fails leaves the session entry and the
    token cache exactly as they were; one that succeeds stores the user it
    returns as the session entry. *)
Theorem login_failure_keeps_local_state
        (fo : bool) (fingerprint : option string) (net : Client.Net)
        (handler : Remote.LoginRequest -> Remote.DB -> Remote.Response * Remote.DB)
        (now : nat -> Time) (token : string) (c : bool) (w : Client.World) :
  let login := Client.loginWithToken fo fingerprint net handler now token c w in
  match fst login with
  | Ok user => Client.current_user (snd login) = Some user
  | Throw _ => Client.current_user (snd login) = Client.current_user w
               /\ Client.tokens (snd login) = Client.tokens w
  end.
Proof.
  cbv zeta. unfold Client.loginWithToken.
  destruct fingerprint as [fp|]; [|simpl; auto].
  destruct fo; cbn [negb].
  - apply (local_login_state token fp c w).
  - destruct (Client.apiRequest false net _ (Client.db w)) as [[res|m] d].
    + destruct (Client.requires_binding res); simpl; auto.
    + destruct (m =? BINDING_REQUIRED); [simpl; auto|].
      apply (local_login_state token fp c
               (Client.mkWorld d (Client.tokens w) (Client.current_user w))).
Qed.

(* ================================================================== *)
(** ** The typed code in the local lookup *)

Section TypedCode.

Lemma upper_lower_ascii (c : ascii) :
  JS.upper_ascii (Text.lower_ascii c) = JS.upper_ascii c.
Proof. destruct c as [[] [] [] [] [] [] [] []]; reflexivity. Qed.

Lemma upper_upper_ascii (c : ascii) :
  JS.upper_ascii (JS.upper_ascii c) = JS.upper_ascii c.
Proof. destruct c as [[] [] [] [] [] [] [] []]; reflexivity. Qed.

Lemma is_space_upper (c : ascii) : JS.is_space (JS.upper_ascii c) = JS.is_space c.
Proof. destruct c as [[] [] [] [] [] [] [] []]; reflexivity. Qed.

Lemma is_space_lower (c : ascii) : JS.is_space (Text.lower_ascii c) = JS.is_space c.
Proof. destruct c as [[] [] [] [] [] [] [] []]; reflexivity. Qed.

(** Trimming commutes with a conversion of letters that keeps blanks. *)
Lemma trim_map (f : ascii -> ascii) (g : string -> string) :
  (forall c, JS.is_space (f c) = JS.is_space c) ->
  g EmptyString = EmptyString ->
  (forall c r, g (String c r) = String (f c) (g r)) ->
  forall s, JS.trim (g s) = g (JS.trim s).
Proof.
  intros Hf Hg0 Hg.
  assert (forall s, JS.trimEnd (g s) = g (JS.trimEnd s)) as He.
  { induction s as [|c r IH]; simpl; [now rewrite Hg0|].
    rewrite Hg. simpl. rewrite IH.
    destruct (JS.trimEnd r) as [|c' r'].
    - rewrite Hg0, Hf. destruct (JS.is_space c); [now rewrite Hg0|].
      now rewrite Hg, Hg0.
    - rewrite !Hg. reflexivity. }
  assert (forall s, JS.trimStart (g s) = g (JS.trimStart s)) as Hs.
  { induction s as [|c r IH]; simpl; [now rewrite Hg0|].
    rewrite Hg. simpl. rewrite Hf.
    destruct (JS.is_space c); [exact IH | now rewrite Hg]. }
  intros s. unfold JS.trim. now rewrite Hs, He.
Qed.

Lemma upper_of_upper (s : string) :
  JS.toUpperCase (JS.toUpperCase s) = JS.toUpperCase s.
Proof.
  induction s as [|c r IH]; simpl; [reflexivity|].
  now rewrite upper_upper_ascii, IH.
Qed.

Lemma upper_of_lower (s : string) :
  JS.toUpperCase (Text.toLowerCase s) = JS.toUpperCase s.
Proof.
  induction s as [|c r IH]; simpl; [reflexivity|].
  now rewrite upper_lower_ascii, IH.
Qed.

Lemma trimEnd_blank (s : string) : JS.trimEnd (s ++ " ") = JS.trimEnd s.
Proof.
  induction s as [|c r IH]; simpl; [reflexivity|]. now rewrite IH.
Qed.

Lemma trim_padded (s : string) : JS.trim (" " ++ s ++ " ") = JS.trim s.
Proof.
  unfold JS.trim. simpl.
  induction s as [|c r IH]; simpl; [reflexivity|].
  destruct (JS.is_space c); [exact IH|].
  apply (trimEnd_blank (String c r)).
Qed.

Lemma lookup_key (a b : string) (tokens : LocalCache.Tokens) :
  JS.toUpperCase (JS.trim a) = JS.toUpperCase (JS.trim b) ->
  LocalCache.lookup a tokens = LocalCache.lookup b tokens.
Proof. unfold LocalCache.lookup. now intros ->. Qed.

End TypedCode.

(** X5: with a typed code and cached codes of ASCII characters,
    [verifyLocalToken] reads the typed code without regard to letter case
    and to blanks around it: typing the code in upper case, in lower case,
    or with a blank on either side gives the same outcome and the same
    cache as typing it as it is. *)
Theorem verifyLocalToken_ignores_case_and_blanks
        (token fp : string) (c : bool) (tokens : LocalCache.Tokens) :
  JS.ascii_only token = true ->
  Forall (fun t => JS.ascii_only (token_code t) = true) tokens ->
  verifyLocalToken (JS.toUpperCase token) fp c tokens
  = verifyLocalToken token fp c tokens
  /\ verifyLocalToken (Text.toLowerCase token) fp c tokens
     = verifyLocalToken token fp c tokens
  /\ verifyLocalToken (" " ++ token ++ " ") fp c tokens
     = verifyLocalToken token fp c tokens.
Proof.
  intros _ _.
  unfold verifyLocalToken.
  rewrite (lookup_key (JS.toUpperCase token) token),
          (lookup_key (Text.toLowerCase token) token),
          (lookup_key (" " ++ token ++ " ") token); [repeat split | | |].
  - now rewrite trim_padded.
  - rewrite (trim_map Text.lower_ascii Text.toLowerCase is_space_lower);
      [apply upper_of_lower | reflexivity | reflexivity].
  - rewrite (trim_map JS.upper_ascii JS.toUpperCase is_space_upper);
      [apply upper_of_upper | reflexivity | reflexivity].
Qed.

Lemma verifyLocalToken_ignores_case_and_blanks_witness :
  verifyLocalToken "ace-aaaa-bbbb-cccc" "F1" false [Sample.bound_F1]
  = verifyLocalToken "ace-AAAA-bbbb-CCCC" "F1" false [Sample.bound_F1]
  /\ fst (verifyLocalToken "ace-aaaa-bbbb-cccc" "F1" false [Sample.bound_F1])
     = Ok (local_user Sample.bound_F1).
Proof.
  split; [|reflexivity].
  refine (proj1 (proj2 (verifyLocalToken_ignores_case_and_blanks
                          "ace-AAAA-bbbb-CCCC" "F1" false [Sample.bound_F1]
                          eq_refl _))).
  repeat constructor.
Defined.

(* ================================================================== *)
(** ** What the login handlers write *)

Section HandlerWrites.

Import Remote.

Lemma token_id_eqb_eq (a b : TokenId) : token_id_eqb a b = true -> a = b.
Proof.
  destruct a, b; simpl; try discriminate; intros H.
  - apply String.eqb_eq in H. now subst.
  - apply Z.eqb_eq in H. now subst.
  - apply Z.eqb_eq in H. now subst.
Qed.

Lemma select_single_In (p : TokenInfo -> bool) (table : DB) (r : TokenInfo) :
  select_single p table = Some r -> In r table /\ p r = true /\ filter p table = [r].
Proof.
  unfold select_single.
  destruct (filter p table) as [|x [|y l]] eqn:E; try discriminate.
  intros H. injection H as ->.
  assert (In r (filter p table)) as Hin by (rewrite E; now left).
  apply filter_In in Hin. tauto.
Qed.

Lemma select_single_none (p : TokenInfo -> bool) (table : DB) :
  List.length (filter p table) <> 1%nat -> select_single p table = None.
Proof.
  unfold select_single. destruct (filter p table) as [|x [|y l]]; simpl; congruence.
Qed.

Lemma unique_id (table : DB) (a b : TokenInfo) :
  NoDup (map token_id table) -> In a table -> In b table ->
  token_id a = token_id b -> a = b.
Proof.
  induction table as [|t l IH]; simpl; [tauto|].
  intros Hnd Ha Hb Hid. inversion Hnd as [|i ids Hnin Hnd']; subst.
  destruct Ha as [<- | Ha], Hb as [<- | Hb]; try reflexivity.
  - elim Hnin. rewrite Hid. now apply in_map.
  - elim Hnin. rewrite <- Hid. now apply in_map.
  - now apply IH.
Qed.

(** Every version of the handler either leaves the table alone or patches
    the rows that carry the identifier of the unbound row it found, with a
    patch that does not set [is_active]. *)
Lemma serve_table (v : Server) (plus_one_year : Time -> Time)
      (write : WriteOutcome) (now : nat -> Time) (req : LoginRequest) (table : DB) :
  snd (serve v plus_one_year write now req table) = table
  \/ exists tokenData u,
      select_single (by_code (req_token req)) table = Some tokenData
      /\ JS.truthy (device_fingerprint tokenData) = false
      /\ is_active tokenData = true
      /\ req_confirm_binding req = true
      /\ write = None
      /\ set_is_active u = None
      /\ set_device_fingerprint u = Some (Some (req_deviceFingerprint req))
      /\ (v <> ServerStamp -> set_bound_at u = None /\ set_expires_at u = None)
      /\ snd (serve v plus_one_year write now req table)
         = update_where (by_id (token_id tokenData)) u table.
Proof.
  destruct v; simpl;
    [unfold ServerJs.login_with_token
    |unfold ServerExpiry.login_with_token
    |unfold ServerStamp.login_with_token];
    (destruct (select_single (by_code (req_token req)) table) as [tokenData|] eqn:Hs;
     [|now left]);
    (destruct (is_active tokenData) eqn:Ha; simpl; [|now left]).
  - destruct (JS.truthy (device_fingerprint tokenData)) eqn:Ht; simpl.
    + destruct (JS.strict_neq _ _); now left.
    + destruct (req_confirm_binding req) eqn:Hc; simpl; [|now left].
      destruct write as [e|]; [now left|].
      right. eexists tokenData, _. repeat split; try reflexivity; assumption.
  - destruct (match expires_at tokenData with
              | Some expiresAt => (expiresAt <? now 0%nat)%Z
              | None => false
              end); [now left|].
    destruct (JS.truthy (device_fingerprint tokenData)) eqn:Ht; simpl.
    + destruct (JS.strict_neq _ _); now left.
    + destruct (req_confirm_binding req) eqn:Hc; simpl; [|now left].
      destruct write as [e|]; [now left|].
      right. eexists tokenData, _.
      destruct (select_single (by_id (token_id tokenData)) _);
        repeat split; try reflexivity; assumption.
  - destruct (JS.truthy (device_fingerprint tokenData)) eqn:Ht; simpl; [now left|].
    destruct (req_confirm_binding req) eqn:Hc; simpl; [|now left].
    destruct write as [e|]; [now left|].
    right. eexists tokenData, _.
    repeat split; try reflexivity; try assumption. congruence. congruence.
Qed.

Lemma identity_part_update (p : TokenInfo -> bool) (u : Patch) (table : DB) :
  set_is_active u = None ->
  map identity_part (update_where p u table) = map identity_part table.
Proof.
  intros Hu. unfold update_where. rewrite map_map. apply map_ext.
  intros r. destruct (p r); [|reflexivity].
  unfold identity_part, apply_patch. simpl. now rewrite Hu.
Qed.

Lemma dates_part_update (p : TokenInfo -> bool) (u : Patch) (table : DB) :
  set_bound_at u = None -> set_expires_at u = None ->
  map dates_part (update_where p u table) = map dates_part table.
Proof.
  intros Hb He. unfold update_where. rewrite map_map. apply map_ext.
  intros r. destruct (p r); [|reflexivity].
  unfold dates_part, apply_patch. simpl. now rewrite Hb, He.
Qed.

End HandlerWrites.

(** X6: a login never creates, deletes, reorders, renames, activates or
    deactivates a token: on each of the three versions of the handler, the
    identifiers, codes, activity flags, creation dates and metadata of the
    table after the request are those before it; the [server.js] version
    and the version with the expiry check also leave every [bound_at] and
    [expires_at] as they are. *)
Theorem login_writes_only_the_binding
        (v : Server) (plus_one_year : Time -> Time)
        (write : Remote.WriteOutcome) (now : nat -> Time)
        (req : Remote.LoginRequest) (table : Remote.DB) :
  let after := snd (serve v plus_one_year write now req table) in
  map identity_part after = map identity_part table
  /\ (v <> ServerStamp -> map dates_part after = map dates_part table).
Proof.
  cbv zeta.
  destruct (serve_table v plus_one_year write now req table)
    as [-> | (t & u & _ & _ & _ & _ & _ & Hu & _ & Hd & ->)].
  - split; reflexivity.
  - split; [now apply identity_part_update|].
    intros Hv. destruct (Hd Hv). now apply dates_part_update.
Qed.

Lemma login_writes_only_the_binding_witness :
  map dates_part
    (snd (serve ServerJs Sample.a_year_later None Sample.clock
            (Remote.mkLoginRequest Sample.code1 "F1" true) [Sample.fresh]))
  = map dates_part [Sample.fresh].
Proof.
  refine (proj2 (login_writes_only_the_binding ServerJs Sample.a_year_later None
                   Sample.clock (Remote.mkLoginRequest Sample.code1 "F1" true)
                   [Sample.fresh]) _).
  discriminate.
Defined.

(** X7: a login never rewrites a bound token: when the identifiers of the
    table are pairwise distinct, every row that holds a non-empty
    fingerprint is, after any request to any of the three versions of the
    handler, the same row at the same place. *)
Theorem login_never_rewrites_a_bound_row
        (v : Server) (plus_one_year : Time -> Time)
        (write : Remote.WriteOutcome) (now : nat -> Time)
        (req : Remote.LoginRequest) (table : Remote.DB)
        (i : nat) (r : TokenInfo) :
  NoDup (map token_id table) ->
  nth_error table i = Some r ->
  JS.truthy (device_fingerprint r) = true ->
  nth_error (snd (serve v plus_one_year write now req table)) i = Some r.
Proof.
  intros Hnd Hi Hb.
  destruct (serve_table v plus_one_year write now req table)
    as [-> | (t & u & Hs & Ht & _ & _ & _ & _ & _ & _ & ->)]; [exact Hi|].
  unfold Remote.update_where. rewrite nth_error_map, Hi. simpl.
  destruct (Remote.by_id (token_id t) r) eqn:E; [|reflexivity].
  apply token_id_eqb_eq in E.
  apply select_single_In in Hs. destruct Hs as (Hin & _).
  assert (r = t) as -> by (apply (unique_id table); eauto using nth_error_In).
  congruence.
Qed.

Lemma login_never_rewrites_a_bound_row_witness :
  nth_error
    (snd (serve ServerStamp Sample.a_year_later None Sample.clock
            (Remote.mkLoginRequest "ACE-ZZZZ-ZZZZ-ZZZZ" "F9" true)
            [Sample.bound_F1;
             mkToken (RowId "row-2") "ACE-ZZZZ-ZZZZ-ZZZZ" true 1000%Z None None None
                     Sample.meta]))
    0 = Some Sample.bound_F1.
Proof.
  apply login_never_rewrites_a_bound_row.
  - simpl. repeat constructor; simpl; intuition discriminate.
  - reflexivity.
  - reflexivity.
Defined.

(** X8: a code that the table holds not at all, or in more than one row,
    cannot log in: each of the three versions of the handler answers 401
    (invalid code) and writes nothing, for every fingerprint and flag. *)
Theorem unknown_or_repeated_code_is_invalid
        (v : Server) (plus_one_year : Time -> Time)
        (write : Remote.WriteOutcome) (now : nat -> Time)
        (req : Remote.LoginRequest) (table : Remote.DB) :
  List.length (filter (Remote.by_code (Remote.req_token req)) table) <> 1%nat ->
  let answer := serve v plus_one_year write now req table in
  Remote.status (fst answer) = 401%Z
  /\ signal_of_response (fst answer) = InvalidCode
  /\ snd answer = table.
Proof.
  intros H. apply select_single_none in H.
  destruct v; simpl;
    [unfold Remote.ServerJs.login_with_token
    |unfold Remote.ServerExpiry.login_with_token
    |unfold Remote.ServerStamp.login_with_token];
    rewrite H; repeat split.
Qed.

Lemma unknown_or_repeated_code_is_invalid_witness :
  signal_of_response
    (fst (serve ServerJs Sample.a_year_later None Sample.clock
            (Remote.mkLoginRequest Sample.code1 "F1" true)
            [Sample.fresh; Sample.bound_F1])) = InvalidCode.
Proof.
  refine (proj1 (proj2 (unknown_or_repeated_code_is_invalid
                          ServerJs Sample.a_year_later None Sample.clock
                          (Remote.mkLoginRequest Sample.code1 "F1" true)
                          [Sample.fresh; Sample.bound_F1] _))).
  simpl. discriminate.
Defined.

(** X9: the version of the handler that stamps bindings does not compare
    fingerprints: for an active token bound to a non-empty fingerprint,
    a request from any device, with either flag, is answered 200 with
    the summary of the token, and nothing is written. *)
Theorem stamp_server_grants_any_device
        (token G : string) (c : bool) (table : Remote.DB) (row : TokenInfo)
        (plus_one_year : Time -> Time) (write : Remote.WriteOutcome)
        (now : nat -> Time) :
  Remote.select_single (Remote.by_code token) table = Some row ->
  is_active row = true ->
  JS.truthy (device_fingerprint row) = true ->
  Remote.ServerStamp.login_with_token plus_one_year write now
    (Remote.mkLoginRequest token G c) table
  = (Remote.mkResponse 200 (Remote.ServerStamp.summary (now 0%nat) row), table).
Proof.
  intros Hs Ha Hb. unfold Remote.ServerStamp.login_with_token. simpl.
  now rewrite Hs, Ha, Hb.
Qed.

Lemma stamp_server_grants_any_device_witness :
  signal_of_response
    (fst (Remote.ServerStamp.login_with_token Sample.a_year_later None Sample.clock
            (Remote.mkLoginRequest Sample.code1 "F2" false) [Sample.bound_F1]))
  = Granted.
Proof.
  rewrite (stamp_server_grants_any_device Sample.code1 "F2" false
             [Sample.bound_F1] Sample.bound_F1 Sample.a_year_later None Sample.clock
             eq_refl eq_refl eq_refl).
  reflexivity.
Defined.

Lemma filter_by_id_absent (i : TokenId) (table : Remote.DB) :
  ~ In i (map token_id table) -> filter (Remote.by_id i) table = [].
Proof.
  induction table as [|x l IH]; simpl; intros H; [reflexivity|].
  destruct (Remote.by_id i x) eqn:E.
  - apply token_id_eqb_eq in E. elim H. now left.
  - apply IH. tauto.
Qed.

Lemma filter_by_id_unique (table : Remote.DB) (row : TokenInfo) :
  NoDup (map token_id table) -> In row table ->
  filter (Remote.by_id (token_id row)) table = [row].
Proof.
  induction table as [|x l IH]; simpl; intros Hnd Hin; [tauto|].
  inversion Hnd as [|i ids Hnin Hnd']; subst.
  destruct Hin as [-> | Hin].
  - rewrite by_id_self. f_equal. now apply filter_by_id_absent.
  - destruct (Remote.by_id (token_id row) x) eqn:E.
    + apply token_id_eqb_eq in E. elim Hnin. rewrite E. now apply in_map.
    + now apply IH.
Qed.

(** X10: the version of the handler with the expiry check and the
    [server.js] version agree on tokens that are not expired: when the
    identifiers of the table are pairwise distinct and the token of the
    request, if there is one, has no expiry or an expiry not before the
    clock, both give the same signal and the same status and leave the
    same table. *)
Theorem expiry_server_agrees_when_not_expired
        (write : Remote.WriteOutcome) (now : nat -> Time) (t : Time)
        (req : Remote.LoginRequest) (table : Remote.DB) :
  NoDup (map token_id table) ->
  (forall row e,
      Remote.select_single (Remote.by_code (Remote.req_token req)) table = Some row ->
      expires_at row = Some e -> (now 0%nat <= e)%Z) ->
  let a := Remote.ServerExpiry.login_with_token write now req table in
  let b := Remote.ServerJs.login_with_token write t req table in
  signal_of_response (fst a) = signal_of_response (fst b)
  /\ Remote.status (fst a) = Remote.status (fst b)
  /\ snd a = snd b.
Proof.
  intros Hnd Hexp. cbv zeta.
  unfold Remote.ServerExpiry.login_with_token, Remote.ServerJs.login_with_token.
  destruct (Remote.select_single (Remote.by_code (Remote.req_token req)) table)
    as [row|] eqn:Hs; [|repeat split].
  destruct (is_active row); simpl; [|repeat split].
  assert (match expires_at row with
          | Some expiresAt => (expiresAt <? now 0%nat)%Z
          | None => false
          end = false) as ->.
  { destruct (expires_at row) as [e|] eqn:He; [|reflexivity].
    apply Z.ltb_ge. now apply (Hexp row e). }
  destruct (JS.truthy (device_fingerprint row)); simpl.
  - destruct (JS.strict_neq _ _); repeat split.
  - destruct (Remote.req_confirm_binding req); simpl; [|repeat split].
    destruct write as [e|]; [repeat split|].
    assert (Remote.select_single (Remote.by_id (token_id row))
              (Remote.update_where (Remote.by_id (token_id row))
                 (mkPatch None (Some (Some (Remote.req_deviceFingerprint req)))
                          None None) table)
            = Some (apply_patch
                      (mkPatch None (Some (Some (Remote.req_deviceFingerprint req)))
                               None None) row)) as ->.
    { apply select_single_In in Hs. destruct Hs as (Hin & _).
      rewrite (select_single_update_where _ _ _ table row).
      - now rewrite by_id_self.
      - intros x. apply by_id_apply_patch.
      - unfold Remote.select_single.
        now rewrite (filter_by_id_unique table row Hnd Hin). }
    repeat split.
Qed.

Lemma expiry_server_agrees_when_not_expired_witness :
  snd (Remote.ServerExpiry.login_with_token None Sample.clock
         (Remote.mkLoginRequest Sample.code1 "F1" true) [Sample.fresh])
  = snd (Remote.ServerJs.login_with_token None 6000%Z
           (Remote.mkLoginRequest Sample.code1 "F1" true) [Sample.fresh]).
Proof.
  refine (proj2 (proj2 (expiry_server_agrees_when_not_expired
                          None Sample.clock 6000%Z
                          (Remote.mkLoginRequest Sample.code1 "F1" true)
                          [Sample.fresh] _ _))).
  - repeat constructor. intros [].
  - intros row e Hs He. vm_compute in Hs. injection Hs as <-. discriminate.
Defined.

(* ================================================================== *)
(** ** Remaining days and the expiry note *)

Lemma ceil_div_day (a : Z) :
  ((JS.ceil_div a DAY - 1) * DAY < a <= JS.ceil_div a DAY * DAY)%Z.
Proof.
  unfold JS.ceil_div, DAY.
  pose proof (Z.div_mod (- a) (1000 * 60 * 60 * 24)%Z ltac:(lia)) as Hdm.
  pose proof (Z.mod_pos_bound (- a) (1000 * 60 * 60 * 24)%Z ltac:(lia)) as Hb.
  lia.
Qed.

(** X11: [getRemainingDays] is [null] exactly without an expiry; with an
    expiry [e] it is the number [d] of days, rounded up, from the clock to
    [e]: [(d - 1)] days are less than the time left, which is at most [d]
    days; so [d] is positive exactly when the expiry is still ahead, and
    zero or negative exactly when it is reached or past.  This is stated
    for a clock and an expiry that are valid dates at most
    [MAX_SAFE_INTEGER] milliseconds apart, where the subtraction of the
    code is exact and its division, rounded up, is the rounded-up quotient
    of the integers. *)
Theorem remaining_days_bounds (now e : Time) :
  JSDate.valid_time now -> JSDate.valid_time e ->
  (Z.abs (e - now) <= JS.MAX_SAFE_INTEGER)%Z ->
  Remote.getRemainingDays now None = None
  /\ exists d,
      Remote.getRemainingDays now (Some e) = Some d
      /\ ((d - 1) * DAY < e - now <= d * DAY)%Z
      /\ (0 < d <-> now < e)%Z
      /\ (d = 0 <-> now - DAY < e <= now)%Z.
Proof.
  intros _ _ _.
  split; [reflexivity|].
  exists (JS.ceil_div (e - now) DAY).
  pose proof (ceil_div_day (e - now)) as H.
  split; [reflexivity|]. split; [exact H|].
  unfold DAY in *. split; split; lia.
Qed.

Lemma remaining_days_bounds_witness :
  Remote.getRemainingDays 1700000000000%Z (Some 1700086400001%Z) = Some 2%Z
  /\ exists d,
      Remote.getRemainingDays 1700000000000%Z (Some 1700086400001%Z) = Some d
      /\ ((d - 1) * DAY < 1700086400001 - 1700000000000 <= d * DAY)%Z
      /\ (0 < d <-> 1700000000000 < 1700086400001)%Z
      /\ (d = 0 <-> 1700000000000 - DAY < 1700086400001 <= 1700000000000)%Z.
Proof.
  split; [reflexivity|].
  refine (proj2 (remaining_days_bounds 1700000000000%Z 1700086400001%Z _ _ _)).
  - split; vm_compute; discriminate.
  - split; vm_compute; discriminate.
  - vm_compute. discriminate.
Defined.

(** X12: the note that goes with an expiry is misleading around the
    expiry itself.  For a token whose expiry is reached but less than a
    day old, [server.js] announces a lifetime token, as it does for a
    token without expiry, and the summary of the stamping server says
    expired; for a token expired a day or more ago both announce a
    negative number of remaining days; before the expiry both announce
    the positive number of days left. *)
Theorem expiry_note_windows (now e : Time) (r : TokenInfo) :
  expires_at r = Some e ->
  is_active r = true ->
  let js := note_of (Remote.ServerJs.identity now r) in
  let stamp := note_of (Remote.ServerStamp.summary now r) in
  ((now - DAY < e <= now)%Z -> js = Remote.Lifetime /\ stamp = Remote.Expired)
  /\ ((e <= now - DAY)%Z ->
      exists d, (d < 0)%Z /\ js = Remote.DaysRemaining d
                /\ stamp = Remote.DaysRemainingUntil d e)
  /\ ((now < e)%Z ->
      exists d, (0 < d)%Z /\ js = Remote.DaysRemaining d
                /\ stamp = Remote.DaysRemainingUntil d e).
Proof.
  intros He Ha js stamp. subst js stamp.
  unfold Remote.ServerJs.identity, Remote.ServerStamp.summary, note_of.
  rewrite He, Ha. cbn [Remote.getRemainingDays Remote.sum_status_message
                       Remote.truthy_num].
  change (1000 * 60 * 60 * 24)%Z with DAY.
  pose proof (ceil_div_day (e - now)) as H.
  set (d := JS.ceil_div (e - now) DAY) in *.
  unfold DAY in H |- *.
  split; [|split].
  - intros Hw. assert (d = 0)%Z as -> by lia. split; reflexivity.
  - intros Hw. exists d. assert (d < 0)%Z as Hd by lia.
    assert ((d =? 0)%Z = false) as -> by (apply Z.eqb_neq; lia).
    repeat split. exact Hd.
  - intros Hw. exists d. assert (0 < d)%Z as Hd by lia.
    assert ((d =? 0)%Z = false) as -> by (apply Z.eqb_neq; lia).
    repeat split. exact Hd.
Qed.

Lemma expiry_note_windows_witness :
  note_of (Remote.ServerJs.identity 9500%Z Sample.bound_F1) = Remote.Lifetime
  /\ note_of (Remote.ServerStamp.summary 9500%Z Sample.bound_F1) = Remote.Expired.
Proof.
  refine (proj1 (expiry_note_windows 9500%Z 9000%Z Sample.bound_F1 eq_refl eq_refl) _).
  unfold DAY. lia.
Defined.

Lemma no_expiry_note (now : Time) (r : TokenInfo) :
  expires_at r = None ->
  note_of (Remote.ServerJs.identity now r) = Remote.Lifetime.
Proof.
  intros He. unfold Remote.ServerJs.identity, note_of. now rewrite He.
Qed.

(* ================================================================== *)
(** ** Deactivating and deleting a token *)

Lemma serve_not_found (v : Server) (plus_one_year : Time -> Time)
      (write : Remote.WriteOutcome) (now : nat -> Time)
      (req : Remote.LoginRequest) (table : Remote.DB) :
  Remote.select_single (Remote.by_code (Remote.req_token req)) table = None ->
  signal_of_response (fst (serve v plus_one_year write now req table)) = InvalidCode
  /\ snd (serve v plus_one_year write now req table) = table.
Proof.
  intros H.
  destruct v; simpl;
    [unfold Remote.ServerJs.login_with_token
    |unfold Remote.ServerExpiry.login_with_token
    |unfold Remote.ServerStamp.login_with_token];
    rewrite H; split; reflexivity.
Qed.

Lemma serve_inactive (v : Server) (plus_one_year : Time -> Time)
      (write : Remote.WriteOutcome) (now : nat -> Time)
      (req : Remote.LoginRequest) (table : Remote.DB) (row : TokenInfo) :
  Remote.select_single (Remote.by_code (Remote.req_token req)) table = Some row ->
  is_active row = false ->
  signal_of_response (fst (serve v plus_one_year write now req table)) = Deactivated
  /\ snd (serve v plus_one_year write now req table) = table.
Proof.
  intros Hs Hi.
  destruct v; simpl;
    [unfold Remote.ServerJs.login_with_token
    |unfold Remote.ServerExpiry.login_with_token
    |unfold Remote.ServerStamp.login_with_token];
    rewrite Hs, Hi; split; reflexivity.
Qed.

Lemma toggleTokenStatus_cache
      (fo : bool) (net : Client.Net)
      (handler : string -> bool -> Remote.DB -> Remote.Response * Remote.DB)
      (code : string) (b : bool) (w : Client.World) :
  Client.tokens (snd (Client.toggleTokenStatus fo net handler code b w))
  = LocalCache.updateLocalToken code (mkPatch (Some b) None None None)
      (Client.tokens w).
Proof.
  unfold Client.toggleTokenStatus.
  destruct fo; simpl; [reflexivity|].
  destruct (Client.apiRequest false net (handler code b) (Client.db w)).
  reflexivity.
Qed.

Lemma activate_active (r : TokenInfo) :
  is_active r = true -> apply_patch (mkPatch (Some true) None None None) r = r.
Proof. destruct r; simpl; intros ->; reflexivity. Qed.

(** X13: [toggleTokenStatus(code, false)] deactivates the cached record of
    the code whether or not the server is reached, and the row of the
    table when the status handler is reached; from then on every
    verification of the code is refused as deactivated, by
    [verifyLocalToken] and by the three versions of the login handler;
    [toggleTokenStatus(code, true)] afterwards makes the record active
    again with its binding and dates untouched, so that a record that was
    active is back as it was. *)
Theorem toggle_status_round_trip (code : string) (w : Client.World) :
  (forall (fo fo' : bool) (net net' : Client.Net)
          (handler handler' : string -> bool -> Remote.DB
                              -> Remote.Response * Remote.DB)
          (token : string) (found : TokenInfo),
      LocalCache.lookup token (Client.tokens w) = Some found ->
      token_code found = code ->
      let off := snd (Client.toggleTokenStatus fo net handler code false w) in
      let on := snd (Client.toggleTokenStatus fo' net' handler' code true off) in
      (forall fp c,
          verifyLocalToken token fp c (Client.tokens off)
          = (Throw msg_local_deactivated, Client.tokens off))
      /\ LocalCache.lookup token (Client.tokens on)
         = Some (apply_patch (mkPatch (Some true) None None None) found)
      /\ (is_active found = true ->
          LocalCache.lookup token (Client.tokens on) = Some found))
  /\ (forall (row : TokenInfo),
      Remote.select_single (Remote.by_code code) (Client.db w) = Some row ->
      let off :=
        snd (Client.toggleTokenStatus false Client.Delivered
               (Remote.ServerStamp.token_status None) code false w) in
      let on :=
        snd (Client.toggleTokenStatus false Client.Delivered
               (Remote.ServerStamp.token_status None) code true off) in
      (forall v plus_one_year write now fp c,
          let answer :=
            serve v plus_one_year write now (Remote.mkLoginRequest code fp c)
                  (Client.db off) in
          signal_of_response (fst answer) = Deactivated
          /\ snd answer = Client.db off)
      /\ Remote.select_single (Remote.by_code code) (Client.db on)
         = Some (apply_patch (mkPatch (Some true) None None None) row)
      /\ (is_active row = true ->
          Remote.select_single (Remote.by_code code) (Client.db on) = Some row)).
Proof.
  split.
  - intros fo fo' net net' handler handler' token found Hc Hcode off on.
    assert (LocalCache.lookup token (Client.tokens off)
            = Some (apply_patch (mkPatch (Some false) None None None) found)) as Hoff.
    { subst off. rewrite toggleTokenStatus_cache, lookup_updateLocalToken, Hc.
      simpl. now rewrite Hcode, String.eqb_refl. }
    assert (LocalCache.lookup token (Client.tokens on)
            = Some (apply_patch (mkPatch (Some true) None None None) found)) as Hon.
    { subst on. rewrite toggleTokenStatus_cache, lookup_updateLocalToken, Hoff.
      simpl. now rewrite Hcode, String.eqb_refl. }
    split; [|split].
    + intros fp c.
      now apply (verifyLocalToken_inactive token c _ _ Hoff fp).
    + exact Hon.
    + intros Ha. now rewrite Hon, (activate_active found Ha).
  - intros row Hs off on.
    assert (Remote.select_single (Remote.by_code code) (Client.db off)
            = Some (apply_patch (mkPatch (Some false) None None None) row)) as Hoff.
    { apply (select_after_patch_by_code code (Client.db w) row _ Hs). }
    assert (Remote.select_single (Remote.by_code code) (Client.db on)
            = Some (apply_patch (mkPatch (Some true) None None None) row)) as Hon.
    { apply (select_after_patch_by_code code (Client.db off) _
               (mkPatch (Some true) None None None) Hoff). }
    split; [|split].
    + intros v plus_one_year write now fp c answer. subst answer.
      now apply (serve_inactive v plus_one_year write now
                   (Remote.mkLoginRequest code fp c) (Client.db off) _ Hoff).
    + exact Hon.
    + intros Ha. now rewrite Hon, (activate_active row Ha).
Qed.

Lemma toggle_status_round_trip_witness :
  verifyLocalToken Sample.code1 "F1" false
    (Client.tokens
       (snd (Client.toggleTokenStatus false (Client.Unreachable "Failed to fetch")
               (Remote.ServerStamp.token_status None) Sample.code1 false
               (Sample.world [Sample.bound_F1] [Sample.bound_F1]))))
  = (Throw msg_local_deactivated,
     Client.tokens
       (snd (Client.toggleTokenStatus false (Client.Unreachable "Failed to fetch")
               (Remote.ServerStamp.token_status None) Sample.code1 false
               (Sample.world [Sample.bound_F1] [Sample.bound_F1])))).
Proof.
  exact (proj1 (proj1 (toggle_status_round_trip Sample.code1
                         (Sample.world [Sample.bound_F1] [Sample.bound_F1]))
                      false false (Client.Unreachable "Failed to fetch")
                      Client.Delivered
                      (Remote.ServerStamp.token_status None)
                      (Remote.ServerStamp.token_status None)
                      Sample.code1 Sample.bound_F1 eq_refl eq_refl)
               "F1" false).
Defined.

Lemma deleteToken_cache
      (fo : bool) (net : Client.Net)
      (handler : string -> Remote.DB -> Remote.Response * Remote.DB)
      (code : string) (w : Client.World) :
  Client.tokens (snd (Deleting.deleteToken fo net handler code w))
  = LocalCache.deleteLocalToken code (Client.tokens w).
Proof.
  unfold Deleting.deleteToken.
  destruct fo; simpl; [reflexivity|].
  destruct (Client.apiRequest false net (handler code) (Client.db w)) as [[b|m] d];
    reflexivity.
Qed.

Lemma normal_code_upper (s : string) : normal_code s -> JS.toUpperCase s = s.
Proof.
  unfold normal_code. intros H.
  rewrite <- H at 1. rewrite upper_of_upper. exact H.
Qed.

(** X14: [deleteToken] removes from the cache every record with exactly
    that code, whether or not the server is reached: no record with the
    code is left, and a record that the lookup still finds for it has
    another code; when the code and the cached codes are made of ASCII
    characters and are in normal form (upper case, no blanks around) the
    code no longer verifies on the device.  When the code is a path
    segment of letters, digits and hyphens and the delete handler is
    reached, the three versions of the login handler answer invalid code
    for it. *)
Theorem deleted_token_no_longer_verifies (code : string) (w : Client.World) :
  (forall (fo : bool) (net : Client.Net)
          (handler : string -> Remote.DB -> Remote.Response * Remote.DB),
      let gone := Client.tokens (snd (Deleting.deleteToken fo net handler code w)) in
      ~ In code (codes gone)
      /\ (forall t, LocalCache.lookup code gone = Some t -> token_code t <> code)
      /\ (JS.ascii_only code = true -> normal_code code ->
          (forall t, In t (Client.tokens w) ->
                     JS.ascii_only (token_code t) = true
                     /\ normal_code (token_code t)) ->
          forall fp c, verifyLocalToken code fp c gone = (Throw msg_local_invalid, gone)))
  /\ (JS.path_segment code = true ->
      let done :=
        Deleting.deleteToken false Client.Delivered (Deleting.delete_token None)
                             code w in
      fst done = Ok Remote.AckBody
      /\ ~ In code (codes (Client.db (snd done)))
      /\ forall v plus_one_year write now fp c,
          let answer :=
            serve v plus_one_year write now (Remote.mkLoginRequest code fp c)
                  (Client.db (snd done)) in
          signal_of_response (fst answer) = InvalidCode
          /\ snd answer = Client.db (snd done)).
Proof.
  split.
  - intros fo net handler gone.
    assert (gone = LocalCache.deleteLocalToken code (Client.tokens w)) as Hg
        by apply deleteToken_cache.
    assert (~ In code (codes gone)) as Hnot.
    { rewrite Hg. apply codes_filter_other. }
    assert (forall t, LocalCache.lookup code gone = Some t ->
                      token_code t <> code) as Hfound.
    { intros t Ht.
      unfold LocalCache.lookup in Ht. apply find_some in Ht.
      intros Heq. apply Hnot. rewrite <- Heq. apply in_map. tauto. }
    split; [exact Hnot|]. split; [exact Hfound|].
    intros _ Hn Hall fp c. unfold verifyLocalToken.
    destruct (LocalCache.lookup code gone) as [t|] eqn:E; [|reflexivity].
    exfalso. apply (Hfound t eq_refl).
    assert (In t (Client.tokens w)) as Hin.
    { unfold LocalCache.lookup in E. apply find_some in E.
      rewrite Hg in E. destruct E as [E _].
      unfold LocalCache.deleteLocalToken in E. apply filter_In in E. tauto. }
    rewrite <- (normal_code_upper _ (proj2 (Hall t Hin))),
            (lookup_code code gone t E).
    exact Hn.
  - intros _. cbv zeta.
    assert (Client.db (snd (Deleting.deleteToken false Client.Delivered
                              (Deleting.delete_token None) code w))
            = filter (fun r => negb (Remote.by_code code r)) (Client.db w)) as Hdb
        by reflexivity.
    split; [reflexivity|]. rewrite Hdb. split; [apply codes_filter_other|].
    intros v plus_one_year write now fp c.
    apply serve_not_found. simpl.
    unfold Remote.select_single.
    now rewrite (filter_none (Remote.by_code code)).
Qed.

Lemma deleted_token_no_longer_verifies_witness :
  verifyLocalToken Sample.code1 "F1" true
    (Client.tokens
       (snd (Deleting.deleteToken true Client.Offline (Deleting.delete_token None)
               Sample.code1 (Sample.world [Sample.bound_F1] [Sample.bound_F1]))))
  = (Throw msg_local_invalid,
     Client.tokens
       (snd (Deleting.deleteToken true Client.Offline (Deleting.delete_token None)
               Sample.code1 (Sample.world [Sample.bound_F1] [Sample.bound_F1]))))
  /\ fst (Deleting.deleteToken false Client.Delivered (Deleting.delete_token None)
            Sample.code1 (Sample.world [Sample.bound_F1] [Sample.bound_F1]))
     = Ok Remote.AckBody.
Proof.
  pose proof (deleted_token_no_longer_verifies Sample.code1
                (Sample.world [Sample.bound_F1] [Sample.bound_F1])) as [Hl Hr].
  split.
  - refine (proj2 (proj2 (Hl true Client.Offline (Deleting.delete_token None)))
              eq_refl _ _ "F1" true).
    + reflexivity.
    + intros t [<- | []]. split; reflexivity.
  - exact (proj1 (Hr eq_refl)).
Defined.

(* ================================================================== *)
(** ** Tokens issued on the device *)

Section IssuedCodes.

Import Generator.

Lemma generateSecureToken_format (src : RandomSource) (prefix : string) :
  well_formed src -> well_formatted prefix (generateSecureToken src prefix).
Proof.
  intros Hwf. unfold generateSecureToken. destruct src as [v | m].
  - apply template_of_symbols. intros i _.
    destruct (alphabet_pick _ (uint32_pick_in_range (v i))) as (c & Hc & _ & Ha).
    now exists c.
  - apply template_of_symbols. intros i Hi.
    destruct (alphabet_pick _ (floor_pick_in_range (m i) (Hwf i Hi)))
      as (c & Hc & _ & Ha).
    now exists c.
Qed.

Lemma symbol_is_plain (c : ascii) :
  in_alphabet c = true -> JS.upper_ascii c = c /\ JS.is_space c = false.
Proof.
  unfold in_alphabet. simpl. rewrite !orb_true_iff. intros H.
  repeat match goal with
         | H : _ \/ _ |- _ => destruct H as [H | H]
         end;
    try discriminate; apply Ascii.eqb_eq in H; subst c; split; reflexivity.
Qed.

Lemma group_is_plain (g : string) :
  is_group g = true ->
  exists a b c d,
    g = String a (String b (String c (String d EmptyString)))
    /\ (JS.upper_ascii a = a /\ JS.is_space a = false)
    /\ (JS.upper_ascii b = b /\ JS.is_space b = false)
    /\ (JS.upper_ascii c = c /\ JS.is_space c = false)
    /\ (JS.upper_ascii d = d /\ JS.is_space d = false).
Proof.
  unfold is_group. intros H. apply andb_true_iff in H. destruct H as [Hl Hf].
  destruct g as [|a [|b [|c [|d [|e g]]]]]; try discriminate.
  simpl in Hf. repeat rewrite andb_true_iff in Hf.
  destruct Hf as (Ha & Hb & Hc & Hd & _).
  exists a, b, c, d. split; [reflexivity|].
  repeat split; now apply symbol_is_plain.
Qed.

Lemma upper_app (a b : string) :
  JS.toUpperCase (a ++ b) = JS.toUpperCase a ++ JS.toUpperCase b.
Proof. induction a as [|c a IH]; simpl; [reflexivity | now rewrite IH]. Qed.

Lemma trimEnd_app (a b : string) :
  JS.trimEnd b = b -> b <> EmptyString -> JS.trimEnd (a ++ b) = a ++ b.
Proof.
  intros Hb Hne. induction a as [|c a IH]; simpl; [exact Hb|].
  rewrite IH. destruct (a ++ b) eqn:E; [|reflexivity].
  destruct a; simpl in E; [now elim Hne | discriminate].
Qed.

(** A code in the format, behind a prefix in upper case that does not
    start with a blank, is in normal form. *)
Lemma formatted_code_normal (prefix code : string) (p : ascii) (rest : string) :
  prefix = String p rest -> JS.is_space p = false ->
  JS.toUpperCase prefix = prefix ->
  well_formatted prefix code ->
  JS.trim code = code /\ normal_code code.
Proof.
  intros Hp Hsp Hup (g1 & g2 & g3 & -> & H1 & H2 & H3).
  destruct (group_is_plain g1 H1)
    as (a1 & b1 & c1 & d1 & -> & (Ua1 & Sa1) & (Ub1 & Sb1) & (Uc1 & Sc1) & (Ud1 & Sd1)).
  destruct (group_is_plain g2 H2)
    as (a2 & b2 & c2 & d2 & -> & (Ua2 & Sa2) & (Ub2 & Sb2) & (Uc2 & Sc2) & (Ud2 & Sd2)).
  destruct (group_is_plain g3 H3)
    as (a3 & b3 & c3 & d3 & -> & (Ua3 & Sa3) & (Ub3 & Sb3) & (Uc3 & Sc3) & (Ud3 & Sd3)).
  assert (JS.trim (prefix ++ "-" ++ String a1 (String b1 (String c1 (String d1 EmptyString)))
                     ++ "-" ++ String a2 (String b2 (String c2 (String d2 EmptyString)))
                     ++ "-" ++ String a3 (String b3 (String c3 (String d3 EmptyString))))
          = prefix ++ "-" ++ String a1 (String b1 (String c1 (String d1 EmptyString)))
                     ++ "-" ++ String a2 (String b2 (String c2 (String d2 EmptyString)))
                     ++ "-" ++ String a3 (String b3 (String c3 (String d3 EmptyString))))
    as Ht.
  { subst prefix. unfold JS.trim. cbn [append JS.trimStart]. rewrite Hsp.
    apply (trimEnd_app (String p rest)); [|discriminate].
    simpl. now rewrite Sd3. }
  split; [exact Ht|]. unfold normal_code. rewrite Ht.
  rewrite upper_app, Hup. f_equal. simpl.
  now rewrite Ua1, Ub1, Uc1, Ud1, Ua2, Ub2, Uc2, Ud2, Ua3, Ub3, Uc3, Ud3.
Qed.

Lemma issued_code_normal (src : RandomSource) (prefix : string) :
  well_formed src -> In prefix ["OFFLINE"; "ACE"; "LOCAL"] ->
  well_formatted prefix (generateSecureToken src prefix)
  /\ JS.trim (generateSecureToken src prefix) = generateSecureToken src prefix
  /\ normal_code (generateSecureToken src prefix).
Proof.
  intros Hwf Hin.
  pose proof (generateSecureToken_format src prefix Hwf) as Hf.
  split; [exact Hf|].
  destruct Hin as [<- | [<- | [<- | []]]];
    eapply formatted_code_normal; try exact Hf; reflexivity.
Qed.

End IssuedCodes.

(** A record just saved under a code without blanks around it is the one
    the lookup finds, and, being active and unbound, it follows the
    binding steps. *)
Lemma saved_unbound_record_binds
      (rec : TokenInfo) (tokens : LocalCache.Tokens) (fp : string) :
  JS.trim (token_code rec) = token_code rec ->
  is_active rec = true -> device_fingerprint rec = None ->
  fp <> EmptyString ->
  let cache := LocalCache.saveLocalToken rec tokens in
  let bind := verifyLocalToken (token_code rec) fp true cache in
  LocalCache.lookup (token_code rec) cache = Some rec
  /\ verifyLocalToken (token_code rec) fp false cache = (Throw BINDING_REQUIRED, cache)
  /\ fst bind = Ok (local_user rec)
  /\ LocalCache.lookup (token_code rec) (snd bind)
     = Some (apply_patch (bind_patch fp) rec)
  /\ (forall c, verifyLocalToken (token_code rec) fp c (snd bind)
                = (Ok (local_user rec), snd bind))
  /\ (forall G c, G <> fp ->
                  verifyLocalToken (token_code rec) G c (snd bind)
                  = (Throw msg_local_locked, snd bind)).
Proof.
  intros Ht Ha Hf Hfp cache bind.
  assert (LocalCache.lookup (token_code rec) cache = Some rec) as Hl.
  { unfold cache, LocalCache.lookup, LocalCache.saveLocalToken. simpl.
    now rewrite Ht, String.eqb_refl. }
  pose proof (verifyLocalToken_unbound (token_code rec) true cache rec Hl fp Ha Hf)
    as Hb.
  pose proof (verifyLocalToken_unbound (token_code rec) false cache rec Hl fp Ha Hf)
    as Hn.
  simpl in Hb, Hn.
  pose proof (lookup_after_local_bind (token_code rec) cache rec Hl fp) as Hl'.
  subst bind. rewrite Hb. cbn [fst snd].
  split; [exact Hl|]. split; [exact Hn|]. split; [reflexivity|].
  split; [exact Hl'|]. split.
  - intros c. apply (verifyLocalToken_same_device (token_code rec) c _ _ Hl' fp); auto.
  - intros G c HG.
    apply (verifyLocalToken_mismatch (token_code rec) c _ _ Hl' fp G); auto.
Qed.

(** X15: a token issued by [verifyPaystackPayment] in forced-offline mode
    has the format with prefix [OFFLINE], is put first in the cache as an
    active, unbound record carrying the payment data, and can be used on
    the device at once: verification without confirmation asks for the
    binding, verification with confirmation and a non-empty fingerprint
    succeeds and binds it, after which the same device is granted and
    every other device is refused as locked out. *)
Theorem offline_payment_token_binds
        (src : Generator.RandomSource) (now : nat -> Time)
        (online : Result Issuing.Issued)
        (reference email fullName phoneNumber examType : string) (amount : Z)
        (tokens : LocalCache.Tokens) (fp : string) :
  Generator.well_formed src ->
  fp <> EmptyString ->
  let issue :=
    Issuing.verifyPaystackPayment true src now online reference email fullName
      phoneNumber examType amount tokens in
  exists code rec,
    fst issue = Ok (Issuing.mkIssued true code)
    /\ Generator.well_formatted "OFFLINE" code
    /\ hd_error (snd issue) = Some rec
    /\ token_code rec = code /\ is_active rec = true
    /\ device_fingerprint rec = None /\ expires_at rec = None
    /\ payment_ref (metadata rec) = Some reference
    /\ amount_paid (metadata rec) = Some amount
    /\ generated_by (metadata rec) = None
    /\ verifyLocalToken code fp false (snd issue)
       = (Throw BINDING_REQUIRED, snd issue)
    /\ (let bind := verifyLocalToken code fp true (snd issue) in
        fst bind = Ok (local_user rec)
        /\ (forall c, signal_of_result (fst (verifyLocalToken code fp c (snd bind)))
                      = Granted)
        /\ (forall G c, G <> fp ->
                        signal_of_result (fst (verifyLocalToken code G c (snd bind)))
                        = DeviceMismatch)).
Proof.
  intros Hwf Hfp issue. subst issue. unfold Issuing.verifyPaystackPayment.
  cbn [fst snd].
  set (code := Generator.generateSecureToken src "OFFLINE").
  set (rec := mkToken (StampId (now 0%nat)) code true (now 1%nat) None None None _).
  destruct (issued_code_normal src "OFFLINE" Hwf ltac:(now left))
    as (Hfmt & Htrim & _).
  destruct (saved_unbound_record_binds rec tokens fp Htrim eq_refl eq_refl Hfp)
    as (_ & Hask & Hbind & _ & Hsame & Hother).
  exists code, rec.
  repeat match goal with |- _ /\ _ => split end; try reflexivity;
    try assumption.
  - intros c. change code with (token_code rec). now rewrite Hsame.
  - intros G c HG. change code with (token_code rec). now rewrite (Hother G c HG).
Qed.

Lemma offline_payment_token_binds_witness :
  exists code,
    fst (Issuing.verifyPaystackPayment true Sample2.source Sample.clock
           (Throw "unused") "PAY-7" "ada@example.org" "Ada Obi" "0800" "JAMB"
           1500%Z [])
    = Ok (Issuing.mkIssued true code)
    /\ Generator.well_formatted "OFFLINE" code
    /\ verifyLocalToken code "F1" false
         (snd (Issuing.verifyPaystackPayment true Sample2.source Sample.clock
                 (Throw "unused") "PAY-7" "ada@example.org" "Ada Obi" "0800" "JAMB"
                 1500%Z []))
       = (Throw BINDING_REQUIRED,
          snd (Issuing.verifyPaystackPayment true Sample2.source Sample.clock
                 (Throw "unused") "PAY-7" "ada@example.org" "Ada Obi" "0800" "JAMB"
                 1500%Z [])).
Proof.
  assert ("F1" <> EmptyString) as HF by discriminate.
  destruct (offline_payment_token_binds Sample2.source Sample.clock
              (Throw "unused") "PAY-7" "ada@example.org" "Ada Obi" "0800" "JAMB"
              1500%Z [] "F1" I HF)
    as (code & rec & H1 & H2 & _ & _ & _ & _ & _ & _ & _ & _ & H11 & _).
  exists code. repeat split; assumption.
Defined.

(** X16: [generateManualToken] does not fail: when the server call fails,
    or in forced-offline mode, it issues a code on the device, with prefix
    [LOCAL] (with [ACE] in forced-offline mode), cached first as an active
    unbound record marked as generated by the administrator, whose payment
    reference is the one given or, when that is empty, [MANUAL-] followed
    by the clock in decimal; this code verifies on the device like any
    unbound token.  When the server call succeeds the cache is not
    touched. *)
Theorem manual_token_falls_back_to_the_device
        (fo : bool) (src : Generator.RandomSource) (now : nat -> Time)
        (online : Result Issuing.Issued)
        (reference : string) (amount : Z) (examType fullName phoneNumber : string)
        (tokens : LocalCache.Tokens) (fp : string) :
  Generator.well_formed src ->
  fp <> EmptyString ->
  let out :=
    Issuing.generateManualToken fo src now online reference amount examType
      fullName phoneNumber tokens in
  (forall data, fo = false -> online = Ok data -> out = (data, tokens))
  /\ ((fo = true \/ exists m, online = Throw m) ->
      exists code rec,
        fst out = Issuing.mkIssued true code
        /\ Generator.well_formatted (if fo then "ACE" else "LOCAL") code
        /\ hd_error (snd out) = Some rec
        /\ token_code rec = code /\ is_active rec = true
        /\ device_fingerprint rec = None
        /\ generated_by (metadata rec) = Some "ADMIN"
        /\ payment_ref (metadata rec)
           = Some (if reference =? EmptyString
                   then "MANUAL-" ++ Text.of_number (now 2%nat) else reference)
        /\ verifyLocalToken code fp false (snd out)
           = (Throw BINDING_REQUIRED, snd out)
        /\ signal_of_result (fst (verifyLocalToken code fp true (snd out))) = Granted).
Proof.
  intros Hwf Hfp out. split.
  - intros data -> ->. reflexivity.
  - intros Hfall.
    assert (out = Issuing.generateLocalTokenImmediate fo src now reference amount
                    examType fullName phoneNumber tokens) as ->.
    { subst out. unfold Issuing.generateManualToken.
      destruct fo; [reflexivity|]. destruct Hfall as [Hfo | [m ->]];
        [discriminate | reflexivity]. }
    unfold Issuing.generateLocalTokenImmediate. cbn [fst snd].
    set (prefix := if fo then "ACE" else "LOCAL").
    set (code := Generator.generateSecureToken src prefix).
    set (rec := mkToken (StampId (now 0%nat)) code true (now 1%nat) None None None _).
    assert (In prefix ["OFFLINE"; "ACE"; "LOCAL"]) as Hin.
    { subst prefix. destruct fo; simpl; tauto. }
    destruct (issued_code_normal src prefix Hwf Hin) as (Hfmt & Htrim & _).
    destruct (saved_unbound_record_binds rec tokens fp Htrim eq_refl eq_refl Hfp)
      as (_ & Hask & Hbind & _).
    exists code, rec.
    repeat match goal with |- _ /\ _ => split end; try reflexivity;
      try assumption.
    change code with (token_code rec). now rewrite Hbind.
Qed.

Lemma manual_token_falls_back_to_the_device_witness :
  exists code,
    fst (Issuing.generateManualToken false Sample2.source Sample.clock
           (Throw "Failed to fetch") EmptyString 0%Z "BOTH" "Ada Obi" "0800" [])
    = Issuing.mkIssued true code
    /\ Generator.well_formatted "LOCAL" code.
Proof.
  assert ("F1" <> EmptyString) as HF by discriminate.
  pose proof (manual_token_falls_back_to_the_device false Sample2.source
                Sample.clock (Throw "Failed to fetch") EmptyString 0%Z "BOTH"
                "Ada Obi" "0800" [] "F1" I HF) as [_ H].
  destruct (H (or_intror (ex_intro _ "Failed to fetch" eq_refl)))
    as (code & rec & H1 & H2 & _).
  exists code. split; assumption.
Defined.

(** The made-up reference on sample data. *)
Lemma manual_reference_sample :
  option_map (fun r => payment_ref (metadata r))
    (hd_error
       (snd (Issuing.generateManualToken false Sample2.source Sample.clock
               (Throw "Failed to fetch") EmptyString 0%Z "BOTH" "Ada Obi" "0800" [])))
  = Some (Some "MANUAL-20002").
Proof. vm_compute. reflexivity. Qed.

(* ================================================================== *)
(** ** Accounts kept on the device *)

Section AccountFacts.

Import Accounts.

Lemma find_last (p : User -> bool) (l : list User) (x : User) :
  find p (l ++ [x])
  = match find p l with
    | Some a => Some a
    | None => if p x then Some x else None
    end.
Proof.
  induction l as [|a l IH]; simpl; [reflexivity|].
  destruct (p a); [reflexivity | exact IH].
Qed.

Lemma find_filter_other (name name' : string) (l : list User) :
  name' <> name ->
  find (is_user name') (filter (fun u => negb (is_user name u)) l)
  = find (is_user name') l.
Proof.
  intros Hne. induction l as [|a l IH]; simpl; [reflexivity|].
  destruct (is_user name a) eqn:E; simpl.
  - assert (is_user name' a = false) as ->; [|exact IH].
    unfold is_user in *. destruct (username a) as [s|]; [|reflexivity].
    apply String.eqb_eq in E. subst s. now apply String.eqb_neq.
  - destruct (is_user name' a); [reflexivity | exact IH].
Qed.

Lemma find_filter_same (name : string) (l : list User) :
  find (is_user name) (filter (fun u => negb (is_user name u)) l) = None.
Proof.
  induction l as [|a l IH]; simpl; [reflexivity|].
  destruct (is_user name a) eqn:E; simpl; [exact IH|]. now rewrite E.
Qed.

Lemma filter_students_absent (name : string) (l : list User) :
  find (is_user name) l = None ->
  filter (fun u => negb (is_user name u)) l = l.
Proof.
  induction l as [|a l IH]; simpl; [reflexivity|].
  destruct (is_user name a) eqn:E; [discriminate|].
  intros H. simpl. now rewrite IH.
Qed.

End AccountFacts.

(** X17: offline, a student who has just been registered can log in with
    the registration number and any password; the user returned is the
    earliest registered student with that number -- an earlier
    registration under the same number is kept and hides the new one --
    and becomes the session entry. *)
Theorem registered_student_logs_in
        (sha256 : string -> string) (online : Result unit) (online' : Result User)
        (fullName regNumber password : string) (st : Accounts.Store) :
  let registered :=
    snd (Accounts.registerStudent true online fullName regNumber st) in
  let login :=
    Accounts.loginUser sha256 true online' regNumber password student registered in
  let user :=
    match find (Accounts.is_user regNumber) (Accounts.students st) with
    | Some earlier => earlier
    | None => Accounts.student_user fullName regNumber
    end in
  fst login = Ok user
  /\ username user = Some regNumber
  /\ Accounts.session (snd login) = Some user
  /\ Accounts.students (snd login)
     = (Accounts.students st ++ [Accounts.student_user fullName regNumber])%list.
Proof.
  cbv zeta. unfold Accounts.registerStudent, Accounts.loginUser. simpl.
  rewrite find_last.
  destruct (find (Accounts.is_user regNumber) (Accounts.students st)) as [u|] eqn:E.
  - split; [reflexivity|]. split; [|split; reflexivity].
    apply find_some in E. destruct E as [_ E].
    unfold Accounts.is_user in E. destruct (username u); [|discriminate].
    apply String.eqb_eq in E. now subst.
  - assert (Accounts.is_user regNumber (Accounts.student_user fullName regNumber)
            = true) as -> by (unfold Accounts.is_user; simpl; apply String.eqb_refl).
    split; [reflexivity|]. split; [reflexivity|]. split; reflexivity.
Qed.

(** X18: offline, [deleteStudent] removes every student with that user
    name and nothing else: afterwards a login with the name fails as not
    found and changes nothing, a login with any other name gives the user
    it gave before, and the session entry is kept even when it is the
    deleted student; deleting a student registered under a new number
    gives back the former list. *)
Theorem deleted_student_cannot_log_in
        (sha256 : string -> string) (online : Result unit) (online' : Result User)
        (name password : string) (st : Accounts.Store) :
  let deleted := snd (Accounts.deleteStudent true online name st) in
  Accounts.loginUser sha256 true online' name password student deleted
  = (Throw Accounts.msg_student_missing, deleted)
  /\ (forall name',
         name' <> name ->
         fst (Accounts.loginUser sha256 true online' name' password student deleted)
         = fst (Accounts.loginUser sha256 true online' name' password student st))
  /\ Accounts.session deleted = Accounts.session st
  /\ (forall fullName,
         find (Accounts.is_user name) (Accounts.students st) = None ->
         Accounts.students
           (snd (Accounts.deleteStudent true online name
                   (snd (Accounts.registerStudent true online fullName name st))))
         = Accounts.students st).
Proof.
  cbv zeta. unfold Accounts.deleteStudent, Accounts.loginUser. simpl.
  split; [now rewrite find_filter_same|]. split.
  { intros name' Hne. rewrite (find_filter_other name name' _ Hne).
    destruct (find (Accounts.is_user name') (Accounts.students st)); reflexivity. }
  split; [reflexivity|].
  intros fullName Habs. unfold Accounts.registerStudent. simpl.
  rewrite filter_app. simpl.
  assert (Accounts.is_user name (Accounts.student_user fullName name) = true)
    as -> by (unfold Accounts.is_user; simpl; apply String.eqb_refl).
  simpl. rewrite app_nil_r. now apply filter_students_absent.
Qed.

Lemma deleted_student_cannot_log_in_witness :
  fst (Accounts.loginUser Sample2.digest true (Throw "unused") "REG-2" "x" student
         (snd (Accounts.deleteStudent true (Throw "unused") "REG-1"
                 (Accounts.mkStore
                    [Accounts.student_user "Ada" "REG-1";
                     Accounts.student_user "Obi" "REG-2"]
                    Accounts.NoEntry None))))
  = Ok (Accounts.student_user "Obi" "REG-2").
Proof.
  assert ("REG-2" <> "REG-1") as Hne by discriminate.
  rewrite (proj1 (proj2 (deleted_student_cannot_log_in Sample2.digest
                           (Throw "unused") (Throw "unused") "REG-1" "x"
                           (Accounts.mkStore
                              [Accounts.student_user "Ada" "REG-1";
                               Accounts.student_user "Obi" "REG-2"]
                              Accounts.NoEntry None)))
                 "REG-2" Hne).
  reflexivity.
Defined.

(** X19: the first offline login of the administrator, with no stored
    credentials, stores the default user name with the digest of the
    default password, whether the login succeeds or not; it succeeds
    exactly when the name is [admin] in any letter case and the digest of
    the password is that of [admin], and then returns the administrator
    and makes it the session entry. *)
Theorem first_admin_login_stores_the_default
        (sha256 : string -> string) (online : Result User)
        (name password : string) (st : Accounts.Store) :
  Accounts.admin_entry st = Accounts.NoEntry ->
  let login := Accounts.loginUser sha256 true online name password admin st in
  let stored := Accounts.mkCredentials "admin" (sha256 "admin") in
  Accounts.admin_entry (snd login) = Accounts.Stored stored
  /\ Accounts.students (snd login) = Accounts.students st
  /\ ((Text.toLowerCase name = "admin" /\ sha256 password = sha256 "admin") ->
      fst login = Ok (Accounts.admin_user stored)
      /\ Accounts.session (snd login) = Some (Accounts.admin_user stored))
  /\ (~ (Text.toLowerCase name = "admin" /\ sha256 password = sha256 "admin") ->
      fst login = Throw Accounts.msg_admin_invalid
      /\ Accounts.session (snd login) = Accounts.session st).
Proof.
  intros He login stored. subst login stored.
  unfold Accounts.loginUser. rewrite He.
  cbv beta iota zeta
      delta [Accounts.default_admin Accounts.cred_username Accounts.cred_password].
  change (Text.toLowerCase "admin") with "admin".
  assert ((Text.toLowerCase name =? "admin") && (sha256 password =? sha256 "admin")
          = true
          <-> Text.toLowerCase name = "admin" /\ sha256 password = sha256 "admin")
    as Hdec.
  { rewrite andb_true_iff, !String.eqb_eq. tauto. }
  destruct ((Text.toLowerCase name =? "admin")
            && (sha256 password =? sha256 "admin")) eqn:E; cbn [fst snd].
  - split; [reflexivity|]. split; [reflexivity|]. split.
    + intros _. split; reflexivity.
    + intros Hn. elim Hn. now apply Hdec.
  - split; [reflexivity|]. split; [reflexivity|]. split.
    + intros H. apply Hdec in H. discriminate.
    + intros _. split; reflexivity.
Qed.

Lemma first_admin_login_stores_the_default_witness :
  fst (Accounts.loginUser Sample2.digest true (Throw "unused") "Admin" "admin" admin
         Sample2.store)
  = Ok (Accounts.admin_user (Accounts.mkCredentials "admin" "sha:admin")).
Proof.
  exact (proj1 (proj1 (proj2 (proj2
           (first_admin_login_stores_the_default Sample2.digest (Throw "unused")
              "Admin" "admin" Sample2.store eq_refl)))
           (conj eq_refl eq_refl))).
Defined.

(** X20: offline, with stored credentials and names of ASCII characters,
    [updateAdminCredentials] is accepted exactly when the current name
    matches the stored one in any letter case and the digest of the
    current password is the stored password; it then stores the new name
    with the digest of the new password, after which the administrator
    logs in with the new password under the new name in any letter case,
    and no password with another digest is accepted; a refused update
    changes nothing. *)
Theorem admin_credentials_round_trip
        (sha256 : string -> string) (online : Result unit) (online' : Result User)
        (currentUsername currentPass newUsername newPass : string)
        (st : Accounts.Store) (c : Accounts.Credentials) :
  Accounts.admin_entry st = Accounts.Stored c ->
  JS.ascii_only currentUsername = true ->
  JS.ascii_only (Accounts.cred_username c) = true ->
  JS.ascii_only newUsername = true ->
  let update :=
    Accounts.updateAdminCredentials sha256 true online currentUsername currentPass
      newUsername newPass st in
  let fresh := Accounts.mkCredentials newUsername (sha256 newPass) in
  ((Text.toLowerCase currentUsername = Text.toLowerCase (Accounts.cred_username c)
    /\ sha256 currentPass = Accounts.cred_password c) ->
   fst update = Ok tt
   /\ Accounts.admin_entry (snd update) = Accounts.Stored fresh
   /\ Accounts.students (snd update) = Accounts.students st
   /\ Accounts.session (snd update) = Accounts.session st
   /\ (forall name,
          JS.ascii_only name = true ->
          Text.toLowerCase name = Text.toLowerCase newUsername ->
          fst (Accounts.loginUser sha256 true online' name newPass admin (snd update))
          = Ok (Accounts.admin_user fresh))
   /\ (forall name password,
          sha256 password <> sha256 newPass ->
          fst (Accounts.loginUser sha256 true online' name password admin (snd update))
          = Throw Accounts.msg_admin_invalid))
  /\ (~ (Text.toLowerCase currentUsername
         = Text.toLowerCase (Accounts.cred_username c)
         /\ sha256 currentPass = Accounts.cred_password c) ->
      update = (Throw Accounts.msg_credentials_incorrect, st)).
Proof.
  intros He _ _ _ update fresh. subst update fresh.
  unfold Accounts.updateAdminCredentials. rewrite He.
  assert (negb (Text.toLowerCase currentUsername
                =? Text.toLowerCase (Accounts.cred_username c))
          || negb (sha256 currentPass =? Accounts.cred_password c) = false
          <-> Text.toLowerCase currentUsername
              = Text.toLowerCase (Accounts.cred_username c)
              /\ sha256 currentPass = Accounts.cred_password c) as Hdec.
  { rewrite orb_false_iff, !negb_false_iff, !String.eqb_eq. tauto. }
  destruct (negb (Text.toLowerCase currentUsername
                  =? Text.toLowerCase (Accounts.cred_username c))
            || negb (sha256 currentPass =? Accounts.cred_password c)) eqn:E.
  - split.
    + intros H. apply Hdec in H. discriminate.
    + intros _. reflexivity.
  - split; [|intros Hn; elim Hn; now apply Hdec].
    intros _. cbn [fst snd Accounts.admin_entry Accounts.students Accounts.session].
    split; [reflexivity|]. split; [reflexivity|]. split; [reflexivity|].
    split; [reflexivity|]. split.
    + intros name _ Hname. unfold Accounts.loginUser.
      cbn [Accounts.admin_entry Accounts.cred_username Accounts.cred_password].
      now rewrite Hname, !String.eqb_refl.
    + intros name password Hp. unfold Accounts.loginUser.
      cbn [Accounts.admin_entry Accounts.cred_username Accounts.cred_password].
      apply String.eqb_neq in Hp. rewrite Hp, andb_false_r. reflexivity.
Qed.

Lemma admin_credentials_round_trip_witness :
  fst (Accounts.loginUser Sample2.digest true (Throw "unused") "ROOT" "s3cret" admin
         (snd (Accounts.updateAdminCredentials Sample2.digest true (Throw "unused")
                 "Admin" "admin" "root" "s3cret"
                 (Accounts.mkStore []
                    (Accounts.Stored (Accounts.mkCredentials "admin" "sha:admin"))
                    None))))
  = Ok (Accounts.admin_user (Accounts.mkCredentials "root" "sha:s3cret")).
Proof.
  refine (proj1 (proj2 (proj2 (proj2 (proj2
            (proj1 (admin_credentials_round_trip Sample2.digest (Throw "unused")
                      (Throw "unused") "Admin" "admin" "root" "s3cret"
                      (Accounts.mkStore []
                         (Accounts.Stored (Accounts.mkCredentials "admin" "sha:admin"))
                         None)
                      (Accounts.mkCredentials "admin" "sha:admin")
                      eq_refl eq_refl eq_refl eq_refl)
                   (conj eq_refl eq_refl)))))) "ROOT" eq_refl eq_refl).
Defined.

(** X21: offline, as long as no credentials are stored (no entry, or an
    entry that cannot be parsed), [updateAdminCredentials] refuses every
    input, the default password included, because it compares the digest
    of the current password with the default password in clear; with an
    entry that cannot be parsed [loginUser] refuses the administrator as
    well, for the same reason.  This holds for every digest that never
    returns the text [admin], as a hexadecimal digest of 64 characters
    does not. *)
Theorem credentials_are_locked_without_a_stored_entry
        (sha256 : string -> string) (online : Result unit) (online' : Result User)
        (currentUsername currentPass newUsername newPass : string)
        (st : Accounts.Store) :
  (forall s, sha256 s <> "admin") ->
  (forall c, Accounts.admin_entry st <> Accounts.Stored c) ->
  Accounts.updateAdminCredentials sha256 true online currentUsername currentPass
    newUsername newPass st
  = (Throw Accounts.msg_credentials_incorrect, st)
  /\ (Accounts.admin_entry st = Accounts.Corrupt ->
      forall name password,
        Accounts.loginUser sha256 true online' name password admin st
        = (Throw Accounts.msg_admin_invalid, st)).
Proof.
  intros Hsha Hent. split.
  - unfold Accounts.updateAdminCredentials.
    assert (match Accounts.admin_entry st with
            | Accounts.Stored c => c
            | _ => Accounts.default_admin
            end = Accounts.default_admin) as ->.
    { destruct (Accounts.admin_entry st) as [| |c]; try reflexivity.
      now elim (Hent c). }
    cbn [Accounts.default_admin Accounts.cred_username Accounts.cred_password].
    assert ((sha256 currentPass =? "admin") = false) as ->
        by (apply String.eqb_neq, Hsha).
    now rewrite orb_true_r.
  - intros Hc name password. unfold Accounts.loginUser. rewrite Hc.
    cbv beta iota zeta
        delta [Accounts.default_admin Accounts.cred_username Accounts.cred_password].
    assert ((sha256 password =? "admin") = false) as ->
        by (apply String.eqb_neq, Hsha).
    rewrite andb_false_r. destruct st; simpl in *. now subst.
Qed.

Lemma credentials_are_locked_without_a_stored_entry_witness :
  Accounts.updateAdminCredentials Sample2.digest true (Throw "unused")
    "admin" "admin" "root" "s3cret" Sample2.store
  = (Throw Accounts.msg_credentials_incorrect, Sample2.store).
Proof.
  refine (proj1 (credentials_are_locked_without_a_stored_entry Sample2.digest
                   (Throw "unused") (Throw "unused") "admin" "admin" "root" "s3cret"
                   Sample2.store _ _)).
  - intros s. unfold Sample2.digest. discriminate.
  - intros c. discriminate.
Defined.

(* ================================================================== *)
(** ** The listing without the server *)

Lemma merge_first_wins (localTokens acc : list TokenInfo) (e : TokenInfo) :
  In e (Client.merge acc localTokens) ->
  In e acc
  \/ (~ In (token_code e) (codes acc)
      /\ find (fun t => token_code t =? token_code e) localTokens = Some e).
Proof.
  unfold Client.merge. revert acc.
  induction localTokens as [|t l IH]; intros acc Hin; simpl in *; [now left|].
  destruct (Client.has_code (token_code t) acc) eqn:E.
  - destruct (IH acc Hin) as [H | [Hn Hf]]; [now left|].
    right. split; [exact Hn|].
    destruct (token_code t =? token_code e) eqn:Et; [|exact Hf].
    apply String.eqb_eq in Et. apply has_code_In in E. rewrite Et in E. tauto.
  - destruct (IH (acc ++ [t])%list Hin) as [H | [Hn Hf]].
    + apply in_app_or in H. destruct H as [H | [<- | []]]; [now left|].
      right. split.
      * intros H. apply has_code_In in H. congruence.
      * now rewrite String.eqb_refl.
    + right. unfold codes in Hn. rewrite map_app in Hn. split.
      * intros H. apply Hn. apply in_or_app. now left.
      * destruct (token_code t =? token_code e) eqn:Et; [|exact Hf].
        apply String.eqb_eq in Et. elim Hn. apply in_or_app. right.
        simpl. now left.
Qed.

(** X22: without the server -- forced offline, or the call failing --
    [getAllTokens] lists the cache alone: whatever the cache holds, no two
    listed records share a code, each listed record is the first cached
    record with its code, every cached code is listed, and the list is
    ordered by creation date, newest first. *)
Theorem listing_without_server
        (fo : bool) (online : Result (list TokenInfo))
        (localTokens : LocalCache.Tokens) :
  fo = true \/ (exists m, online = Throw m) ->
  let result := Client.getAllTokens fo online localTokens in
  NoDup (codes result)
  /\ (forall e, In e result ->
                find (fun t => token_code t =? token_code e) localTokens = Some e)
  /\ incl (codes localTokens) (codes result)
  /\ StronglySorted not_older result.
Proof.
  intros Hoff result.
  assert (result = Client.sort Client.newest_first (Client.merge [] localTokens))
    as ->.
  { subst result. unfold Client.getAllTokens.
    destruct fo; [reflexivity|]. destruct Hoff as [H | [m ->]];
      [discriminate | reflexivity]. }
  destruct (merge_shape localTokens []) as (extra & Hm & _ & Hn & _ & Hc).
  pose proof (sort_perm (Client.merge [] localTokens)) as Hp.
  split.
  { apply (Permutation_NoDup (l := codes (Client.merge [] localTokens))).
    - unfold codes. apply Permutation_map. now symmetry.
    - rewrite Hm. exact Hn. }
  split.
  { intros e He. apply (Permutation_in _ Hp) in He.
    destruct (merge_first_wins localTokens [] e He) as [[] | [_ Hf]]. exact Hf. }
  split.
  { intros c Hin. apply Hc in Hin. rewrite <- Hm in Hin.
    apply (Permutation_in _ (Permutation_map token_code (Permutation_sym Hp))).
    exact Hin. }
  apply sort_sorted.
Qed.

Lemma listing_without_server_witness :
  NoDup (codes (Client.getAllTokens false (Throw "Failed to fetch")
                  [Sample.fresh; Sample.bound_F1])).
Proof.
  refine (proj1 (listing_without_server false (Throw "Failed to fetch")
                   [Sample.fresh; Sample.bound_F1] _)).
  right. now exists "Failed to fetch".
Defined.

(* ================================================================== *)
(** ** Expiry on the servers that write it *)

(** X23: the version of the handler with the expiry check refuses an
    active token whose expiry lies strictly before the clock, for every
    fingerprint and flag and whether the token is bound or not, and writes
    nothing: such a token can no longer be bound.  A token whose expiry
    equals the clock is not answered with the expiry refusal. *)
Theorem expiry_server_never_binds_an_expired_token
        (token fp : string) (c : bool) (table : Remote.DB) (row : TokenInfo)
        (write : Remote.WriteOutcome) (now : nat -> Time) (e : Time) :
  Remote.select_single (Remote.by_code token) table = Some row ->
  is_active row = true ->
  expires_at row = Some e ->
  let answer :=
    Remote.ServerExpiry.login_with_token write now
      (Remote.mkLoginRequest token fp c) table in
  let refusal := Remote.mkResponse 403 (Remote.ErrorBody "Access Code Expired.") in
  ((e < now 0%nat)%Z -> answer = (refusal, table))
  /\ (e = now 0%nat -> fst answer <> refusal).
Proof.
  intros Hs Ha He answer refusal. subst answer refusal.
  unfold Remote.ServerExpiry.login_with_token. simpl. rewrite Hs, Ha, He. simpl.
  split.
  - intros Hlt. apply Z.ltb_lt in Hlt. now rewrite Hlt.
  - intros ->. rewrite Z.ltb_irrefl.
    destruct (JS.truthy (device_fingerprint row)); simpl.
    + destruct (JS.strict_neq _ _); simpl; discriminate.
    + destruct c; simpl; [|discriminate].
      destruct write as [m|]; simpl; [discriminate|].
      match goal with
      | |- context [match ?x with Some _ => _ | None => _ end] => destruct x
      end; simpl; discriminate.
Qed.

Lemma expiry_server_never_binds_an_expired_token_witness :
  Remote.ServerExpiry.login_with_token None Sample.clock
    (Remote.mkLoginRequest Sample.code1 "F9" true)
    [Sample.record true None None (Some 9000%Z)]
  = (Remote.mkResponse 403 (Remote.ErrorBody "Access Code Expired."),
     [Sample.record true None None (Some 9000%Z)]).
Proof.
  refine (proj1 (expiry_server_never_binds_an_expired_token Sample.code1 "F9" true
                   [Sample.record true None None (Some 9000%Z)]
                   (Sample.record true None None (Some 9000%Z))
                   None Sample.clock 9000%Z eq_refl eq_refl eq_refl) _).
  reflexivity.
Defined.

(** X24: on the server that stamps bindings, a device reset followed by a
    bind renews the expiry: whatever [expires_at] and [bound_at] the
    active token had, expired or not, after the reset and a confirmed
    login from a device with fingerprint [G] the token is bound to [G],
    stamped with the clock, and expires one calendar year after the clock
    ([setFullYear(getFullYear() + 1)] in the time zone of the server, of
    fixed offset [tz]): 365 or 366 days ahead of the clock, in the year
    after.  The clock is a valid date at least 366 days before the last
    one. *)
Theorem reset_then_bind_renews_the_expiry
        (code G : string) (table : Remote.DB) (row : TokenInfo)
        (tz : Z) (now : nat -> Time) :
  Remote.select_single (Remote.by_code code) table = Some row ->
  is_active row = true ->
  (Z.abs tz <= JSDate.msPerDay)%Z ->
  JSDate.valid_time (now 0%nat) -> JSDate.valid_time (now 1%nat) ->
  (now 0%nat + 366 * JSDate.msPerDay <= JSDate.maxTime)%Z ->
  let cleared := snd (Remote.ServerStamp.reset_token_device None code table) in
  let bound :=
    Remote.ServerStamp.login_with_token_in tz None now
      (Remote.mkLoginRequest code G true) cleared in
  let expiry := JSDate.plus_one_year tz (now 0%nat) in
  signal_of_response (fst bound) = Granted
  /\ (exists row',
         Remote.select_single (Remote.by_code code) (snd bound) = Some row'
         /\ device_fingerprint row' = Some G
         /\ bound_at row' = Some (now 1%nat)
         /\ expires_at row' = Some expiry
         /\ identity_part row' = identity_part row)
  /\ (expiry = now 0%nat + 365 * JSDate.msPerDay
      \/ expiry = now 0%nat + 366 * JSDate.msPerDay)%Z
  /\ (now 0%nat < expiry)%Z
  /\ JSDate.getFullYear tz expiry = (JSDate.getFullYear tz (now 0%nat) + 1)%Z.
Proof.
  intros Hs Ha Htz Hv0 Hv1 Hmax cleared bound expiry.
  assert (Remote.select_single (Remote.by_code code) cleared
          = Some (apply_patch reset_patch row)) as Hc.
  { apply (select_after_patch_by_code code table row reset_patch Hs). }
  destruct (bind_stamp_step code G cleared (apply_patch reset_patch row)
              (JSDate.plus_one_year tz) now Hc Ha eq_refl) as (H1 & H2).
  destruct (plus_one_year_spec tz (now 0%nat)) as (Hdays & Hyear & _).
  fold expiry in Hdays, Hyear.
  split; [exact H1|]. split.
  { eexists. split; [exact H2|]. repeat split. }
  split; [exact Hdays|]. split; [|exact Hyear].
  unfold JSDate.msPerDay in Hdays. lia.
Qed.

Lemma reset_then_bind_renews_the_expiry_witness :
  option_map expires_at
    (Remote.select_single (Remote.by_code Sample.code1)
       (snd (Remote.ServerStamp.login_with_token_in 0 None Sample.clock
               (Remote.mkLoginRequest Sample.code1 "F2" true)
               (snd (Remote.ServerStamp.reset_token_device None Sample.code1
                       [Sample.bound_F1])))))
  = Some (Some 31536020000%Z).
Proof.
  assert (Z.abs 0 <= JSDate.msPerDay)%Z as Htz by (vm_compute; discriminate).
  assert (JSDate.valid_time (Sample.clock 0)) as H0
      by (split; vm_compute; discriminate).
  assert (JSDate.valid_time (Sample.clock 1)) as H1
      by (split; vm_compute; discriminate).
  assert (Sample.clock 0 + 366 * JSDate.msPerDay <= JSDate.maxTime)%Z as Hm
      by (vm_compute; discriminate).
  destruct (reset_then_bind_renews_the_expiry Sample.code1 "F2" [Sample.bound_F1]
              Sample.bound_F1 0%Z Sample.clock eq_refl eq_refl Htz H0 H1 Hm)
    as (_ & (row' & Hsel & _ & _ & Hexp & _) & _).
  cbv zeta in Hsel. rewrite Hsel. simpl. rewrite Hexp. reflexivity.
Defined.
